(** * Nutrition backend: aggregation, deficiency scoring, recommendation,
      response parsing

    A shallow embedding of [app.py] (and of the parser duplicated in
    [static/diet_consult.py]).

    Conventions of the embedding.
    - A Python [str] is a [string]; a character stands for the code point
      of the same number, so the strings covered are those whose code
      points are below 256.
    - A Python [float] has two models.  The first part of the file takes it
      as an exact rational ([Qc], canonical fractions, so that equal
      numbers are equal terms); the statements over it say so, and hold up
      to the rounding of the float operations.  The module [Float64] takes
      it as what it is, an IEEE 754 binary64 number (the primitive [float],
      with its rounding, infinities and NaN), and follows the same source
      lines; the statements in which a comparison, a rounding or a value
      that is not a number decides are made over it.  [PyFloat] holds
      [round] and the printing of a float.
    - A Python [dict] is an association list in insertion order with
      pairwise distinct keys: [d[k] = v] overwrites in place or appends.
    - The two outbound calls that the modelled code consumes, the food
      database lookup and [json.loads], are parameters, and so is the
      [pow] of the C library, which [**] calls. *)

From Stdlib Require Import ZArith QArith Qcanon Qround.
From Stdlib Require Import String Ascii List Bool Lia Lqa DecimalString.
From Stdlib Require Import Permutation Floats.

#[local] Set Warnings "-inexact-float".
Import ListNotations.

Open Scope string_scope.
Open Scope Qc_scope.

(** ** Python strings *)

Module PyStr.

(** [c.isspace()] for code points below 256. *)
Definition isspace (c : ascii) : bool :=
  let n := nat_of_ascii c in
  ((9 <=? n) && (n <=? 13) || (28 <=? n) && (n <=? 32)
   || (n =? 133) || (n =? 160))%nat.

Fixpoint lstrip (s : string) : string :=
  match s with
  | EmptyString => EmptyString
  | String c s' => if isspace c then lstrip s' else s
  end.

Fixpoint rstrip (s : string) : string :=
  match s with
  | EmptyString => EmptyString
  | String c s' =>
      match rstrip s' with
      | EmptyString => if isspace c then EmptyString else String c EmptyString
      | r => String c r
      end
  end.

(** [s.strip()] *)
Definition strip (s : string) : string := rstrip (lstrip s).

(** [c.lower()] for code points below 256: A-Z, and the Latin-1 capitals
    192-222 except the multiplication sign 215. *)
Definition lower_char (c : ascii) : ascii :=
  let n := nat_of_ascii c in
  if ((65 <=? n) && (n <=? 90)
      || (192 <=? n) && (n <=? 222) && negb (n =? 215))%nat
  then ascii_of_nat (n + 32) else c.

(** [s.lower()] *)
Fixpoint lower (s : string) : string :=
  match s with
  | EmptyString => EmptyString
  | String c s' => String (lower_char c) (lower s')
  end.

(** [sub in s] *)
Fixpoint contains (sub s : string) : bool :=
  prefix sub s ||
  match s with
  | EmptyString => false
  | String _ s' => contains sub s'
  end.

(** [x in (a, b, c)] for a tuple of strings *)
Definition in_tuple (x : string) (t : list string) : bool :=
  existsb (String.eqb x) t.

(** Offset of the first occurrence of [c], as [s.find(c)]. *)
Fixpoint find_char (c : ascii) (s : string) : option nat :=
  match s with
  | EmptyString => None
  | String a s' =>
      if Ascii.eqb a c then Some 0%nat
      else option_map S (find_char c s')
  end.

(** Offset of the last occurrence of [c], as [s.rfind(c)]. *)
Fixpoint rfind_char (c : ascii) (s : string) : option nat :=
  match s with
  | EmptyString => None
  | String a s' =>
      match rfind_char c s' with
      | Some i => Some (S i)
      | None => if Ascii.eqb a c then Some 0%nat else None
      end
  end.

(** [s[n:]] *)
Fixpoint drop (n : nat) (s : string) : string :=
  match n, s with
  | O, _ => s
  | S n', String _ s' => drop n' s'
  | S _, EmptyString => EmptyString
  end.

(** [s[:n]] *)
Fixpoint take (n : nat) (s : string) : string :=
  match n, s with
  | S n', String a s' => String a (take n' s')
  | _, _ => EmptyString
  end.

(** [re.search(r"\{.*\}", text, flags=re.S)], returning [m.group(0)].
    The search tries start offsets from the left, so it starts at the first
    opening brace; with [re.S] the dot matches every character, and the star
    is greedy, so the match ends at the last closing brace after that
    start.  When no closing brace follows the first opening brace none
    follows a later one either, and there is no match. *)
Definition search_braces (text : string) : option string :=
  match find_char "{" text with
  | None => None
  | Some i =>
      let rest := drop i text in
      match rfind_char "}" rest with
      | None => None
      | Some j => Some (take (S j) rest)
      end
  end.

End PyStr.

(** ** Python dicts, in insertion order *)

Module PyDict.

Definition dict (V : Type) : Type := list (string * V).

(** [d.get(k)] *)
Fixpoint get {V} (d : dict V) (k : string) : option V :=
  match d with
  | [] => None
  | (k', v) :: d' => if String.eqb k' k then Some v else get d' k
  end.

(** [d.get(k, default)] *)
Definition get_default {V} (d : dict V) (k : string) (default : V) : V :=
  match get d k with
  | Some v => v
  | None => default
  end.

(** [d[k] = v]: an existing key keeps its position, a new key goes last. *)
Fixpoint set {V} (d : dict V) (k : string) (v : V) : dict V :=
  match d with
  | [] => [(k, v)]
  | (k', v') :: d' =>
      if String.eqb k' k then (k', v) :: d' else (k', v') :: set d' k v
  end.

(** [list(d.keys())] *)
Definition keys {V} (d : dict V) : list string := map fst d.

(** [k in d] *)
Definition mem {V} (k : string) (d : dict V) : bool :=
  match get d k with
  | Some _ => true
  | None => false
  end.

End PyDict.

(** ** Python numbers, over exact arithmetic *)

Module PyNum.

Definition ltb (x y : Qc) : bool :=
  if Qclt_le_dec x y then true else false.

Definition leb (x y : Qc) : bool :=
  if Qclt_le_dec y x then false else true.

(** Truth value of a number: [bool(x)] is [x != 0]. *)
Definition truthy (x : Qc) : bool :=
  if Qc_eq_dec x 0 then false else true.

(** Nearest integer, ties to the even one. *)
Definition round_half_even (x : Q) : Z :=
  let f := Qfloor x in
  match Qcompare (x - inject_Z f) (1 # 2) with
  | Lt => f
  | Gt => (f + 1)%Z
  | Eq => if Z.even f then f else (f + 1)%Z
  end.

(** [round(x, 2)], as a count of hundredths. *)
Definition round2_hundredths (x : Qc) : Z :=
  round_half_even (x * 100)%Q.

(** [round(x, 2)] *)
Definition round2 (x : Qc) : Qc :=
  Q2Qc (inject_Z (round2_hundredths x) / 100).

Definition digits (n : Z) : string :=
  NilZero.string_of_uint (N.to_uint (Z.to_N n)).

(** [repr] of the float that is [n] hundredths: the shortest decimal that
    reads back as it, which has at least one and at most two digits after
    the point.  (From 1e16 on Python switches to exponent notation; such
    magnitudes are outside the model.) *)
Definition repr_hundredths (n : Z) : string :=
  let a := Z.abs n in
  let frac := (a mod 100)%Z in
  (if (n <? 0)%Z then "-" else "")
  ++ digits (a / 100) ++ "."
  ++ (if (frac mod 10 =? 0)%Z then digits (frac / 10)
      else digits (frac / 10) ++ digits (frac mod 10)).

(** [f"{round(x, 2)}"] *)
Definition fmt_round2 (x : Qc) : string :=
  repr_hundredths (round2_hundredths x).

End PyNum.

Import PyStr PyDict PyNum.

(** ** Unit Normalizer: [convert_to_mg] *)

Definition convert_to_mg (amount : Qc) (unit : string) : Qc :=
  let unit := lower unit in
  if in_tuple unit ["g"; "gram"; "grams"] then amount * Q2Qc 1000
  else if in_tuple unit ["mg"; "milligram"; "milligrams"] then amount
  else amount.

(** ** Nutrient Matcher: [NUTRIENT_KEY_MAP] and the matching loop of
       [analyze] *)

Definition NUTRIENT_KEY_MAP : dict (list string) :=
  [ ("Protein", ["protein"]);
    ("Vitamin C", ["vitamin c"; "ascorbic acid"]);
    ("Iron", ["iron"]);
    ("Calcium", ["calcium"]);
    ("Fiber", ["fiber"; "dietary fiber"]) ].

(** [any(s in low for s in substrings)] *)
Definition any_in (substrings : list string) (low : string) : bool :=
  existsb (fun s => contains s low) substrings.

(** The loop [for friendly, substrings in table.items()] with its [break]:
    [None] is the initial [matched_key = None]. *)
Fixpoint first_match (table : dict (list string)) (low : string)
  : option string :=
  match table with
  | [] => None
  | (friendly, substrings) :: rest =>
      if any_in substrings low then Some friendly
      else first_match rest low
  end.

Definition matched_key (full_name : string) : option string :=
  first_match NUTRIENT_KEY_MAP (lower full_name).

(** The five canonical nutrients. *)
Definition canonical : list string :=
  ["Protein"; "Vitamin C"; "Iron"; "Calcium"; "Fiber"].

(** ** Nutrient Aggregator: the accumulation loop of [analyze] *)

(** An entry of the request's [items], after the coercions of the loop head:
    a missing name is the empty string, a missing or unreadable quantity
    is 0. *)
Record FoodItem : Type := mkItem { name : string; qty : Qc }.

(** What [get_food_nutrients] returns: nutrient name to (value per 100 g,
    unit). *)
Definition Nutrients : Type := dict (Qc * string).

(** Body of [for full_name, (val, unit) in nut.items()]. *)
Definition add_nutrient (qty_g : Qc) (totals_mg : dict Qc)
    (entry : string * (Qc * string)) : dict Qc :=
  let '(full_name, (val, unit)) := entry in
  let actual := val * (qty_g / Q2Qc 100) in
  match matched_key full_name with
  | None => totals_mg
  | Some key =>
      let amount_mg := convert_to_mg actual unit in
      set totals_mg key (get_default totals_mg key 0 + amount_mg)
  end.

(** Body of [for it in items]. *)
Definition add_item (get_food_nutrients : string -> Nutrients)
    (totals_mg : dict Qc) (it : FoodItem) : dict Qc :=
  let name := strip (name it) in
  let qty_g := qty it in
  if String.eqb name "" || leb qty_g 0 then totals_mg
  else fold_left (add_nutrient qty_g) (get_food_nutrients name) totals_mg.

(** The loop from a given state of [totals_mg]. *)
Definition aggregate_from (get_food_nutrients : string -> Nutrients)
    (totals_mg : dict Qc) (items : list FoodItem) : dict Qc :=
  fold_left (add_item get_food_nutrients) items totals_mg.

(** [totals_mg] as [analyze] hands it to [calculate_deficiency]. *)
Definition aggregate (get_food_nutrients : string -> Nutrients)
    (items : list FoodItem) : dict Qc :=
  aggregate_from get_food_nutrients [] items.

(** ** Deficiency Scorer: [calculate_deficiency] *)

(** The [baseline] dict: its five keys are fixed by the literal and every
    subscript names one of them, so it is a record. *)
Record Baseline : Type := mkBaseline {
  Protein_g : Qc;
  Vitamin_C_mg : Qc;
  Iron_mg : Qc;
  Calcium_mg : Qc;
  Fiber_g : Qc
}.

Definition initial_baseline (gender : string) : Baseline :=
  {| Protein_g := Q2Qc 50;
     Vitamin_C_mg := Q2Qc 90;
     Iron_mg := if String.eqb (lower gender) "female" then Q2Qc 18
                else Q2Qc 8;
     Calcium_mg := Q2Qc 1000;
     Fiber_g := Q2Qc 30 |}.

(** [for k in list(baseline.keys()): baseline[k] *= c] *)
Definition scale (c : Qc) (b : Baseline) : Baseline :=
  {| Protein_g := Protein_g b * c;
     Vitamin_C_mg := Vitamin_C_mg b * c;
     Iron_mg := Iron_mg b * c;
     Calcium_mg := Calcium_mg b * c;
     Fiber_g := Fiber_g b * c |}.

Definition bmi_of (height_cm weight_kg : Qc) : Qc :=
  if ltb 0 height_cm then weight_kg / ((height_cm / Q2Qc 100) ^ 2)
  else 0.

Definition adjusted_baseline (gender : string) (height_cm weight_kg : Qc)
  : Baseline :=
  let baseline := initial_baseline gender in
  let bmi := bmi_of height_cm weight_kg in
  if truthy bmi && ltb bmi (Q2Qc 18.5) then scale (Q2Qc 1.10) baseline
  else if truthy bmi && ltb (Q2Qc 25) bmi then scale (Q2Qc 0.90) baseline
  else baseline.

(** The two blocks for Protein and Fiber, which hold their baseline in
    grams. *)
Definition check_grams (total_nutrients_mg : dict Qc) (short_key : string)
    (baseline_g : Qc) (deficiencies : dict string) : dict string :=
  let have_mg := get_default total_nutrients_mg short_key 0 in
  if ltb have_mg ((baseline_g * Q2Qc 1000) * Q2Qc 0.6) then
    let need_mg := baseline_g * Q2Qc 1000 - have_mg in
    set deficiencies short_key (fmt_round2 (need_mg / Q2Qc 1000) ++ " g")
  else deficiencies.

(** Body of the loop over Vitamin C, Iron and Calcium. *)
Definition check_milligrams (total_nutrients_mg : dict Qc)
    (deficiencies : dict string) (row : string * Qc) : dict string :=
  let '(short_key, need) := row in
  let have := get_default total_nutrients_mg short_key 0 in
  if ltb have (need * Q2Qc 0.6) then
    let need_more := need - have in
    set deficiencies short_key (fmt_round2 need_more ++ " mg")
  else deficiencies.

Definition calculate_deficiency (total_nutrients_mg : dict Qc)
    (gender : string) (height_cm weight_kg : Qc) : dict string :=
  let baseline := adjusted_baseline gender height_cm weight_kg in
  let deficiencies := [] in
  let deficiencies :=
    check_grams total_nutrients_mg "Protein" (Protein_g baseline)
      deficiencies in
  let deficiencies :=
    check_grams total_nutrients_mg "Fiber" (Fiber_g baseline)
      deficiencies in
  fold_left (check_milligrams total_nutrients_mg)
    [ ("Vitamin C", Vitamin_C_mg baseline);
      ("Iron", Iron_mg baseline);
      ("Calcium", Calcium_mg baseline) ]
    deficiencies.

(** ** Food Recommender: [recommend_foods] *)

(** A value of the weather dict: the condition text, or a number. *)
Inductive wvalue : Type :=
| WText (s : string)
| WNumber (x : Qc).

(** An entry of [rec]: a pair from the table, or the triple built for a
    weather food. *)
Inductive rec_entry : Type :=
| Pair (food amount : string)
| Triple (food a b : string).

Definition base : dict (list rec_entry) :=
  [ ("Protein",
      [Pair "Chicken" "27 g"; Pair "Eggs" "13 g"; Pair "Paneer" "18 g"]);
    ("Iron",
      [Pair "Spinach" "2.7 mg"; Pair "Liver" "6.5 mg"; Pair "Beans" "3.7 mg"]);
    ("Calcium",
      [Pair "Milk" "120 mg"; Pair "Curd" "80 mg"; Pair "Almonds" "75 mg"]);
    ("Fiber",
      [Pair "Oats" "10 g"; Pair "Apple" "4.5 g"; Pair "Carrots" "3 g"]);
    ("Vitamin C",
      [Pair "Orange" "53 mg"; Pair "Guava" "200 mg"; Pair "Kiwi" "90 mg"]) ].

(** [weather and weather.get("temp", 0) > 30].  An empty dict is false; the
    comparison of a string with 30 raises [TypeError], which is [None]. *)
Definition is_hot (weather : dict wvalue) : option bool :=
  match weather with
  | [] => Some false
  | _ =>
      match get_default weather "temp" (WNumber 0) with
      | WNumber t => Some (ltb (Q2Qc 30) t)
      | WText _ => None
      end
  end.

Definition temp_foods (hot : bool) : list string :=
  if hot then ["Cucumber"; "Yogurt"] else ["Soup"; "Eggs"].

(** [None] when the temperature comparison raises. *)
Definition recommend_foods (defic : dict string) (weather : dict wvalue)
  : option (list rec_entry) :=
  match is_hot weather with
  | None => None
  | Some hot =>
      let rec := [] in
      let rec :=
        fold_left (fun rec n => (rec ++ get_default base n [])%list)
          (keys defic)
          rec in
      let rec :=
        fold_left (fun rec f => (rec ++ [Triple f "-" "-"])%list)
          (temp_foods hot)
          rec in
      Some (firstn 10 rec)
  end.

(** ** Response Parser: [_extract_json_from_text], [_parse_json_like] and
       the field extraction of their callers *)

(** A decoded JSON document. *)
#[warnings="-register-all"]
Inductive json : Type :=
| JNull
| JBool (b : bool)
| JNum (x : Qc)
| JStr (s : string)
| JArr (l : list json)
| JObj (o : list (string * json)).

(** The value returned when nothing parses. *)
Definition fallback (text : string) : json :=
  JObj [ ("summary", JStr (strip text));
         ("meal_plan", JArr []);
         ("advice", JStr "") ].

(** [json_loads] is [json.loads]; [None] is any exception it raises, which
    the [except Exception: pass] turns into the fallback. *)
Definition _extract_json_from_text (json_loads : string -> option json)
    (text : string) : json :=
  match search_braces text with
  | Some m =>
      match json_loads m with
      | Some v => v
      | None => fallback text
      end
  | None => fallback text
  end.

(** The copy in [static/diet_consult.py]. *)
Definition _parse_json_like (json_loads : string -> option json)
    (text : string) : json :=
  match search_braces text with
  | Some payload =>
      match json_loads payload with
      | Some v => v
      | None => fallback text
      end
  | None => fallback text
  end.

(** [parsed.get(key, default)]; only a dict has [get], on anything else the
    call raises [AttributeError], which is [None]. *)
Definition json_get (parsed : json) (key : string) (default : json)
  : option json :=
  match parsed with
  | JObj o => Some (get_default o key default)
  | _ => None
  end.

(** The parsed part of a consultation result. *)
Record Consultation : Type := mkConsultation {
  summary : json;
  meal_plan : json;
  advice : json
}.

(** The parsing step of [consult_with_gemini]. *)
Definition parse_response (json_loads : string -> option json)
    (raw_text : string) : option Consultation :=
  let parsed := _extract_json_from_text json_loads raw_text in
  match json_get parsed "summary" (JStr ""),
        json_get parsed "meal_plan" (JArr []),
        json_get parsed "advice" (JStr "") with
  | Some s, Some m, Some a =>
      Some {| summary := s; meal_plan := m; advice := a |}
  | _, _, _ => None
  end.

(** Truth value of a decoded document. *)
Definition json_truthy (v : json) : bool :=
  match v with
  | JNull => false
  | JBool b => b
  | JNum x => truthy x
  | JStr s => negb (String.eqb s "")
  | JArr l => match l with [] => false | _ => true end
  | JObj o => match o with [] => false | _ => true end
  end.

(** [x or default] *)
Definition json_or (x default : json) : json :=
  if json_truthy x then x else default.

(** The parsing step of [consult_profile] in [static/diet_consult.py],
    which also replaces a false value by the empty default. *)
Definition parse_response_normalized (json_loads : string -> option json)
    (raw_text : string) : option Consultation :=
  let parsed := _parse_json_like json_loads raw_text in
  match json_get parsed "summary" (JStr ""),
        json_get parsed "meal_plan" (JArr []),
        json_get parsed "advice" (JStr "") with
  | Some s, Some m, Some a =>
      Some {| summary := json_or s (JStr "");
              meal_plan := json_or m (JArr []);
              advice := json_or a (JStr "") |}
  | _, _, _ => None
  end.

(** * Vocabulary of the statements *)

(** The canonical nutrients, as an enumeration. *)
Inductive nutrient : Type := Protein | VitaminC | Iron | Calcium | Fiber.

Definition all_nutrients : list nutrient :=
  [Protein; VitaminC; Iron; Calcium; Fiber].

(** The key under which a nutrient is totalled and reported. *)
Definition key (n : nutrient) : string :=
  match n with
  | Protein => "Protein"
  | VitaminC => "Vitamin C"
  | Iron => "Iron"
  | Calcium => "Calcium"
  | Fiber => "Fiber"
  end.

(** Protein and Fiber have their baseline, and their report, in grams. *)
Definition in_grams (n : nutrient) : bool :=
  match n with
  | Protein | Fiber => true
  | _ => false
  end.

Definition unit_suffix (n : nutrient) : string :=
  if in_grams n then "g" else "mg".

(** The baseline of a nutrient, in its own unit. *)
Definition baseline_of (b : Baseline) (n : nutrient) : Qc :=
  match n with
  | Protein => Protein_g b
  | VitaminC => Vitamin_C_mg b
  | Iron => Iron_mg b
  | Calcium => Calcium_mg b
  | Fiber => Fiber_g b
  end.

(** The baseline of a nutrient, in milligrams. *)
Definition baseline_mg (b : Baseline) (n : nutrient) : Qc :=
  if in_grams n then baseline_of b n * Q2Qc 1000 else baseline_of b n.

(** The accumulated total of a nutrient, in milligrams; an absent key
    counts as 0. *)
Definition total_mg (totals : dict Qc) (n : nutrient) : Qc :=
  get_default totals (key n) 0.

(** The accumulated total of a nutrient, in the unit of its baseline. *)
Definition total_of (totals : dict Qc) (n : nutrient) : Qc :=
  if in_grams n then total_mg totals n / Q2Qc 1000 else total_mg totals n.

(** The factor [convert_to_mg] applies for a unit. *)
Definition unit_factor (unit : string) : Qc := convert_to_mg 1 unit.


(** The keys of the totals after one more nutrient entry: a matched key
    that is new goes last. *)
Definition key_step (ks : list string) (entry : string * (Qc * string))
  : list string :=
  match matched_key (fst entry) with
  | None => ks
  | Some k => if in_tuple k ks then ks else (ks ++ [k])%list
  end.

(** The keys of the totals are canonical names. *)
Definition keys_canonical (totals_mg : dict Qc) : Prop :=
  forall k, In k (keys totals_mg) -> In k canonical.

(** [later] has every key of [earlier], and no smaller value under any
    key (an absent key counting as 0). *)
Definition grows (earlier later : dict Qc) : Prop :=
  (forall k, In k (keys earlier) -> In k (keys later))
  /\ (forall k, get_default earlier k 0 <= get_default later k 0).

(** Every value per 100 g that the lookup returns is non-negative. *)
Definition values_nonneg (get_food_nutrients : string -> Nutrients) : Prop :=
  forall food full_name val unit,
    In (full_name, (val, unit)) (get_food_nutrients food) -> 0 <= val.

(** A food database that knows one food. *)
Definition banana_lookup (food : string) : Nutrients :=
  if String.eqb food "banana"
  then [ ("Protein", (Q2Qc 1.1, "G"));
         ("Fiber, total dietary", (Q2Qc 2.6, "G"));
         ("Potassium, K", (Q2Qc 358, "MG")) ]
  else [].

(** The double quote, as a string. *)
Definition dq : string := String "034"%char EmptyString.

(** A reply that wraps a JSON document in prose. *)
Definition reply_document : string :=
  "{" ++ dq ++ "summary" ++ dq ++ ":" ++ dq ++ "ok" ++ dq ++ ","
  ++ dq ++ "meal_plan" ++ dq ++ ":[],"
  ++ dq ++ "advice" ++ dq ++ ":" ++ dq ++ "drink water" ++ dq ++ "}".

Definition reply_text : string :=
  "Here you go: " ++ reply_document ++ " thanks".

(** A decoder that knows one document, decoded as [json.loads] decodes it,
    and rejects every other text. *)
Definition reply_loads (s : string) : option json :=
  if String.eqb s reply_document
  then Some (JObj [ ("summary", JStr "ok");
                    ("meal_plan", JArr []);
                    ("advice", JStr "drink water") ])
  else None.

(** * Vocabulary for the aggregation as a whole *)

(** The test of the loop head of [analyze], negated: the item is looked
    up. *)
Definition counted (it : FoodItem) : bool :=
  negb (String.eqb (strip (name it)) "" || leb (qty it) 0).



(** * The [analyze] route *)

(** [f"{round(x, 2)}"] for a number of any sign: a negative number that
    rounds to zero is the negative zero of the floats, printed with its
    sign. *)
Definition fmt_round2_signed (x : Qc) : string :=
  if ltb x 0 && (round2_hundredths x =? 0)%Z then "-0.0" else fmt_round2 x.

(** One value of [human_totals]. *)
Definition human_total (k : string) (v : Qc) : string :=
  if in_tuple k ["Protein"; "Fiber"]
  then fmt_round2_signed (v / Q2Qc 1000) ++ " g"
  else fmt_round2_signed v ++ " mg".

(** The loop that fills [human_totals]. *)
Definition human_totals (totals_mg : dict Qc) : dict string :=
  fold_left (fun human kv => set human (fst kv) (human_total (fst kv) (snd kv)))
    totals_mg [].

(** The request body after the coercions at the head of [analyze]: a
    missing city is the empty string, a missing gender is male, a missing
    or unreadable height or weight is 0. *)
Record AnalyzeRequest : Type := mkRequest {
  req_city : string;
  req_items : list FoodItem;
  req_gender : string;
  req_height : Qc;
  req_weight : Qc
}.

(** The body of a successful response. *)
Record Analysis : Type := mkAnalysis {
  weather_out : dict wvalue;
  total_nutrients : dict string;
  deficient : dict string;
  recommendations : list rec_entry
}.

(** What the route returns: an error with its status, or the analysis
    with status 200. *)
Inductive Response : Type :=
| Failed (status : nat) (error : string)
| Analysed (body : Analysis).

(** [get_weather] and [get_food_nutrients] are the two lookups; [None]
    from [get_weather] is its [return None].  The result is [None] when
    [recommend_foods] raises, which the route does not catch. *)
Definition analyze (get_weather : string -> option (dict wvalue))
    (get_food_nutrients : string -> Nutrients) (data : AnalyzeRequest)
  : option Response :=
  let city := strip (req_city data) in
  if String.eqb city "" then Some (Failed 400 "City required")
  else
    match get_weather city with
    | None | Some [] =>
        Some (Failed 404 ("Weather data not found for city: " ++ city))
    | Some weather =>
        let totals_mg := aggregate get_food_nutrients (req_items data) in
        let defic :=
          calculate_deficiency totals_mg (req_gender data) (req_height data)
            (req_weight data) in
        match recommend_foods defic weather with
        | None => None
        | Some rec =>
            Some (Analysed {| weather_out := weather;
                              total_nutrients := human_totals totals_mg;
                              deficient := defic;
                              recommendations := rec |})
        end
    end.

(** * The food lookup, from the decoded response on *)

(** [d.get(k)] on a decoded object: a missing key gives [None], which is
    [JNull]. *)
Definition field (o : list (string * json)) (k : string) : json :=
  get_default o k JNull.

(** What one pass of the loop over [foodNutrients] does. *)
Inductive entry_outcome : Type :=
| Raises
| Skipped
| Stored (name : string) (val : Qc) (unit : json).

(** One pass of the loop of [get_food_nutrients].  [to_float] is [float];
    [None] is any exception it raises.  An entry that is not an object
    raises at its first [n.get], outside the inner handler; a name that is
    not a text raises at [name.strip()], inside it. *)
Definition read_entry (to_float : json -> option Qc) (n : json)
  : entry_outcome :=
  match n with
  | JObj o =>
      let name := json_or (field o "nutrientName") (field o "name") in
      let val := field o "value" in
      let unit := json_or (field o "unitName") (field o "unit") in
      match val with
      | JNull => Skipped
      | _ =>
          if json_truthy name then
            match to_float val, name with
            | Some x, JStr s => Stored (strip s) x (json_or unit (JStr ""))
            | _, _ => Skipped
            end
          else Skipped
      end
  | _ => Raises
  end.

(** The loop over [foodNutrients]; [None] when a pass raises. *)
Fixpoint read_entries (to_float : json -> option Qc) (ns : list json)
    (nutrients : dict (Qc * json)) : option (dict (Qc * json)) :=
  match ns with
  | [] => Some nutrients
  | n :: rest =>
      match read_entry to_float n with
      | Raises => None
      | Skipped => read_entries to_float rest nutrients
      | Stored name val unit =>
          read_entries to_float rest (set nutrients name (val, unit))
      end
  end.

(** The body of [get_food_nutrients] after [data = r.json()].  Every
    exception ends in [return {}], and so does an empty [foods]; a text,
    an object or a number where a list is expected raises at the
    subscript or in the loop unless it is empty. *)
Definition nutrients_of_response (to_float : json -> option Qc)
    (data : json) : dict (Qc * json) :=
  match data with
  | JObj d =>
      match get_default d "foods" (JArr []) with
      | JArr (JObj food_data :: _) =>
          match get_default food_data "foodNutrients" (JArr []) with
          | JArr ns =>
              match read_entries to_float ns [] with
              | Some nutrients => nutrients
              | None => []
              end
          | _ => []
          end
      | _ => []
      end
  | _ => []
  end.

(** Where an entry [(k, (x, u))] of the lookup's result comes from: an
    object among the entries whose name, a text, trims to [k], whose value
    is not null and converts to [x], and whose unit, or the empty text, is
    [u]. *)
Definition read_from (to_float : json -> option Qc) (ns : list json)
    (k : string) (x : Qc) (u : json) : Prop :=
  exists o s,
    In (JObj o) ns
    /\ json_or (field o "nutrientName") (field o "name") = JStr s
    /\ k = strip s
    /\ field o "value" <> JNull
    /\ to_float (field o "value") = Some x
    /\ u = json_or (json_or (field o "unitName") (field o "unit")) (JStr "").

(** * Sample lookups *)

(** A weather lookup that knows one city. *)
Definition sample_weather (city : string) : option (dict wvalue) :=
  if String.eqb city "Pune"
  then Some [ ("condition", WText "Clear"); ("temp", WNumber (Q2Qc 35));
              ("humidity", WNumber (Q2Qc 40)) ]
  else None.

(** [float] on the numbers alone. *)
Definition number_to_float (v : json) : option Qc :=
  match v with
  | JNum x => Some x
  | _ => None
  end.

Definition sample_entry (nutrient_name : string) (value : Qc)
    (unit_name : string) : json :=
  JObj [ ("nutrientName", JStr nutrient_name); ("value", JNum value);
         ("unitName", JStr unit_name) ].

Definition sample_entries : list json :=
  [ sample_entry " Protein " (Q2Qc 1.09) "G";
    sample_entry "Fiber, total dietary" (Q2Qc 2.6) "G";
    sample_entry "Protein" (Q2Qc 1.1) "G" ].

(** A response of the food database, with the entries given. *)
Definition response_with (entries : list json) : list (string * json) :=
  [ ("totalHits", JNum (Q2Qc 1));
    ("foods",
      JArr [ JObj [ ("description", JStr "Bananas, raw");
                    ("foodNutrients", JArr entries) ] ]) ].

(** * The binary64 model

    Python's [float] is the IEEE 754 binary64 format, which is the
    primitive [float] here: the operators below are the machine's, with
    their rounding, infinities and NaN.  The definitions of this part
    follow the same source lines as the ones over exact arithmetic above
    and carry the same names inside [Float64]. *)

Module PyFloat.

Local Open Scope Z_scope.

(** [c * 10^q ?= n * 2^e] *)
Definition compare_dec_bin (c q n e : Z) : comparison :=
  Z.compare (c * 10 ^ Z.max q 0 * 2 ^ Z.max (- e) 0)
            (n * 2 ^ Z.max e 0 * 10 ^ Z.max (- q) 0).

(** [floor (n * 2^e / 10^q)] *)
Definition floor_dec (n e q : Z) : Z :=
  (n * 2 ^ Z.max e 0 * 10 ^ Z.max (- q) 0)
  / (2 ^ Z.max (- e) 0 * 10 ^ Z.max q 0).

(** The [p] with [10^(p-1) <= n * 2^e < 10^p], searched from a guess. *)
Fixpoint adjust_decpt (fuel : nat) (n e p : Z) : Z :=
  match fuel with
  | O => p
  | S fuel' =>
      match compare_dec_bin 1 (p - 1) n e with
      | Gt => adjust_decpt fuel' n e (p - 1)
      | _ =>
          match compare_dec_bin 1 p n e with
          | Gt => p
          | _ => adjust_decpt fuel' n e (p + 1)
          end
      end
  end.

Definition decpt_of (n e : Z) : Z :=
  adjust_decpt 8 n e ((Z.log2 n + e) * 30103 / 100000 + 1).

(** The rounding interval of the float [m * 2^e], in units of [2^(e-2)]:
    half way to each neighbour; the gap below a power of two is half the
    gap above it. *)
Definition interval (m : positive) (e : Z) : Z * Z :=
  let n := 4 * Zpos m in
  let low :=
    if (Zpos m =? 2 ^ 52) && (-1074 <? e) then n - 1 else n - 2 in
  (low, n + 2).

(** Whether the decimal [c * 10^q] reads back as the float [m * 2^e]: it
    lies in the rounding interval, whose ends count when [m] is even. *)
Definition reads_back (m : positive) (e c q : Z) : bool :=
  let '(low, high) := interval m e in
  let inclusive := Z.even (Zpos m) in
  let above :=
    match compare_dec_bin c q low (e - 2) with
    | Gt => true
    | Eq => inclusive
    | Lt => false
    end in
  let below :=
    match compare_dec_bin c q high (e - 2) with
    | Lt => true
    | Eq => inclusive
    | Gt => false
    end in
  above && below.

(** The decimal of [k] digits nearest to the float, if one reads back. *)
Definition candidate (m : positive) (e p k : Z) : option Z :=
  let q := p - k in
  let c := floor_dec (Zpos m) e q in
  match reads_back m e c q, reads_back m e (c + 1) q with
  | false, false => None
  | true, false => Some c
  | false, true => Some (c + 1)
  | true, true =>
      match compare_dec_bin (2 * c + 1) q (2 * Zpos m) e with
      | Gt => Some c
      | Lt => Some (c + 1)
      | Eq => Some (if Z.even c then c else c + 1)
      end
  end.

(** The shortest decimal that reads back, and among those of its length
    the nearest; 17 digits always do. *)
Fixpoint shortest (fuel : nat) (m : positive) (e p k : Z) : Z * Z :=
  match fuel with
  | O => (floor_dec (Zpos m) e (p - 17), p - 17)
  | S fuel' =>
      match candidate m e p k with
      | Some c => (c, p - k)
      | None => shortest fuel' m e p (k + 1)
      end
  end.

Fixpoint strip_zeros (fuel : nat) (c q : Z) : Z * Z :=
  match fuel with
  | O => (c, q)
  | S fuel' =>
      if c mod 10 =? 0 then strip_zeros fuel' (c / 10) (q + 1) else (c, q)
  end.

Fixpoint zeros (n : nat) : string :=
  match n with
  | O => EmptyString
  | S n' => String "0" (zeros n')
  end.

(** [(s[:n], s[n:])] *)
Fixpoint split_at (n : nat) (s : string) : string * string :=
  match n, s with
  | S n', String a s' => let '(l, r) := split_at n' s' in (String a l, r)
  | _, _ => (EmptyString, s)
  end.

(** The digits and the place of the point ([0.d1d2... * 10^decpt]) laid
    out as [repr] does: exponent notation when [decpt] is above 16 or not
    above -4. *)
Definition layout (ds : string) (decpt : Z) : string :=
  let nd := Z.of_nat (String.length ds) in
  if (decpt <=? -4) || (16 <? decpt) then
    let '(first, others) := split_at 1 ds in
    let x := decpt - 1 in
    first ++ (if String.eqb others "" then "" else "." ++ others)
    ++ "e" ++ (if x <? 0 then "-" else "+")
    ++ (if Z.abs x <? 10 then "0" else "") ++ PyNum.digits (Z.abs x)
  else if decpt <=? 0 then
    "0." ++ zeros (Z.to_nat (- decpt)) ++ ds
  else if nd <=? decpt then
    ds ++ zeros (Z.to_nat (decpt - nd)) ++ ".0"
  else
    let '(whole, part) := split_at (Z.to_nat decpt) ds in
    whole ++ "." ++ part.

Definition repr_finite (m : positive) (e : Z) : string :=
  let p := decpt_of (Zpos m) e in
  let '(c, q) := shortest 17 m e p 1 in
  let '(c, q) := strip_zeros 20 c q in
  let ds := PyNum.digits c in
  layout ds (q + Z.of_nat (String.length ds)).

(** [repr(x)], which is also [str(x)] and what an f-string prints. *)
Definition repr (x : float) : string :=
  match Prim2SF x with
  | S754_nan => "nan"
  | S754_infinity s => if s then "-inf" else "inf"
  | S754_zero s => if s then "-0.0" else "0.0"
  | S754_finite s m e => (if s then "-" else "") ++ repr_finite m e
  end.

(** Nearest integer to [n / d], ties to the even one, for [d > 0]. *)
Definition round_half_even (n d : Z) : Z :=
  let f := n / d in
  match Z.compare (2 * (n mod d)) d with
  | Lt => f
  | Gt => f + 1
  | Eq => if Z.even f then f else f + 1
  end.

(** The float nearest to [n / d], ties to even, for [n > 0] and [d > 0]:
    the quotient with 70 bits after the point, and one more bit that tells
    whether anything is left. *)
Definition nearest (n d : Z) : float :=
  let t := n * 2 ^ 70 / d in
  let sticky := if (n * 2 ^ 70) mod d =? 0 then 0 else 1 in
  SF2Prim (binary_normalize prec emax (2 * t + sticky) (-71) false).

(** [round(x, 2)]: the decimal with two places nearest to the exact value
    of [x], ties to even, read back as a float; zeros, infinities and NaN
    round to themselves. *)
Definition round2 (x : float) : float :=
  match Prim2SF x with
  | S754_finite s m e =>
      let n :=
        round_half_even (Zpos m * 100 * 2 ^ Z.max e 0) (2 ^ Z.max (- e) 0) in
      if n =? 0 then (if s then PrimFloat.neg_zero else PrimFloat.zero)
      else if s then (- nearest n 100)%float else nearest n 100
  | _ => x
  end.

(** [f"{round(x, 2)}"] *)
Definition fmt_round2 (x : float) : string := repr (round2 x).

(** Truth value of a float: [bool(x)] is [x != 0.0], so NaN is true and
    the negative zero is false. *)
Definition truthy (x : float) : bool := negb (PrimFloat.eqb x 0%float).

End PyFloat.

(** ** Exceptions of the float operators *)

Inductive exn : Type := OverflowError | ZeroDivisionError | ValueError.

(** What the C library's [pow] leaves in [errno]. *)
Inductive errno : Type := NoError | ERANGE | EDOM.

Module Float64.

Import PyFloat.

Local Open Scope float_scope.

(** [a / b] *)
Definition float_div (a b : float) : exn + float :=
  if b =? 0 then inl ZeroDivisionError else inr (a / b).

(** [x ** 2], after [float_pow] of CPython with the second operand the
    float 2.0: the special cases settled before the platform's [pow] is
    called, then the call and the reading of [errno].  [libm_pow] is the
    platform's [pow] with the [errno] it leaves. *)
Definition float_pow_2 (libm_pow : float -> float -> float * errno)
    (iv : float) : exn + float :=
  if is_nan iv then inr iv
  else if is_infinity iv then inr (abs iv)
  else if iv =? 0 then inr 0
  else
    let iv := if iv <? 0 then - iv else iv in
    if iv =? 1 then inr 1
    else
      let '(ix, e) := libm_pow iv 2 in
      let e :=
        match e with
        | NoError => if is_infinity ix then ERANGE else NoError
        | ERANGE => if ix =? 0 then NoError else ERANGE
        | EDOM => EDOM
        end in
      match e with
      | NoError => inr ix
      | ERANGE => inl OverflowError
      | EDOM => inl ValueError
      end.

(** A [pow] that squares with the rounding of the multiplication and
    reports no error. *)
Definition rounded_square (x y : float) : float * errno := (x * x, NoError).

(** [convert_to_mg] *)
Definition convert_to_mg (amount : float) (unit : string) : float :=
  let unit := lower unit in
  if in_tuple unit ["g"; "gram"; "grams"]%string then amount * 1000
  else if in_tuple unit ["mg"; "milligram"; "milligrams"]%string then amount
  else amount.

(** An entry of [items] after the coercions of the loop head; the
    quantity is any float that [float] can return, NaN and the infinities
    included. *)
Record FoodItem : Type := mkItem { name : string; qty : float }.

Definition Nutrients : Type := dict (float * string).

(** Body of [for full_name, (val, unit) in nut.items()]. *)
Definition add_nutrient (qty_g : float) (totals_mg : dict float)
    (entry : string * (float * string)) : dict float :=
  let '(full_name, (val, unit)) := entry in
  let actual := val * (qty_g / 100) in
  match matched_key full_name with
  | None => totals_mg
  | Some key =>
      let amount_mg := convert_to_mg actual unit in
      set totals_mg key (get_default totals_mg key 0 + amount_mg)
  end.

(** Body of [for it in items]. *)
Definition add_item (get_food_nutrients : string -> Nutrients)
    (totals_mg : dict float) (it : FoodItem) : dict float :=
  let name := strip (name it) in
  let qty_g := qty it in
  if String.eqb name "" || (qty_g <=? 0) then totals_mg
  else fold_left (add_nutrient qty_g) (get_food_nutrients name) totals_mg.

Definition aggregate_from (get_food_nutrients : string -> Nutrients)
    (totals_mg : dict float) (items : list FoodItem) : dict float :=
  fold_left (add_item get_food_nutrients) items totals_mg.

Definition aggregate (get_food_nutrients : string -> Nutrients)
    (items : list FoodItem) : dict float :=
  aggregate_from get_food_nutrients [] items.

(** The [baseline] dict, as a record of its five fixed keys. *)
Record Baseline : Type := mkBaseline {
  Protein_g : float;
  Vitamin_C_mg : float;
  Iron_mg : float;
  Calcium_mg : float;
  Fiber_g : float
}.

Definition initial_baseline (gender : string) : Baseline :=
  {| Protein_g := 50;
     Vitamin_C_mg := 90;
     Iron_mg := if String.eqb (lower gender) "female" then 18 else 8;
     Calcium_mg := 1000;
     Fiber_g := 30 |}.

(** [for k in list(baseline.keys()): baseline[k] *= c] *)
Definition scale (c : float) (b : Baseline) : Baseline :=
  {| Protein_g := Protein_g b * c;
     Vitamin_C_mg := Vitamin_C_mg b * c;
     Iron_mg := Iron_mg b * c;
     Calcium_mg := Calcium_mg b * c;
     Fiber_g := Fiber_g b * c |}.

(** [weight_kg / ((height_cm / 100.0) ** 2) if height_cm > 0 else 0] *)
Definition bmi_of (libm_pow : float -> float -> float * errno)
    (height_cm weight_kg : float) : exn + float :=
  if 0 <? height_cm then
    match float_pow_2 libm_pow (height_cm / 100) with
    | inl e => inl e
    | inr square => float_div weight_kg square
    end
  else inr 0.

(** The two tests on [bmi]. *)
Definition adjust (bmi : float) (baseline : Baseline) : Baseline :=
  if truthy bmi && (bmi <? 18.5) then scale 1.10 baseline
  else if truthy bmi && (25 <? bmi) then scale 0.90 baseline
  else baseline.

Definition check_grams (total_nutrients_mg : dict float) (short_key : string)
    (baseline_g : float) (deficiencies : dict string) : dict string :=
  let have_mg := get_default total_nutrients_mg short_key 0 in
  if have_mg <? (baseline_g * 1000) * 0.6 then
    let need_mg := baseline_g * 1000 - have_mg in
    set deficiencies short_key (fmt_round2 (need_mg / 1000) ++ " g")
  else deficiencies.

Definition check_milligrams (total_nutrients_mg : dict float)
    (deficiencies : dict string) (row : string * float) : dict string :=
  let '(short_key, need) := row in
  let have := get_default total_nutrients_mg short_key 0 in
  if have <? need * 0.6 then
    let need_more := need - have in
    set deficiencies short_key (fmt_round2 need_more ++ " mg")
  else deficiencies.

(** The part of [calculate_deficiency] after the adjustment. *)
Definition score (total_nutrients_mg : dict float) (baseline : Baseline)
  : dict string :=
  let deficiencies := [] in
  let deficiencies :=
    check_grams total_nutrients_mg "Protein" (Protein_g baseline)
      deficiencies in
  let deficiencies :=
    check_grams total_nutrients_mg "Fiber" (Fiber_g baseline)
      deficiencies in
  fold_left (check_milligrams total_nutrients_mg)
    [ ("Vitamin C", Vitamin_C_mg baseline);
      ("Iron", Iron_mg baseline);
      ("Calcium", Calcium_mg baseline) ]%string
    deficiencies.

(** [calculate_deficiency]; [inl] is the exception it raises. *)
Definition calculate_deficiency (libm_pow : float -> float -> float * errno)
    (total_nutrients_mg : dict float) (gender : string)
    (height_cm weight_kg : float) : exn + dict string :=
  match bmi_of libm_pow height_cm weight_kg with
  | inl e => inl e
  | inr bmi =>
      inr (score total_nutrients_mg (adjust bmi (initial_baseline gender)))
  end.

(** The baseline of a nutrient in its own unit, and in milligrams as the
    tests compute it. *)
Definition baseline_of (b : Baseline) (n : nutrient) : float :=
  match n with
  | Protein => Protein_g b
  | VitaminC => Vitamin_C_mg b
  | Iron => Iron_mg b
  | Calcium => Calcium_mg b
  | Fiber => Fiber_g b
  end.

Definition baseline_mg (b : Baseline) (n : nutrient) : float :=
  if in_grams n then baseline_of b n * 1000 else baseline_of b n.

(** 60% of the baseline, as the tests compute it. *)
Definition threshold (b : Baseline) (n : nutrient) : float :=
  baseline_mg b n * 0.6.

Definition total_mg (totals : dict float) (n : nutrient) : float :=
  get_default totals (key n) 0.

(** The amount reported for a nutrient: the baseline less the total, in
    the unit of the baseline, as the code computes it. *)
Definition shortfall (b : Baseline) (totals : dict float) (n : nutrient)
  : float :=
  if in_grams n then (baseline_mg b n - total_mg totals n) / 1000
  else baseline_mg b n - total_mg totals n.

(** One value of [human_totals]. *)
Definition human_total (k : string) (v : float) : string :=
  if in_tuple k ["Protein"; "Fiber"]%string
  then (fmt_round2 (v / 1000) ++ " g")%string
  else (fmt_round2 v ++ " mg")%string.

(** The loop that fills [human_totals]. *)
Definition human_totals (totals_mg : dict float) : dict string :=
  fold_left (fun human kv => set human (fst kv) (human_total (fst kv) (snd kv)))
    totals_mg [].

(** The amount that the specification's glossary calls the deficiency:
    60% of the baseline less the total, in the unit of the baseline. *)
Definition shortfall_below_threshold (b : Baseline) (totals : dict float)
    (n : nutrient) : float :=
  if in_grams n then (threshold b n - total_mg totals n) / 1000
  else threshold b n - total_mg totals n.

(** A food database that knows one food. *)
Definition banana_lookup (food : string) : Nutrients :=
  if String.eqb food "banana"
  then [ ("Protein", (1.1, "G"));
         ("Fiber, total dietary", (2.6, "G"));
         ("Potassium, K", (358, "MG")) ]%string
  else [].

End Float64.

(** * Properties of the Python primitives *)

Module PyFacts.

Lemma ltb_true_iff (x y : Qc) : ltb x y = true <-> x < y.
Proof.
  unfold ltb. destruct (Qclt_le_dec x y) as [Hlt | Hle].
  - tauto.
  - split; [discriminate | intro H; exfalso; exact (Qcle_not_lt _ _ Hle H)].
Qed.

Lemma ltb_false_iff (x y : Qc) : ltb x y = false <-> y <= x.
Proof.
  unfold ltb. destruct (Qclt_le_dec x y) as [Hlt | Hle].
  - split; [discriminate | intro H; exfalso; exact (Qcle_not_lt _ _ H Hlt)].
  - tauto.
Qed.


Lemma leb_false_iff (x y : Qc) : leb x y = false <-> y < x.
Proof.
  unfold leb. destruct (Qclt_le_dec y x) as [Hlt | Hle].
  - tauto.
  - split; [discriminate | intro H; exfalso; exact (Qcle_not_lt _ _ Hle H)].
Qed.


Lemma get_set {V} (d : dict V) (k k' : string) (v : V) :
  get (set d k v) k' = if String.eqb k k' then Some v else get d k'.
Proof.
  induction d as [| [k0 v0] d IH]; simpl.
  - reflexivity.
  - destruct (String.eqb k0 k) eqn:E0; simpl.
    + apply String.eqb_eq in E0. subst k0.
      destruct (String.eqb k k'); reflexivity.
    + destruct (String.eqb k0 k') eqn:E1.
      * apply String.eqb_eq in E1. subst k0.
        rewrite String.eqb_sym, E0. reflexivity.
      * exact IH.
Qed.

Lemma get_default_set {V} (d : dict V) (k k' : string) (v dflt : V) :
  get_default (set d k v) k' dflt
  = if String.eqb k k' then v else get_default d k' dflt.
Proof.
  unfold get_default. rewrite get_set.
  destruct (String.eqb k k'); reflexivity.
Qed.

Lemma mem_In_keys {V} (d : dict V) (k : string) :
  mem k d = true <-> In k (keys d).
Proof.
  unfold mem. induction d as [| [k0 v0] d IH]; simpl.
  - split; [discriminate | tauto].
  - destruct (String.eqb k0 k) eqn:E.
    + apply String.eqb_eq in E. tauto.
    + apply String.eqb_neq in E. tauto.
Qed.

Lemma keys_set {V} (d : dict V) (k : string) (v : V) :
  keys (set d k v) = if mem k d then keys d else (keys d ++ [k])%list.
Proof.
  unfold mem. induction d as [| [k0 v0] d IH]; simpl.
  - reflexivity.
  - destruct (String.eqb k0 k) eqn:E; simpl.
    + reflexivity.
    + rewrite IH. destruct (get d k); reflexivity.
Qed.

End PyFacts.

Import PyFacts.

(** * Arithmetic over [Qc] *)

Lemma Qc_eq_iff (x y : Qc) : x = y <-> (this x == this y)%Q.
Proof.
  split; [intros ->; reflexivity | apply Qc_is_canon].
Qed.

(** Goals of linear arithmetic over [Qc], sent to [lra] over [Q]. *)
Ltac qc_lra :=
  repeat match goal with
         | H : @eq Qc _ _ |- _ => apply Qc_eq_iff in H
         | H : ~ @eq Qc _ _ |- _ => rewrite Qc_eq_iff in H
         | |- @eq Qc _ _ => apply Qc_eq_iff
         | |- ~ @eq Qc _ _ => rewrite Qc_eq_iff
         end;
  unfold Qclt, Qcle, Qcminus, Qcdiv, Qcplus, Qcmult, Qcopp, Qcinv in *;
  cbn [this Q2Qc] in *;
  rewrite ?Qred_correct in *;
  cbn [Qinv Qnum Qden] in *;
  lra.


(** ** Rounding *)

(** [round_half_even] is within one half of its argument. *)
Lemma round_half_even_close (x : Q) :
  (inject_Z (round_half_even x) - (1 # 2) <= x
   /\ x <= inject_Z (round_half_even x) + (1 # 2))%Q.
Proof.
  unfold round_half_even.
  pose proof (Qfloor_le x) as Hlo. pose proof (Qlt_floor x) as Hhi.
  rewrite inject_Z_plus in Hhi. change (inject_Z 1) with 1%Q in Hhi.
  destruct (Qcompare_spec (x - inject_Z (Qfloor x)) (1 # 2)) as [E | L | G].
  - destruct (Z.even (Qfloor x));
      rewrite ?inject_Z_plus; change (inject_Z 1) with 1%Q; lra.
  - lra.
  - rewrite inject_Z_plus. change (inject_Z 1) with 1%Q. lra.
Qed.

(** [round2] is a whole number of hundredths within half a hundredth of
    its argument. *)
Lemma round2_close (x : Qc) :
  round2 x = Q2Qc (inject_Z (round2_hundredths x) / 100)
  /\ round2 x - Q2Qc (1 # 200) <= x
  /\ x <= round2 x + Q2Qc (1 # 200).
Proof.
  split; [reflexivity |]. unfold round2, round2_hundredths.
  pose proof (round_half_even_close (x * 100)) as [Hlo Hhi].
  revert Hlo Hhi. generalize (inject_Z (round_half_even (x * 100))).
  intros r Hlo Hhi.
  unfold Qcle, Qcminus, Qcplus, Qcopp. cbn [this Q2Qc].
  rewrite !Qred_correct. unfold Qdiv. cbn [Qinv Qnum Qden].
  split; lra.
Qed.

(** * Deficiency Scorer *)

Section Scorer.

Variable total_nutrients_mg : dict Qc.

Lemma get_check_grams (short_key : string) (baseline_g : Qc)
    (d : dict string) (k : string) :
  get (check_grams total_nutrients_mg short_key baseline_g d) k
  = if String.eqb short_key k
       && ltb (get_default total_nutrients_mg short_key 0)
              ((baseline_g * Q2Qc 1000) * Q2Qc 0.6)
    then Some (fmt_round2
                 ((baseline_g * Q2Qc 1000
                   - get_default total_nutrients_mg short_key 0)
                  / Q2Qc 1000) ++ " g")
    else get d k.
Proof.
  unfold check_grams.
  destruct (ltb _ _); [rewrite get_set |];
    destruct (String.eqb short_key k); reflexivity.
Qed.

Lemma get_check_milligrams (short_key : string) (need : Qc)
    (d : dict string) (k : string) :
  get (check_milligrams total_nutrients_mg d (short_key, need)) k
  = if String.eqb short_key k
       && ltb (get_default total_nutrients_mg short_key 0)
              (need * Q2Qc 0.6)
    then Some (fmt_round2 (need - get_default total_nutrients_mg short_key 0)
               ++ " mg")
    else get d k.
Proof.
  unfold check_milligrams.
  destruct (ltb _ _); [rewrite get_set |];
    destruct (String.eqb short_key k); reflexivity.
Qed.

(** What [calculate_deficiency] holds under the key of a nutrient. *)
Lemma get_calculate_deficiency (gender : string) (height_cm weight_kg : Qc)
    (n : nutrient) :
  let b := adjusted_baseline gender height_cm weight_kg in
  get (calculate_deficiency total_nutrients_mg gender height_cm weight_kg)
      (key n)
  = if ltb (total_mg total_nutrients_mg n) (baseline_mg b n * Q2Qc 0.6)
    then Some (fmt_round2
                 (if in_grams n
                  then (baseline_mg b n - total_mg total_nutrients_mg n)
                       / Q2Qc 1000
                  else baseline_mg b n - total_mg total_nutrients_mg n)
               ++ " " ++ unit_suffix n)
    else None.
Proof.
  intro b. unfold calculate_deficiency. fold b. cbn [fold_left].
  unfold total_mg, baseline_mg, unit_suffix.
  destruct n; cbn [key in_grams baseline_of];
    repeat (rewrite ?get_check_milligrams, ?get_check_grams;
            cbn [String.eqb Ascii.eqb Bool.eqb andb]);
    try reflexivity.
  all: destruct (ltb _ _); reflexivity.
Qed.

End Scorer.

Lemma grams_shortfall (baseline_g have_mg : Qc) :
  (baseline_g * Q2Qc 1000 - have_mg) / Q2Qc 1000
  = baseline_g - have_mg / Q2Qc 1000.
Proof. qc_lra. Qed.


(** The entry of a nutrient in the result, with the reported amount in the
    unit of the baseline. *)
Lemma deficiency_entry (totals : dict Qc) (gender : string)
    (height_cm weight_kg : Qc) (n : nutrient) :
  let b := adjusted_baseline gender height_cm weight_kg in
  get (calculate_deficiency totals gender height_cm weight_kg) (key n)
  = if ltb (total_mg totals n) (baseline_mg b n * Q2Qc 0.6)
    then Some (fmt_round2 (baseline_of b n - total_of totals n)
               ++ " " ++ unit_suffix n)
    else None.
Proof.
  intro b. rewrite get_calculate_deficiency. fold b.
  destruct (ltb _ _); [| reflexivity].
  unfold total_of, baseline_mg.
  destruct (in_grams n); rewrite ?grams_shortfall; reflexivity.
Qed.

(** ** Baselines and the BMI adjustment *)

(** The BMI examples: 175 cm at 50 kg, 90 kg and 70 kg. *)
Example bmi_adjustment_examples :
  adjusted_baseline "male" (Q2Qc 175) (Q2Qc 50)
  = scale (Q2Qc 1.10) (initial_baseline "male")
  /\ adjusted_baseline "male" (Q2Qc 175) (Q2Qc 90)
     = scale (Q2Qc 0.90) (initial_baseline "male")
  /\ adjusted_baseline "male" (Q2Qc 175) (Q2Qc 70) = initial_baseline "male".
Proof.
  unfold adjusted_baseline.
  replace (truthy (bmi_of (Q2Qc 175) (Q2Qc 50))
           && ltb (bmi_of (Q2Qc 175) (Q2Qc 50)) (Q2Qc 18.5))
    with true by (vm_compute; reflexivity).
  replace (truthy (bmi_of (Q2Qc 175) (Q2Qc 90))
           && ltb (bmi_of (Q2Qc 175) (Q2Qc 90)) (Q2Qc 18.5))
    with false by (vm_compute; reflexivity).
  replace (truthy (bmi_of (Q2Qc 175) (Q2Qc 90))
           && ltb (Q2Qc 25) (bmi_of (Q2Qc 175) (Q2Qc 90)))
    with true by (vm_compute; reflexivity).
  replace (truthy (bmi_of (Q2Qc 175) (Q2Qc 70))
           && ltb (bmi_of (Q2Qc 175) (Q2Qc 70)) (Q2Qc 18.5))
    with false by (vm_compute; reflexivity).
  replace (truthy (bmi_of (Q2Qc 175) (Q2Qc 70))
           && ltb (Q2Qc 25) (bmi_of (Q2Qc 175) (Q2Qc 70)))
    with false by (vm_compute; reflexivity).
  repeat split.
Qed.

(** ** Empty totals *)


Lemma add_nutrient_unmatched (qty_g : Qc) (totals_mg : dict Qc)
    (full_name : string) (vu : Qc * string) :
  matched_key full_name = None ->
  add_nutrient qty_g totals_mg (full_name, vu) = totals_mg.
Proof.
  intro H. unfold add_nutrient. destruct vu as [val unit].
  rewrite H. reflexivity.
Qed.




(** * Nutrient Aggregator *)

Lemma mem_keys {V} (d : dict V) (k : string) :
  mem k d = in_tuple k (keys d).
Proof.
  unfold mem, in_tuple. induction d as [| [k0 v0] d IH]; cbn.
  - reflexivity.
  - rewrite (String.eqb_sym k k0).
    destruct (String.eqb k0 k); [reflexivity | exact IH].
Qed.

Lemma in_tuple_In (x : string) (t : list string) :
  in_tuple x t = true <-> In x t.
Proof.
  unfold in_tuple. rewrite existsb_exists. split.
  - intros [y [Hin Heq]]. apply String.eqb_eq in Heq. subst y. exact Hin.
  - intro Hin. exists x. split; [exact Hin | apply String.eqb_refl].
Qed.

Lemma get_None_not_In {V} (d : dict V) (k : string) :
  get d k = None <-> ~ In k (keys d).
Proof.
  rewrite <- mem_In_keys. unfold mem. destruct (get d k); split;
    congruence.
Qed.


Lemma NoDup_keys_set {V} (d : dict V) (k : string) (v : V) :
  NoDup (keys d) -> NoDup (keys (set d k v)).
Proof.
  intro Hnd. rewrite keys_set. destruct (mem k d) eqn:E; [exact Hnd |].
  assert (Hnotin : ~ In k (keys d)).
  { rewrite <- mem_In_keys. congruence. }
  clear E. induction (keys d) as [| x l IH]; cbn.
  - constructor; [tauto | constructor].
  - apply NoDup_cons_iff in Hnd. destruct Hnd as [Hx Hl].
    constructor.
    + rewrite in_app_iff. cbn. intros [H | [H | []]];
        [tauto | subst x; apply Hnotin; left; reflexivity].
    + apply IH; [exact Hl | intro H; apply Hnotin; right; exact H].
Qed.

Lemma convert_to_mg_factor (amount : Qc) (unit : string) :
  convert_to_mg amount unit = amount * unit_factor unit.
Proof.
  unfold unit_factor, convert_to_mg.
  destruct (in_tuple _ _); [| destruct (in_tuple _ _)]; ring.
Qed.

Lemma unit_factor_pos (unit : string) : 0 < unit_factor unit.
Proof.
  unfold unit_factor, convert_to_mg.
  destruct (in_tuple _ _); [| destruct (in_tuple _ _)]; reflexivity.
Qed.

Section Folding.

Variable qty_g : Qc.

Lemma keys_add_nutrient (totals_mg : dict Qc) (e : string * (Qc * string)) :
  keys (add_nutrient qty_g totals_mg e) = key_step (keys totals_mg) e.
Proof.
  destruct e as [full_name [val unit]]. unfold add_nutrient, key_step.
  cbn [fst]. destruct (matched_key full_name) as [k |]; [| reflexivity].
  rewrite keys_set, mem_keys. reflexivity.
Qed.

Lemma keys_add_nutrients (nut : Nutrients) (totals_mg : dict Qc) :
  keys (fold_left (add_nutrient qty_g) nut totals_mg)
  = fold_left key_step nut (keys totals_mg).
Proof.
  revert totals_mg. induction nut as [| e nut IH]; intro totals_mg;
    cbn [fold_left]; [reflexivity |].
  rewrite IH, keys_add_nutrient. reflexivity.
Qed.





End Folding.

(** The keys after a food has been folded in do not change when it is
    folded in again. *)

Lemma key_step_incl (ks : list string) (e : string * (Qc * string))
    (k : string) :
  In k ks -> In k (key_step ks e).
Proof.
  intro H. unfold key_step. destruct (matched_key (fst e)); [| exact H].
  destruct (in_tuple _ _); [exact H |]. apply in_or_app. left. exact H.
Qed.






Section Aggregation.

Variable get_food_nutrients : string -> Nutrients.



Lemma aggregate_app (items1 items2 : list FoodItem) :
  aggregate get_food_nutrients (items1 ++ items2)
  = aggregate_from get_food_nutrients
      (aggregate get_food_nutrients items1) items2.
Proof.
  unfold aggregate, aggregate_from. apply fold_left_app.
Qed.


End Aggregation.


(** ** The invariant of the totals *)

Lemma first_match_In (table : dict (list string)) (low k : string) :
  first_match table low = Some k -> In k (keys table).
Proof.
  induction table as [| [friendly substrings] table IH]; cbn;
    [discriminate |].
  destruct (any_in substrings low).
  - intro H. injection H as ->. left. reflexivity.
  - intro H. right. apply IH, H.
Qed.

Lemma matched_key_canonical (full_name k : string) :
  matched_key full_name = Some k -> In k canonical.
Proof.
  intro H. apply first_match_In in H. exact H.
Qed.

Lemma amount_nonneg (val qty_g : Qc) (unit : string) :
  0 <= val -> 0 <= qty_g ->
  0 <= convert_to_mg (val * (qty_g / Q2Qc 100)) unit.
Proof.
  intros Hv Hq. rewrite convert_to_mg_factor.
  pose proof (unit_factor_pos unit) as Hf. revert Hf.
  generalize (unit_factor unit). intros f Hf.
  unfold Qcle, Qclt, Qcdiv, Qcmult, Qcinv in *. cbn [this Q2Qc] in *.
  rewrite ?Qred_correct in *. cbn [Qinv Qnum Qden].
  repeat apply Qmult_le_0_compat; lra.
Qed.

Lemma grows_refl (d : dict Qc) : grows d d.
Proof.
  split; [tauto | intro k; apply Qcle_refl].
Qed.

Lemma grows_trans (d1 d2 d3 : dict Qc) :
  grows d1 d2 -> grows d2 d3 -> grows d1 d3.
Proof.
  intros [Hk1 Hv1] [Hk2 Hv2]. split.
  - intros k H. apply Hk2, Hk1, H.
  - intro k. apply Qcle_trans with (get_default d2 k 0);
      [apply Hv1 | apply Hv2].
Qed.

Lemma keys_canonical_add_nutrient (qty_g : Qc) (totals_mg : dict Qc)
    (e : string * (Qc * string)) :
  keys_canonical totals_mg ->
  keys_canonical (add_nutrient qty_g totals_mg e).
Proof.
  intros H k. rewrite keys_add_nutrient. unfold key_step.
  destruct (matched_key (fst e)) as [k' |] eqn:Hm; [| apply H].
  destruct (in_tuple k' (keys totals_mg)); [apply H |].
  rewrite in_app_iff. intros [Hin | [<- | []]];
    [apply H, Hin | apply (matched_key_canonical _ _ Hm)].
Qed.

Lemma grows_add_nutrient (qty_g : Qc) (totals_mg : dict Qc)
    (full_name : string) (val : Qc) (unit : string) :
  0 <= val -> 0 <= qty_g ->
  grows totals_mg (add_nutrient qty_g totals_mg (full_name, (val, unit))).
Proof.
  intros Hv Hq. split.
  - intros k H. rewrite keys_add_nutrient. apply key_step_incl, H.
  - intro k. unfold add_nutrient.
    destruct (matched_key full_name) as [k' |]; [| apply Qcle_refl].
    rewrite get_default_set. destruct (String.eqb k' k) eqn:E;
      [| apply Qcle_refl].
    apply String.eqb_eq in E. subst k'.
    pose proof (amount_nonneg val qty_g unit Hv Hq) as Ha. revert Ha.
    generalize (convert_to_mg (val * (qty_g / Q2Qc 100)) unit).
    generalize (get_default totals_mg k 0). intros t a Ha. qc_lra.
Qed.

Lemma keys_canonical_add_nutrients (qty_g : Qc) (nut : Nutrients)
    (totals_mg : dict Qc) :
  keys_canonical totals_mg ->
  keys_canonical (fold_left (add_nutrient qty_g) nut totals_mg).
Proof.
  revert totals_mg. induction nut as [| e nut IH]; intros totals_mg H;
    cbn [fold_left]; [exact H |].
  apply IH, keys_canonical_add_nutrient, H.
Qed.

Lemma grows_add_nutrients (qty_g : Qc) (nut : Nutrients)
    (totals_mg : dict Qc) :
  0 <= qty_g ->
  (forall full_name val unit, In (full_name, (val, unit)) nut -> 0 <= val) ->
  grows totals_mg (fold_left (add_nutrient qty_g) nut totals_mg).
Proof.
  intro Hq. revert totals_mg.
  induction nut as [| [f [v u]] nut IH]; intros totals_mg Hv;
    cbn [fold_left]; [apply grows_refl |].
  apply grows_trans with (add_nutrient qty_g totals_mg (f, (v, u))).
  - apply grows_add_nutrient; [| exact Hq].
    apply (Hv f v u). left. reflexivity.
  - apply IH. intros f' v' u' Hin. apply (Hv f' v' u'). right. exact Hin.
Qed.

Section Invariant.

Variable get_food_nutrients : string -> Nutrients.

Lemma keys_canonical_add_item (totals_mg : dict Qc) (it : FoodItem) :
  keys_canonical totals_mg ->
  keys_canonical (add_item get_food_nutrients totals_mg it).
Proof.
  intro H. unfold add_item.
  destruct (String.eqb _ _ || leb _ _);
    [exact H | apply keys_canonical_add_nutrients, H].
Qed.

Lemma keys_canonical_aggregate_from (items : list FoodItem)
    (totals_mg : dict Qc) :
  keys_canonical totals_mg ->
  keys_canonical (aggregate_from get_food_nutrients totals_mg items).
Proof.
  unfold aggregate_from. revert totals_mg.
  induction items as [| it items IH]; intros totals_mg H; cbn [fold_left];
    [exact H |].
  apply IH, keys_canonical_add_item, H.
Qed.

Lemma grows_add_item (totals_mg : dict Qc) (it : FoodItem) :
  values_nonneg get_food_nutrients ->
  grows totals_mg (add_item get_food_nutrients totals_mg it).
Proof.
  intro Hnn. unfold add_item.
  destruct (String.eqb _ _) ; [apply grows_refl |].
  destruct (leb (qty it) 0) eqn:Hq; [apply grows_refl |]. cbn [orb].
  apply leb_false_iff, Qclt_le_weak in Hq.
  apply grows_add_nutrients; [exact Hq | apply Hnn].
Qed.

Lemma grows_aggregate_from (items : list FoodItem) (totals_mg : dict Qc) :
  values_nonneg get_food_nutrients ->
  grows totals_mg (aggregate_from get_food_nutrients totals_mg items).
Proof.
  intro Hnn. unfold aggregate_from. revert totals_mg.
  induction items as [| it items IH]; intro totals_mg; cbn [fold_left];
    [apply grows_refl |].
  apply grows_trans with (add_item get_food_nutrients totals_mg it);
    [apply grows_add_item, Hnn | apply IH].
Qed.

(** X30: over exact arithmetic and for quantities that are numbers, at
    every point of the aggregation of a list of items, after any number of
    whole items and after any number of the nutrient entries of the next
    one, the keys of the totals are among the five canonical names; and,
    provided every value the lookup returns is non-negative, each key
    stays once it is there and its value (0 while absent) never decreases
    from one point to a later one. *)
Theorem totals_invariant_over_exact_arithmetic
    (done : list FoodItem) (it : FoodItem) (rest : list FoodItem)
    (seen unseen : Nutrients) :
  let at_item := aggregate get_food_nutrients done in
  let at_entry := fold_left (add_nutrient (qty it)) seen at_item in
  let at_end := aggregate get_food_nutrients (done ++ rest) in
  (keys_canonical at_item /\ keys_canonical at_entry
   /\ keys_canonical at_end)
  /\ (values_nonneg get_food_nutrients ->
      grows at_item at_end
      /\ (strip (name it) <> "" -> 0 < qty it ->
          get_food_nutrients (strip (name it)) = (seen ++ unseen)%list ->
          grows at_item at_entry
          /\ grows at_entry
               (add_item get_food_nutrients at_item it))).
Proof.
  intros at_item at_entry at_end.
  assert (Hc : keys_canonical at_item).
  { apply keys_canonical_aggregate_from. intros k []. }
  split.
  - split; [exact Hc | split].
    + apply keys_canonical_add_nutrients, Hc.
    + apply keys_canonical_aggregate_from. intros k [].
  - intro Hnn. split.
    + unfold at_end. rewrite aggregate_app. apply grows_aggregate_from, Hnn.
    + intros Hname Hqty Hnut.
      assert (Hfold : forall nut T,
                 (forall f v u, In (f, (v, u)) nut -> 0 <= v) ->
                 grows T (fold_left (add_nutrient (qty it)) nut T)).
      { intros nut T. apply grows_add_nutrients, Qclt_le_weak, Hqty. }
      assert (Hall : forall f v u,
                 In (f, (v, u)) (seen ++ unseen) -> 0 <= v).
      { intros f v u Hin. rewrite <- Hnut in Hin.
        apply (Hnn _ _ _ _ Hin). }
      split.
      * apply Hfold. intros f v u Hin. apply (Hall f v u).
        apply in_or_app. left. exact Hin.
      * unfold add_item.
        apply String.eqb_neq in Hname. apply leb_false_iff in Hqty.
        rewrite Hname, Hqty, Hnut. cbn [orb].
        rewrite fold_left_app. fold at_entry.
        apply Hfold. intros f v u Hin. apply (Hall f v u).
        apply in_or_app. right. exact Hin.
Qed.

End Invariant.

Lemma banana_values_nonneg : values_nonneg banana_lookup.
Proof.
  intros food full_name val unit. unfold banana_lookup.
  destruct (String.eqb food "banana"); [| intros []].
  intros [H | [H | [H | []]]]; injection H as _ <- _; discriminate.
Qed.

Lemma totals_invariant_over_exact_arithmetic_witness :
  grows (aggregate banana_lookup [mkItem "banana" (Q2Qc 150)])
    (aggregate banana_lookup
       ([mkItem "banana" (Q2Qc 150)] ++ [mkItem "banana" (Q2Qc 20)])).
Proof.
  exact (proj1 (proj2 (totals_invariant_over_exact_arithmetic
                         banana_lookup
                         [mkItem "banana" (Q2Qc 150)]
                         (mkItem "banana" (Q2Qc 20))
                         [mkItem "banana" (Q2Qc 20)] [] [])
                  banana_values_nonneg)).
Defined.

(** * Nutrient Matcher *)

Lemma prefix_app (sub s : string) :
  prefix sub s = true <-> exists b, s = sub ++ b.
Proof.
  revert s. induction sub as [| c sub IH]; intros [| c' s]; cbn.
  - split; [intros _; exists ""; reflexivity | reflexivity].
  - split; [intros _; exists (String c' s); reflexivity | reflexivity].
  - split; [discriminate | intros [b H]; discriminate].
  - destruct (ascii_dec c c') as [<- | Hne].
    + rewrite IH. split; intros [b H]; exists b.
      * rewrite H. reflexivity.
      * injection H as H. exact H.
    + split; [discriminate |]. intros [b H]. injection H as H _.
      congruence.
Qed.

(** [contains] is the substring test. *)
Lemma contains_substring (sub s : string) :
  contains sub s = true <-> exists a b, s = a ++ sub ++ b.
Proof.
  induction s as [| c s IH].
  - cbn [contains]. rewrite orb_false_r, prefix_app. split.
    + intros [b H]. exists "", b. exact H.
    + intros [a [b H]]. destruct a; [exists b; exact H | discriminate].
  - cbn [contains]. rewrite orb_true_iff, IH, prefix_app. split.
    + intros [[b H] | [a [b H]]].
      * exists "", b. exact H.
      * exists (String c a), b. rewrite H. reflexivity.
    + intros [a [b H]]. destruct a as [| c' a].
      * left. exists b. exact H.
      * right. exists a, b. injection H as _ H. exact H.
Qed.

Lemma any_in_substring (substrings : list string) (low : string) :
  any_in substrings low = true
  <-> exists sub a b, In sub substrings /\ low = a ++ sub ++ b.
Proof.
  unfold any_in. rewrite existsb_exists. split.
  - intros [sub [Hin Hc]]. apply contains_substring in Hc.
    destruct Hc as [a [b H]]. exists sub, a, b. tauto.
  - intros [sub [a [b [Hin H]]]]. exists sub. split; [exact Hin |].
    apply contains_substring. exists a, b. exact H.
Qed.

(** The loop returns the first row of the table one of whose substrings
    occurs in the name. *)
Lemma first_match_first (table : dict (list string)) (low k : string) :
  first_match table low = Some k
  <-> exists earlier substrings later,
        table = (earlier ++ (k, substrings) :: later)%list
        /\ any_in substrings low = true
        /\ forall row, In row earlier -> any_in (snd row) low = false.
Proof.
  induction table as [| [friendly subs] table IH]; cbn [first_match].
  - split; [discriminate |].
    intros [earlier [s [later [H _]]]]. destruct earlier; discriminate.
  - destruct (any_in subs low) eqn:E.
    + split.
      * intro H. injection H as ->. exists [], subs, table.
        split; [reflexivity | split; [exact E | intros row []]].
      * intros [earlier [s [later [H [Hs He]]]]].
        destruct earlier as [| row earlier].
        -- injection H as -> _ _. reflexivity.
        -- injection H as Hrow _. specialize (He _ (or_introl eq_refl)).
           rewrite <- Hrow in He. cbn [snd] in He. congruence.
    + rewrite IH. split.
      * intros [earlier [s [later [H [Hs He]]]]].
        exists ((friendly, subs) :: earlier), s, later. rewrite H.
        split; [reflexivity | split; [exact Hs |]].
        intros row [<- | Hin]; [exact E | apply He, Hin].
      * intros [earlier [s [later [H [Hs He]]]]].
        destruct earlier as [| row earlier].
        -- injection H as _ <- _. congruence.
        -- injection H as _ H. exists earlier, s, later.
           split; [exact H | split; [exact Hs |]].
           intros r Hin. apply He. right. exact Hin.
Qed.

(** C7: the matcher lower-cases the name and tests the substrings of a
    fixed table against it; the first row of the table, in table order,
    one of whose substrings occurs in the lower-cased name gives the
    canonical name, and a name no row matches is dropped without changing
    the totals.  Both "Vitamin C, total ascorbic acid" and "ascorbic acid
    content" resolve to Vitamin C, "Potassium" resolves to nothing and
    leaves the totals as they are. *)
Theorem C7_matcher_first_substring_match :
  (forall full_name k,
     matched_key full_name = Some k
     <-> exists earlier substrings later,
           NUTRIENT_KEY_MAP = (earlier ++ (k, substrings) :: later)%list
           /\ (exists sub a b,
                 In sub substrings /\ lower full_name = a ++ sub ++ b)
           /\ (forall k' substrings' sub a b,
                 In (k', substrings') earlier -> In sub substrings' ->
                 lower full_name <> a ++ sub ++ b))
  /\ (forall full_name,
        matched_key full_name = None
        <-> forall k substrings sub a b,
              In (k, substrings) NUTRIENT_KEY_MAP -> In sub substrings ->
              lower full_name <> a ++ sub ++ b)
  /\ (forall qty_g totals_mg full_name val unit,
        matched_key full_name = None ->
        add_nutrient qty_g totals_mg (full_name, (val, unit)) = totals_mg)
  /\ matched_key "Vitamin C, total ascorbic acid" = Some "Vitamin C"
  /\ matched_key "ascorbic acid content" = Some "Vitamin C"
  /\ matched_key "ASCORBIC ACID" = Some "Vitamin C"
  /\ matched_key "Iron-fortified protein" = Some "Protein"
  /\ matched_key "Potassium" = None
  /\ (forall qty_g totals_mg val unit,
        add_nutrient qty_g totals_mg ("Potassium", (val, unit)) = totals_mg).
Proof.
  assert (Hno : forall subs low,
             any_in subs low = false
             <-> forall sub a b, In sub subs -> low <> a ++ sub ++ b).
  { intros subs low. split.
    - intros H sub a b Hin Heq.
      assert (any_in subs low = true)
        by (apply any_in_substring; exists sub, a, b; tauto).
      congruence.
    - intro H. destruct (any_in subs low) eqn:E; [| reflexivity].
      apply any_in_substring in E. destruct E as [sub [a [b [Hin Heq]]]].
      exfalso. exact (H sub a b Hin Heq). }
  split; [| split; [| split]].
  - intros full_name k. unfold matched_key. rewrite first_match_first.
    split; intros [earlier [subs [later [H [Hs He]]]]];
      exists earlier, subs, later; (split; [exact H | split]).
    + apply any_in_substring, Hs.
    + intros k' subs' sub a b Hin Hsub.
      apply (proj1 (Hno subs' _) (He (k', subs') Hin)). exact Hsub.
    + apply any_in_substring, Hs.
    + intros [k' subs'] Hin. apply Hno. intros sub a b Hsub.
      apply (He k' subs' sub a b Hin Hsub).
  - intro full_name. unfold matched_key.
    generalize (lower full_name). intro low.
    induction NUTRIENT_KEY_MAP as [| [friendly subs] table IH];
      cbn [first_match].
    + split; [intros _ k subs sub a b [] | reflexivity].
    + destruct (any_in subs low) eqn:E.
      * split; [discriminate |]. intro H. exfalso.
        apply any_in_substring in E. destruct E as [sub [a [b [Hin Heq]]]].
        exact (H friendly subs sub a b (or_introl eq_refl) Hin Heq).
      * rewrite IH. split.
        -- intros H k s sub a b [Heq | Hin] Hsub.
           ++ injection Heq as <- <-.
              apply (proj1 (Hno subs low) E). exact Hsub.
           ++ apply (H k s sub a b Hin Hsub).
        -- intros H k s sub a b Hin. apply (H k s sub a b). right.
           exact Hin.
  - intros qty_g totals_mg full_name val unit H.
    apply add_nutrient_unmatched, H.
  - repeat split; try reflexivity.
Qed.

(** * Food Recommender *)

Lemma fold_extend {A B} (f : A -> list B) (l : list A) (acc : list B) :
  fold_left (fun rec x => (rec ++ f x)%list) l acc
  = (acc ++ flat_map f l)%list.
Proof.
  revert acc. induction l as [| x l IH]; intro acc; cbn [fold_left flat_map].
  - rewrite app_nil_r. reflexivity.
  - rewrite IH, app_assoc. reflexivity.
Qed.

(** The candidates before truncation. *)
Lemma recommend_foods_candidates (defic : dict string)
    (weather : dict wvalue) (hot : bool) :
  is_hot weather = Some hot ->
  recommend_foods defic weather
  = Some (firstn 10
            (flat_map (fun n => get_default base n []) (keys defic)
             ++ map (fun f => Triple f "-" "-") (temp_foods hot))%list).
Proof.
  intro H. unfold recommend_foods. rewrite H. do 2 f_equal.
  rewrite (fold_extend (fun n => get_default base n [])).
  rewrite (fold_extend (fun f => [Triple f "-" "-"])).
  cbn [app]. destruct hot; reflexivity.
Qed.

Lemma table_foods_of_canonical (n : nutrient) :
  length (get_default base (key n) []) = 3%nat.
Proof. destruct n; reflexivity. Qed.

(** A list with five distinct members has at least five elements. *)
Lemma five_keys (ks : list string) :
  (forall n, In (key n) ks) ->
  (15 <= length (flat_map (fun n => get_default base n []) ks))%nat.
Proof.
  intro H.
  assert (Hcount : forall (l : list nutrient) ks,
             NoDup l -> (forall n, In n l -> In (key n) ks) ->
             (3 * length l
              <= length (flat_map (fun n => get_default base n []) ks))%nat).
  { clear. induction l as [| n l IH]; intros ks Hnd Hin.
    - cbn. lia.
    - apply NoDup_cons_iff in Hnd. destruct Hnd as [Hn Hnd].
      destruct (in_split (key n) ks (Hin n (or_introl eq_refl)))
        as [ks1 [ks2 ->]].
      assert (Hrest : forall m, In m l -> In (key m) (ks1 ++ ks2)).
      { intros m Hm. specialize (Hin m (or_intror Hm)).
        rewrite in_app_iff in Hin |- *. cbn in Hin.
        destruct Hin as [H | [H | H]]; [tauto | | tauto].
        exfalso. apply Hn.
        assert (n = m) by (destruct n, m; (reflexivity || discriminate)).
        subst m. exact Hm. }
      specialize (IH (ks1 ++ ks2)%list Hnd Hrest).
      rewrite flat_map_app, length_app in IH |- *.
      cbn [flat_map]. rewrite length_app, table_foods_of_canonical.
      cbn [length]. lia. }
  specialize (Hcount all_nutrients ks).
  cbn [length all_nutrients] in Hcount. apply Hcount.
  - repeat constructor; cbn; intuition discriminate.
  - intros n _. apply H.
Qed.

Lemma is_hot_temp (weather : dict wvalue) (temp : Qc) :
  get weather "temp" = Some (WNumber temp) ->
  is_hot weather = Some (ltb (Q2Qc 30) temp).
Proof.
  intro H. unfold is_hot, get_default. rewrite H.
  destruct weather; [discriminate | reflexivity].
Qed.

(** C8: for every deficiency map and every weather snapshot with a
    temperature, the recommender lists, for each key of the deficiency map
    in the order of the map, the foods of that nutrient in the order of the
    table (nothing for a key the table lacks), then the two weather foods,
    Cucumber and Yogurt when the temperature is above 30 and Soup and Eggs
    otherwise, whatever the deficiencies are, and returns the first 10 of
    that list as they stand; so the result has at most 10 entries, and
    exactly 10 when all five nutrients are deficient. *)
Theorem C8_recommendations_capped_at_10
    (defic : dict string) (weather : dict wvalue) (temp : Qc) :
  get weather "temp" = Some (WNumber temp) ->
  let table_foods :=
    flat_map (fun n => get_default base n []) (keys defic) in
  exists weather_foods rec,
    recommend_foods defic weather = Some rec
    /\ rec = firstn 10 (table_foods ++ weather_foods)%list
    /\ (Q2Qc 30 < temp ->
        weather_foods = [Triple "Cucumber" "-" "-"; Triple "Yogurt" "-" "-"])
    /\ (temp <= Q2Qc 30 ->
        weather_foods = [Triple "Soup" "-" "-"; Triple "Eggs" "-" "-"])
    /\ length weather_foods = 2%nat
    /\ (length rec <= 10)%nat
    /\ ((forall n, In (key n) (keys defic)) -> length rec = 10%nat).
Proof.
  intros Htemp table_foods.
  exists (map (fun f => Triple f "-" "-") (temp_foods (ltb (Q2Qc 30) temp))).
  eexists. split.
  { apply recommend_foods_candidates, is_hot_temp, Htemp. }
  fold table_foods. split; [reflexivity |].
  split; [| split; [| split; [| split]]].
  - intro H. apply ltb_true_iff in H. rewrite H. reflexivity.
  - intro H. apply ltb_false_iff in H. rewrite H. reflexivity.
  - destruct (ltb _ _); reflexivity.
  - apply firstn_le_length.
  - intro Hall. apply firstn_length_le. rewrite length_app.
    pose proof (five_keys (keys defic) Hall) as H. fold table_foods in H.
    lia.
Qed.

Lemma C8_witness :
  exists weather_foods rec,
    recommend_foods [("Protein", "48.35 g"); ("Fiber", "26.1 g")]
      [ ("condition", WText "Clear"); ("temp", WNumber (Q2Qc 35));
        ("humidity", WNumber (Q2Qc 40)) ]
    = Some rec
    /\ rec
       = firstn 10
           ([ Pair "Chicken" "27 g"; Pair "Eggs" "13 g"; Pair "Paneer" "18 g";
              Pair "Oats" "10 g"; Pair "Apple" "4.5 g"; Pair "Carrots" "3 g" ]
            ++ weather_foods)%list
    /\ (Q2Qc 30 < Q2Qc 35 ->
        weather_foods = [Triple "Cucumber" "-" "-"; Triple "Yogurt" "-" "-"])
    /\ (Q2Qc 35 <= Q2Qc 30 ->
        weather_foods = [Triple "Soup" "-" "-"; Triple "Eggs" "-" "-"])
    /\ length weather_foods = 2%nat
    /\ (length rec <= 10)%nat
    /\ ((forall n,
           In (key n) (keys [("Protein", "48.35 g"); ("Fiber", "26.1 g")])) ->
        length rec = 10%nat).
Proof.
  exact (C8_recommendations_capped_at_10
           [("Protein", "48.35 g"); ("Fiber", "26.1 g")]
           [ ("condition", WText "Clear"); ("temp", WNumber (Q2Qc 35));
             ("humidity", WNumber (Q2Qc 40)) ]
           (Q2Qc 35) eq_refl).
Defined.

(** Recommendations on concrete requests: all five nutrients deficient on
    a hot day, where the cap leaves out the weather foods; Protein alone on
    a cold day, where Eggs is listed twice. *)
Example recommend_foods_examples :
  recommend_foods
    (calculate_deficiency [] "male" (Q2Qc 175) (Q2Qc 70))
    [ ("condition", WText "Clear"); ("temp", WNumber (Q2Qc 35));
      ("humidity", WNumber (Q2Qc 40)) ]
  = Some [ Pair "Chicken" "27 g"; Pair "Eggs" "13 g"; Pair "Paneer" "18 g";
           Pair "Oats" "10 g"; Pair "Apple" "4.5 g"; Pair "Carrots" "3 g";
           Pair "Orange" "53 mg"; Pair "Guava" "200 mg"; Pair "Kiwi" "90 mg";
           Pair "Spinach" "2.7 mg" ]
  /\ recommend_foods [("Protein", "20.0 g")] [("temp", WNumber (Q2Qc 12))]
     = Some [ Pair "Chicken" "27 g"; Pair "Eggs" "13 g"; Pair "Paneer" "18 g";
              Triple "Soup" "-" "-"; Triple "Eggs" "-" "-" ].
Proof.
  split; vm_compute; reflexivity.
Qed.

(** * Response Parser *)

(** ** The brace span *)

Lemma find_char_None (c : ascii) (s : string) :
  find_char c s = None <-> forall a b, s <> a ++ String c b.
Proof.
  induction s as [| x s IH]; cbn [find_char].
  - split; [| reflexivity]. intros _ [| y a] b; discriminate.
  - destruct (Ascii.eqb x c) eqn:E.
    + apply Ascii.eqb_eq in E. subst x. split; [discriminate |].
      intro H. exfalso. apply (H "" s). reflexivity.
    + apply Ascii.eqb_neq in E.
      destruct (find_char c s) as [i |]; cbn [option_map].
      * split; [discriminate |]. intro H. exfalso.
        assert (Hs : forall a b, s <> a ++ String c b).
        { intros a b Heq. apply (H (String x a) b). rewrite Heq.
          reflexivity. }
        apply IH in Hs. discriminate.
      * split; [| reflexivity]. intros _ [| y a] b Heq.
        -- injection Heq as Heq _. congruence.
        -- injection Heq as _ Heq. revert Heq.
           apply (proj1 IH eq_refl).
Qed.

Lemma find_char_Some (c : ascii) (s : string) (i : nat) :
  find_char c s = Some i ->
  exists a b,
    s = a ++ String c b /\ find_char c a = None /\ drop i s = String c b.
Proof.
  revert i. induction s as [| x s IH]; intro i; cbn [find_char];
    [discriminate |].
  destruct (Ascii.eqb x c) eqn:E.
  - apply Ascii.eqb_eq in E. subst x. intro H. injection H as <-.
    exists "", s. repeat split.
  - destruct (find_char c s) as [i' |]; cbn [option_map]; [| discriminate].
    intro H. injection H as <-.
    destruct (IH i' eq_refl) as [a [b [Hs [Ha Hd]]]].
    exists (String x a), b. cbn [append find_char drop].
    rewrite E, Ha, <- Hs. repeat split. exact Hd.
Qed.

Lemma rfind_char_None (c : ascii) (s : string) :
  rfind_char c s = None <-> find_char c s = None.
Proof.
  induction s as [| x s IH]; cbn [rfind_char find_char]; [tauto |].
  destruct (rfind_char c s), (find_char c s), (Ascii.eqb x c);
    cbn [option_map]; split; try discriminate; try reflexivity;
    intro H; exfalso.
  all: try (assert (Some n = None) by (apply IH; reflexivity);
            discriminate).
  all: try (assert (@None nat = Some n) by (symmetry; apply IH; reflexivity);
            discriminate).
Qed.

Lemma rfind_char_Some (c : ascii) (s : string) (j : nat) :
  rfind_char c s = Some j ->
  exists a b,
    s = a ++ String c b /\ find_char c b = None
    /\ take (S j) s = a ++ String c "".
Proof.
  revert j. induction s as [| x s IH]; intro j; cbn [rfind_char];
    [discriminate |].
  destruct (rfind_char c s) as [j' |] eqn:R.
  - intro H. injection H as <-.
    destruct (IH j' eq_refl) as [a [b [Hs [Hb Ht]]]].
    exists (String x a), b. cbn [append]. rewrite <- Hs.
    split; [reflexivity | split; [exact Hb |]].
    change (take (S (S j')) (String x s)) with (String x (take (S j') s)).
    rewrite Ht. reflexivity.
  - destruct (Ascii.eqb x c) eqn:E; [| discriminate].
    apply Ascii.eqb_eq in E. subst x. intro H. injection H as <-.
    exists "", s. split; [reflexivity | split].
    + apply rfind_char_None, R.
    + reflexivity.
Qed.

Lemma append_assoc (a b c : string) : (a ++ b) ++ c = a ++ (b ++ c).
Proof.
  induction a as [| x a IH]; cbn; [reflexivity | rewrite IH; reflexivity].
Qed.

(** A match is the text from the first opening brace to the last closing
    brace. *)
Lemma search_braces_Some (text m : string) :
  search_braces text = Some m ->
  exists before body after,
    text = before ++ m ++ after
    /\ m = "{" ++ body ++ "}"
    /\ find_char "{" before = None
    /\ find_char "}" after = None.
Proof.
  unfold search_braces.
  destruct (find_char "{" text) as [i |] eqn:F; [| discriminate].
  destruct (find_char_Some _ _ _ F) as [before [r [Ht [Hb Hd]]]].
  rewrite Hd. destruct (rfind_char "}" (String "{" r)) as [j |] eqn:R;
    [| discriminate].
  intro H. injection H as <-.
  destruct (rfind_char_Some _ _ _ R) as [a [after [Hr [Ha Htake]]]].
  destruct a as [| x body]; [discriminate |].
  injection Hr as Hx Hr. subst x.
  cbn [take] in Htake. cbn [take]. rewrite Htake.
  exists before, body, after.
  split; [| split; [reflexivity | split; assumption]].
  rewrite Ht, Hr. cbn [append]. rewrite append_assoc. reflexivity.
Qed.

(** There is no match exactly when no opening brace is followed by a
    closing brace. *)
Lemma search_braces_None (text : string) :
  search_braces text = None
  <-> forall a b c, text <> a ++ "{" ++ b ++ "}" ++ c.
Proof.
  unfold search_braces.
  destruct (find_char "{" text) as [i |] eqn:F.
  - destruct (find_char_Some _ _ _ F) as [before [r [Ht [Hb Hd]]]].
    rewrite Hd. destruct (rfind_char "}" (String "{" r)) as [j |] eqn:R.
    + split; [discriminate |]. intro H. exfalso.
      destruct (rfind_char_Some _ _ _ R) as [a [after [Hr [Ha _]]]].
      destruct a as [| x body]; [discriminate |].
      injection Hr as Hx Hr. subst x.
      apply (H before body after). rewrite Ht, Hr. reflexivity.
    + split; [| reflexivity]. intros _ a b c Heq.
      apply rfind_char_None in R. cbn [find_char] in R.
      change (Ascii.eqb "{" "}") with false in R.
      destruct (find_char "}" r) as [n |] eqn:Fr; [discriminate |].
      clear R F Hd i. subst text.
      revert a Heq. induction before as [| x before IH]; intros a Heq.
      * destruct a as [| y a].
        -- injection Heq as Heq. revert Heq.
           apply (proj1 (find_char_None _ _) Fr).
        -- injection Heq as _ Heq.
           apply (proj1 (find_char_None _ _) Fr (a ++ "{" ++ b) c).
           rewrite Heq, append_assoc. reflexivity.
      * cbn [find_char] in Hb.
        destruct (Ascii.eqb x "{") eqn:E; [discriminate |].
        destruct (find_char "{" before) eqn:Fb; [discriminate |].
        destruct a as [| y a].
        -- injection Heq as Heq _. subst x. discriminate.
        -- injection Heq as _ Heq. apply (IH eq_refl a Heq).
  - split; [| reflexivity]. intros _ a b c.
    apply (proj1 (find_char_None _ _) F).
Qed.

(** ** The parser *)

Section Parser.

Variable json_loads : string -> option json.

(** A text that opens with a brace decodes to an object or not at all, as
    it does with [json.loads]. *)
Hypothesis loads_object :
  forall body v, json_loads (String "{" body) = Some v ->
                 exists o, v = JObj o.

Lemma parse_json_like_same (text : string) :
  _parse_json_like json_loads text = _extract_json_from_text json_loads text.
Proof. reflexivity. Qed.

Lemma extract_is_object (text : string) :
  exists o, _extract_json_from_text json_loads text = JObj o.
Proof.
  unfold _extract_json_from_text.
  destruct (search_braces text) as [m |] eqn:S;
    [| eexists; reflexivity].
  destruct (search_braces_Some _ _ S) as [before [body [after [_ [Hm _]]]]].
  destruct (json_loads m) as [v |] eqn:L; [| eexists; reflexivity].
  rewrite Hm in L. apply (loads_object _ _ L).
Qed.

(** C9: for every input string the parser returns a result, it never
    raises.  When the span from the first opening brace to the last closing
    brace decodes as JSON, the result holds the summary, meal_plan and
    advice of the decoded object, an absent key giving the empty string or
    the empty list; when there is no such span, or the span does not
    decode, the result is the whole text, trimmed, as summary with an empty
    meal_plan and an empty advice.  The copy in [diet_consult.py] parses
    alike and returns the same fallback. *)
Theorem C9_parser_never_raises (text : string) :
  exists result,
    parse_response json_loads text = Some result
    /\ (forall m o,
          search_braces text = Some m -> json_loads m = Some (JObj o) ->
          result
          = {| summary := get_default o "summary" (JStr "");
               meal_plan := get_default o "meal_plan" (JArr []);
               advice := get_default o "advice" (JStr "") |})
    /\ (search_braces text = None
        \/ (exists m, search_braces text = Some m /\ json_loads m = None) ->
        result
        = {| summary := JStr (strip text);
             meal_plan := JArr [];
             advice := JStr "" |})
    /\ (forall m,
          search_braces text = Some m ->
          exists before body after,
            text = before ++ m ++ after /\ m = "{" ++ body ++ "}"
            /\ find_char "{" before = None /\ find_char "}" after = None)
    /\ (search_braces text = None
        <-> forall a b c, text <> a ++ "{" ++ b ++ "}" ++ c)
    /\ _parse_json_like json_loads text
       = _extract_json_from_text json_loads text
    /\ exists normalized,
         parse_response_normalized json_loads text = Some normalized
         /\ (search_braces text = None
             \/ (exists m,
                   search_braces text = Some m /\ json_loads m = None) ->
             normalized
             = {| summary := JStr (strip text);
                  meal_plan := JArr [];
                  advice := JStr "" |}).
Proof.
  assert (Hfall : search_braces text = None
                  \/ (exists m, search_braces text = Some m
                                /\ json_loads m = None) ->
                  _extract_json_from_text json_loads text = fallback text).
  { unfold _extract_json_from_text. intros [H | [m [H L]]]; rewrite H;
      [| rewrite L]; reflexivity. }
  destruct (extract_is_object text) as [o Ho].
  unfold parse_response, parse_response_normalized.
  change (_parse_json_like json_loads text)
    with (_extract_json_from_text json_loads text).
  rewrite Ho. cbn [json_get].
  eexists. split; [reflexivity |].
  split; [| split; [| split; [| split; [| split]]]].
  - intros m o' S L. unfold _extract_json_from_text in Ho.
    rewrite S, L in Ho. injection Ho as ->. reflexivity.
  - intro H. rewrite (Hfall H) in Ho. injection Ho as <-. reflexivity.
  - apply search_braces_Some.
  - apply search_braces_None.
  - reflexivity.
  - eexists. split; [reflexivity |].
    intro H. rewrite (Hfall H) in Ho. injection Ho as <-.
    unfold get_default. cbn [get String.eqb Ascii.eqb Bool.eqb].
    unfold json_or. cbn [json_truthy String.eqb negb].
    destruct (strip text); reflexivity.
Qed.

End Parser.

Lemma reply_loads_object (body : string) (v : json) :
  reply_loads (String "{" body) = Some v -> exists o, v = JObj o.
Proof.
  unfold reply_loads. destruct (String.eqb _ _); [| discriminate].
  intro H. injection H as <-. eexists. reflexivity.
Qed.

Lemma C9_witness :
  parse_response reply_loads reply_text
  = Some {| summary := JStr "ok";
            meal_plan := JArr [];
            advice := JStr "drink water" |}.
Proof.
  destruct (C9_parser_never_raises reply_loads reply_loads_object reply_text)
    as [result [Hres [Hobj _]]].
  rewrite Hres. f_equal.
  apply (Hobj reply_document
           [ ("summary", JStr "ok"); ("meal_plan", JArr []);
             ("advice", JStr "drink water") ]);
    vm_compute; reflexivity.
Defined.

(** The parser on the two replies of the specification: a document wrapped
    in prose, and a text without braces. *)
Example parse_response_examples :
  search_braces reply_text = Some reply_document
  /\ parse_response reply_loads reply_text
     = Some {| summary := JStr "ok";
               meal_plan := JArr [];
               advice := JStr "drink water" |}
  /\ parse_response reply_loads "  no JSON today  "
     = Some {| summary := JStr "no JSON today";
               meal_plan := JArr [];
               advice := JStr "" |}
  /\ parse_response reply_loads "} nothing { to see"
     = Some {| summary := JStr "} nothing { to see";
               meal_plan := JArr [];
               advice := JStr "" |}.
Proof.
  repeat split; vm_compute; reflexivity.
Qed.

(** * The end-to-end scenario *)

(** 150 g of banana on a clear day at 35 degrees: the totals are 1650 mg
    of Protein and 3900 mg of Fiber; with nothing under the other three
    keys all five nutrients are deficient, and the ten recommendations are
    all table foods. *)
Example banana_scenario :
  let totals_mg := aggregate banana_lookup [mkItem "banana" (Q2Qc 150)] in
  let defic := calculate_deficiency totals_mg "male" (Q2Qc 175) (Q2Qc 70) in
  keys totals_mg = ["Protein"; "Fiber"]
  /\ total_mg totals_mg Protein = Q2Qc 1650
  /\ total_mg totals_mg Fiber = Q2Qc 3900
  /\ defic
     = [ ("Protein", "48.35 g"); ("Fiber", "26.1 g");
         ("Vitamin C", "90.0 mg"); ("Iron", "8.0 mg");
         ("Calcium", "1000.0 mg") ]
  /\ recommend_foods defic
       [ ("condition", WText "Clear"); ("temp", WNumber (Q2Qc 35));
         ("humidity", WNumber (Q2Qc 40)) ]
     = Some [ Pair "Chicken" "27 g"; Pair "Eggs" "13 g"; Pair "Paneer" "18 g";
              Pair "Oats" "10 g"; Pair "Apple" "4.5 g"; Pair "Carrots" "3 g";
              Pair "Orange" "53 mg"; Pair "Guava" "200 mg";
              Pair "Kiwi" "90 mg"; Pair "Spinach" "2.7 mg" ].
Proof.
  cbv zeta. split; [| split; [| split; [| split]]].
  - vm_compute. reflexivity.
  - apply Qc_is_canon. vm_compute. reflexivity.
  - apply Qc_is_canon. vm_compute. reflexivity.
  - vm_compute. reflexivity.
  - vm_compute. reflexivity.
Qed.

(** * Further properties of the aggregation *)

Section AggregationAsAWhole.

Variable get_food_nutrients : string -> Nutrients.

Lemma add_item_counted (totals_mg : dict Qc) (it : FoodItem) :
  add_item get_food_nutrients totals_mg it
  = if counted it
    then fold_left (add_nutrient (qty it))
           (get_food_nutrients (strip (name it))) totals_mg
    else totals_mg.
Proof.
  unfold add_item, counted. destruct (String.eqb _ _ || leb _ _); reflexivity.
Qed.






(** X3: an item with a blank name or a quantity that is not positive is
    skipped wherever it stands: the totals are those of the request
    without such items. *)
Theorem aggregate_skips_uncounted (items : list FoodItem) :
  aggregate get_food_nutrients items
  = aggregate get_food_nutrients (filter counted items).
Proof.
  unfold aggregate, aggregate_from. generalize (@nil (string * Qc)).
  induction items as [| it items IH]; intro totals_mg;
    cbn [fold_left filter]; [reflexivity |].
  rewrite add_item_counted. destruct (counted it) eqn:E.
  - cbn [fold_left]. rewrite add_item_counted, E. apply IH.
  - apply IH.
Qed.

End AggregationAsAWhole.


Section Scaling.

Variable get_food_nutrients : string -> Nutrients.


Lemma In_key_steps (nut : Nutrients) (ks : list string) (k : string) :
  In k (fold_left key_step nut ks)
  <-> In k ks \/ exists e, In e nut /\ matched_key (fst e) = Some k.
Proof.
  revert ks. induction nut as [| e nut IH]; intro ks; cbn [fold_left].
  - split; [tauto | intros [H | [e [[] _]]]; exact H].
  - rewrite IH. split.
    + intros [H | [e' [Hin Hm]]].
      * unfold key_step in H.
        destruct (matched_key (fst e)) as [k' |] eqn:Hm; [| tauto].
        destruct (in_tuple k' ks); [tauto |].
        apply in_app_or in H. destruct H as [H | [<- | []]]; [tauto |].
        right. exists e. split; [left; reflexivity | exact Hm].
      * right. exists e'. split; [right; exact Hin | exact Hm].
    + intros [H | [e' [[<- | Hin] Hm]]].
      * left. apply key_step_incl, H.
      * left. unfold key_step. rewrite Hm.
        destruct (in_tuple k ks) eqn:E; [apply in_tuple_In, E |].
        apply in_or_app. right. left. reflexivity.
      * right. exists e'. tauto.
Qed.

(** X5: a key is present in the totals exactly when some item that is
    looked up has a nutrient entry whose name matches that key, whatever
    the values are. *)
Theorem aggregate_key_present (items : list FoodItem) (k : string) :
  In k (keys (aggregate get_food_nutrients items))
  <-> exists it full_name vu,
        In it items /\ counted it = true
        /\ In (full_name, vu) (get_food_nutrients (strip (name it)))
        /\ matched_key full_name = Some k.
Proof.
  unfold aggregate, aggregate_from.
  assert (H : forall totals_mg,
             In k (keys (fold_left (add_item get_food_nutrients) items
                           totals_mg))
             <-> In k (keys totals_mg)
                 \/ exists it full_name vu,
                      In it items /\ counted it = true
                      /\ In (full_name, vu)
                           (get_food_nutrients (strip (name it)))
                      /\ matched_key full_name = Some k).
  { induction items as [| it items IH]; intro totals_mg; cbn [fold_left].
    - split; [tauto | intros [H | [it [f [vu [[] _]]]]]; exact H].
    - rewrite IH, add_item_counted. destruct (counted it) eqn:E.
      + rewrite keys_add_nutrients, In_key_steps. split.
        * intros [[H | [[f vu] [Hin Hm]]] | [it' [f [vu [Hin H]]]]].
          -- tauto.
          -- right. exists it, f, vu. cbn [fst] in Hm.
             split; [left; reflexivity | tauto].
          -- right. exists it', f, vu. split; [right; exact Hin | exact H].
        * intros [H | [it' [f [vu [[<- | Hin] [Hc [He Hm]]]]]]].
          -- tauto.
          -- left. right. exists (f, vu). split; [exact He | exact Hm].
          -- right. exists it', f, vu. tauto.
      + split.
        * intros [H | [it' [f [vu [Hin H]]]]]; [tauto |].
          right. exists it', f, vu. split; [right; exact Hin | exact H].
        * intros [H | [it' [f [vu [[<- | Hin] [Hc H]]]]]];
            [tauto | congruence |].
          right. exists it', f, vu. tauto. }
  rewrite H. cbn [keys map]. split; [intros [[] | H']; exact H' | tauto].
Qed.

End Scaling.

(** * Further properties of the scorer *)

Ltac split_thresholds :=
  repeat match goal with
         | |- context [ltb ?a ?b] => destruct (ltb a b)
         end.

Lemma keys_calculate_deficiency
    (totals : dict Qc) (gender : string) (height_cm weight_kg : Qc) :
  let defic := calculate_deficiency totals gender height_cm weight_kg in
  keys defic
  = filter (fun k => mem k defic)
      ["Protein"; "Fiber"; "Vitamin C"; "Iron"; "Calcium"].
Proof.
  cbv zeta. unfold calculate_deficiency, check_grams, check_milligrams.
  cbn [fold_left]. split_thresholds; reflexivity.
Qed.

(** X6: the result lists the deficient nutrients in the fixed order
    Protein, Fiber, Vitamin C, Iron, Calcium, each at most once, and holds
    no other key. *)
Theorem deficiencies_in_fixed_order
    (totals : dict Qc) (gender : string) (height_cm weight_kg : Qc) :
  let defic := calculate_deficiency totals gender height_cm weight_kg in
  keys defic
  = filter (fun k => mem k defic)
      ["Protein"; "Fiber"; "Vitamin C"; "Iron"; "Calcium"].
Proof.
  apply keys_calculate_deficiency.
Qed.

(** X7: only the totals under the five canonical keys are read: two totals
    that agree there, whatever other keys they hold and in whatever order,
    get the same result. *)
Theorem deficiencies_read_five_keys
    (totals totals' : dict Qc) (gender : string)
    (height_cm weight_kg : Qc) :
  (forall n, total_mg totals n = total_mg totals' n) ->
  calculate_deficiency totals gender height_cm weight_kg
  = calculate_deficiency totals' gender height_cm weight_kg.
Proof.
  intro H.
  pose proof (H Protein) as HP. pose proof (H Fiber) as HF.
  pose proof (H VitaminC) as HV. pose proof (H Iron) as HI.
  pose proof (H Calcium) as HC. unfold total_mg in *. cbn [key] in *.
  unfold calculate_deficiency, check_grams, check_milligrams.
  cbn [fold_left]. rewrite HP, HF, HV, HI, HC. reflexivity.
Qed.

Lemma flagged_iff (totals : dict Qc) (gender : string)
    (height_cm weight_kg : Qc) (n : nutrient) :
  mem (key n) (calculate_deficiency totals gender height_cm weight_kg) = true
  <-> total_mg totals n
      < baseline_mg (adjusted_baseline gender height_cm weight_kg) n
        * Q2Qc 0.6.
Proof.
  unfold mem. rewrite deficiency_entry.
  destruct (ltb _ _) eqn:E.
  - apply ltb_true_iff in E. tauto.
  - apply ltb_false_iff in E. split; [discriminate |].
    intro H. exfalso. exact (Qcle_not_lt _ _ E H).
Qed.

(** X8: eating more never adds a deficiency: when no canonical total is
    smaller in [more] than in [less], every nutrient flagged for [more] is
    flagged for [less]. *)
Theorem more_intake_fewer_deficiencies
    (less more : dict Qc) (gender : string) (height_cm weight_kg : Qc)
    (n : nutrient) :
  (forall m, total_mg less m <= total_mg more m) ->
  mem (key n) (calculate_deficiency more gender height_cm weight_kg) = true ->
  mem (key n) (calculate_deficiency less gender height_cm weight_kg) = true.
Proof.
  intros Hle H. apply flagged_iff. apply flagged_iff in H.
  apply Qcle_lt_trans with (total_mg more n); [apply Hle | exact H].
Qed.





(** X10: the gender is read only through its lower-cased spelling and
    changes only the Iron baseline: for every other nutrient the entry of
    the result is the same for any two genders. *)
Theorem gender_changes_only_iron
    (totals : dict Qc) (gender gender' : string)
    (height_cm weight_kg : Qc) :
  (forall n,
     n <> Iron ->
     get (calculate_deficiency totals gender height_cm weight_kg) (key n)
     = get (calculate_deficiency totals gender' height_cm weight_kg) (key n))
  /\ (lower gender = lower gender' ->
      calculate_deficiency totals gender height_cm weight_kg
      = calculate_deficiency totals gender' height_cm weight_kg).
Proof.
  split.
  - intros n Hn. rewrite !deficiency_entry.
    assert (Hb : baseline_of (adjusted_baseline gender height_cm weight_kg) n
                 = baseline_of
                     (adjusted_baseline gender' height_cm weight_kg) n).
    { unfold adjusted_baseline.
      destruct (truthy _ && ltb _ (Q2Qc 18.5));
        [| destruct (truthy _ && ltb (Q2Qc 25) _)];
        destruct n; try reflexivity; congruence. }
    unfold baseline_mg. rewrite Hb. reflexivity.
  - intro H. unfold calculate_deficiency, adjusted_baseline, initial_baseline.
    rewrite H. reflexivity.
Qed.

(** * Further properties of the recommender *)

Lemma table_foods_length (ks : list string) :
  (forall k, In k ks -> In k canonical) ->
  length (flat_map (fun n => get_default base n []) ks)
  = (3 * length ks)%nat.
Proof.
  induction ks as [| k ks IH]; intro H; [reflexivity |].
  cbn [flat_map]. rewrite length_app, IH
    by (intros k' Hin; apply H; right; exact Hin).
  assert (Hk : length (get_default base k []) = 3%nat).
  { destruct (H k (or_introl eq_refl))
      as [<- | [<- | [<- | [<- | [<- | []]]]]]; reflexivity. }
  rewrite Hk. cbn [length]. lia.
Qed.

Lemma firstn_cap {A} (table : list A) (w1 w2 : A) :
  ((length table <= 8)%nat ->
   firstn 10 (table ++ [w1; w2]) = (table ++ [w1; w2])%list)
  /\ (length table = 9%nat ->
      firstn 10 (table ++ [w1; w2]) = (table ++ [w1])%list)
  /\ ((10 <= length table)%nat ->
      firstn 10 (table ++ [w1; w2]) = firstn 10 table).
Proof.
  split; [| split]; intro H.
  - apply firstn_all2. rewrite length_app. cbn [length]. lia.
  - rewrite firstn_app, (firstn_all2 table) by lia. rewrite H.
    reflexivity.
  - rewrite firstn_app.
    replace (10 - length table)%nat with 0%nat by lia.
    change (firstn 0 [w1; w2]) with (@nil A). apply app_nil_r.
Qed.

Lemma In_firstn {A} (n : nat) (l : list A) (x : A) :
  In x (firstn n l) -> In x l.
Proof.
  intro H. rewrite <- (firstn_skipn n l). apply in_or_app. left. exact H.
Qed.

(** X12: the cap cuts from the end, so the weather foods go first: with at
    most 8 table foods both weather foods are returned after them, with 9
    only the first weather food, and with 10 or more none. *)
Theorem cap_drops_weather_foods_first
    (defic : dict string) (weather : dict wvalue) (hot : bool) :
  is_hot weather = Some hot ->
  let table := flat_map (fun n => get_default base n []) (keys defic) in
  let w1 := Triple (if hot then "Cucumber" else "Soup") "-" "-" in
  let w2 := Triple (if hot then "Yogurt" else "Eggs") "-" "-" in
  exists rec,
    recommend_foods defic weather = Some rec
    /\ ((length table <= 8)%nat -> rec = (table ++ [w1; w2])%list)
    /\ (length table = 9%nat -> rec = (table ++ [w1])%list)
    /\ ((10 <= length table)%nat -> rec = firstn 10 table).
Proof.
  intros H table w1 w2. eexists. split.
  { apply recommend_foods_candidates, H. }
  fold table.
  replace (map (fun f => Triple f "-" "-") (temp_foods hot)) with [w1; w2]
    by (destruct hot; reflexivity).
  apply firstn_cap.
Qed.

(** X13: in the pipeline of [analyze], where the deficiency map comes from
    the scorer, there are three table foods per deficiency; so both weather
    foods are recommended when at most two nutrients are deficient, only
    the first when three are, and none when four or five are. *)
Theorem weather_foods_by_deficiency_count
    (totals : dict Qc) (gender : string) (height_cm weight_kg : Qc)
    (weather : dict wvalue) (hot : bool) :
  is_hot weather = Some hot ->
  let defic := calculate_deficiency totals gender height_cm weight_kg in
  let table := flat_map (fun n => get_default base n []) (keys defic) in
  let w1 := Triple (if hot then "Cucumber" else "Soup") "-" "-" in
  let w2 := Triple (if hot then "Yogurt" else "Eggs") "-" "-" in
  exists rec,
    recommend_foods defic weather = Some rec
    /\ length table = (3 * length defic)%nat
    /\ ((length defic <= 2)%nat -> rec = (table ++ [w1; w2])%list)
    /\ (length defic = 3%nat -> rec = (table ++ [w1])%list)
    /\ ((4 <= length defic)%nat ->
        rec = firstn 10 table /\ ~ In w1 rec /\ ~ In w2 rec).
Proof.
  intros H defic table w1 w2.
  assert (Hlen : length table = (3 * length defic)%nat).
  { unfold table. rewrite table_foods_length.
    - unfold keys. rewrite length_map. reflexivity.
    - intros k Hin. unfold defic in Hin.
      rewrite keys_calculate_deficiency in Hin.
      apply filter_In in Hin. destruct Hin as [Hin _].
      cbn in Hin |- *. tauto. }
  eexists. split; [apply recommend_foods_candidates, H |].
  fold defic table.
  replace (map (fun f => Triple f "-" "-") (temp_foods hot)) with [w1; w2]
    by (destruct hot; reflexivity).
  destruct (firstn_cap table w1 w2) as [H8 [H9 H10]].
  split; [exact Hlen | split; [| split]].
  - intro Hd. apply H8. lia.
  - intro Hd. apply H9. lia.
  - intro Hd. rewrite H10 by lia. split; [reflexivity |].
    assert (Hpairs : forall e, In e table -> exists f a, e = Pair f a).
    { intros e He. unfold table in He. apply in_flat_map in He.
      destruct He as [k [_ He]]. unfold get_default in He.
      destruct (get base k) as [l |] eqn:G; [| destruct He].
      unfold base in G. cbn [get] in G.
      repeat match type of G with
             | (if ?c then _ else _) = _ => destruct c
             end; try discriminate; injection G as <-; cbn in He;
        repeat destruct He as [<- | He]; try (destruct He);
        eexists; eexists; reflexivity. }
    split; intro Hin; apply In_firstn in Hin;
      destruct (Hpairs _ Hin) as [f [a E]]; discriminate.
Qed.

Lemma flat_map_filter {A B} (f : A -> list B) (p : A -> bool)
    (l : list A) :
  (forall x, p x = false -> f x = []) ->
  flat_map f (filter p l) = flat_map f l.
Proof.
  intro H. induction l as [| x l IH]; cbn [filter flat_map];
    [reflexivity |].
  destruct (p x) eqn:E; cbn [flat_map]; rewrite IH; [reflexivity |].
  rewrite (H x E). reflexivity.
Qed.

(** X15: a key of the deficiency map that the food table does not have
    adds nothing: the recommendations are those for the map without such
    keys. *)
Theorem recommend_foods_ignores_unknown_keys
    (defic : dict string) (weather : dict wvalue) :
  recommend_foods defic weather
  = recommend_foods (filter (fun kv => mem (fst kv) base) defic) weather.
Proof.
  unfold recommend_foods. destruct (is_hot weather) as [hot |];
    [| reflexivity].
  rewrite !(fold_extend (fun n => get_default base n [])).
  cbn [app]. do 3 f_equal.
  assert (Hkeys : keys (filter (fun kv => mem (fst kv) base) defic)
                  = filter (fun k => mem k base) (keys defic)).
  { unfold keys. induction defic as [| kv d IH]; cbn [filter map];
      [reflexivity |].
    destruct (mem (fst kv) base); cbn [map]; rewrite IH; reflexivity. }
  rewrite Hkeys. symmetry. apply flat_map_filter.
  intros k Hk. unfold mem in Hk. unfold get_default.
  destruct (get base k); [discriminate | reflexivity].
Qed.

(** * Further properties of the response parser *)

Lemma find_char_first (c : ascii) (a b : string) :
  find_char c a = None ->
  find_char c (a ++ String c b) = Some (String.length a).
Proof.
  induction a as [| x a IH]; cbn [append find_char String.length].
  - rewrite Ascii.eqb_refl. reflexivity.
  - destruct (Ascii.eqb x c); [discriminate |].
    destruct (find_char c a); [discriminate |].
    intros _. rewrite IH by reflexivity. reflexivity.
Qed.

Lemma rfind_char_last (c : ascii) (a b : string) :
  find_char c b = None ->
  rfind_char c (a ++ String c b) = Some (String.length a).
Proof.
  intro H. induction a as [| x a IH]; cbn [append rfind_char String.length].
  - apply rfind_char_None in H. rewrite H, Ascii.eqb_refl. reflexivity.
  - rewrite IH. reflexivity.
Qed.

Lemma drop_length_app (a x : string) : drop (String.length a) (a ++ x) = x.
Proof.
  induction a as [| y a IH]; [destruct x; reflexivity | exact IH].
Qed.

Lemma take_length_app (a : string) (c : ascii) (b : string) :
  take (S (String.length a)) (a ++ String c b) = a ++ String c "".
Proof.
  induction a as [| y a IH]; [reflexivity |].
  cbn [append String.length]. change (take (S (S (String.length a)))
    (String y (a ++ String c b)))
    with (String y (take (S (String.length a)) (a ++ String c b))).
  rewrite IH. reflexivity.
Qed.

Lemma search_braces_wrapped (before body after : string) :
  find_char "{" before = None ->
  find_char "}" after = None ->
  search_braces (before ++ "{" ++ body ++ "}" ++ after)
  = Some ("{" ++ body ++ "}").
Proof.
  intros Hb Ha. unfold search_braces.
  change ("{" ++ body ++ "}" ++ after)
    with (String "{" (body ++ String "}" after)).
  rewrite (find_char_first _ _ _ Hb), drop_length_app.
  change (String "{" (body ++ String "}" after))
    with (String "{" body ++ String "}" after).
  rewrite (rfind_char_last _ _ _ Ha), take_length_app. reflexivity.
Qed.

(** X16: an object wrapped in prose comes back whole.  When the text
    before holds no opening brace and the text after no closing brace, the
    span is the object from its first to its last character, whatever
    braces it holds inside; if it decodes, the result holds its fields. *)
Theorem parser_recovers_wrapped_object
    (json_loads : string -> option json)
    (before body after : string) (o : list (string * json)) :
  find_char "{" before = None ->
  find_char "}" after = None ->
  json_loads ("{" ++ body ++ "}") = Some (JObj o) ->
  let text := before ++ "{" ++ body ++ "}" ++ after in
  search_braces text = Some ("{" ++ body ++ "}")
  /\ parse_response json_loads text
     = Some {| summary := get_default o "summary" (JStr "");
               meal_plan := get_default o "meal_plan" (JArr []);
               advice := get_default o "advice" (JStr "") |}.
Proof.
  intros Hb Ha Hl text.
  pose proof (search_braces_wrapped before body after Hb Ha) as Hs.
  fold text in Hs. split; [exact Hs |].
  unfold parse_response, _extract_json_from_text. rewrite Hs, Hl.
  reflexivity.
Qed.

(** X17: the span is greedy.  In a reply that holds two objects the span
    runs from the start of the first to the end of the second, prose in
    between included; when that span does not decode the whole trimmed
    reply becomes the summary, although each object alone may decode. *)
Theorem parser_two_objects_fall_back
    (json_loads : string -> option json)
    (before first between second after : string) :
  find_char "{" before = None ->
  find_char "}" after = None ->
  let span :=
    "{" ++ first ++ "}" ++ between ++ "{" ++ second ++ "}" in
  let text := before ++ span ++ after in
  search_braces text = Some span
  /\ (json_loads span = None ->
      parse_response json_loads text
      = Some {| summary := JStr (strip text);
                meal_plan := JArr [];
                advice := JStr "" |}).
Proof.
  intros Hb Ha span text.
  assert (Hspan : span
                  = "{" ++ (first ++ "}" ++ between ++ "{" ++ second)
                    ++ "}").
  { unfold span. cbn [append]. f_equal. symmetry.
    repeat (rewrite append_assoc; cbn [append]). reflexivity. }
  assert (Hs : search_braces text = Some span).
  { unfold text. rewrite Hspan, append_assoc.
    rewrite (append_assoc _ "}" after).
    apply (search_braces_wrapped before
             (first ++ "}" ++ between ++ "{" ++ second) after Hb Ha). }
  split; [exact Hs |]. intro Hl.
  unfold parse_response, _extract_json_from_text. rewrite Hs, Hl.
  reflexivity.
Qed.

(** X18: the parsing step of [consult_profile] is that of
    [consult_with_gemini] followed by the replacement of every false value
    (null, false, 0, empty text, empty list, empty object) by the empty
    default; so none of its three fields is ever a false value other than
    the empty text for summary and advice and the empty list for
    meal_plan, and the two steps agree whenever the three fields are
    true values. *)
Theorem normalized_fields_are_true_or_default
    (json_loads : string -> option json) (raw_text : string) :
  parse_response_normalized json_loads raw_text
  = option_map
      (fun c => {| summary := json_or (summary c) (JStr "");
                   meal_plan := json_or (meal_plan c) (JArr []);
                   advice := json_or (advice c) (JStr "") |})
      (parse_response json_loads raw_text)
  /\ (forall c,
        parse_response_normalized json_loads raw_text = Some c ->
        (json_truthy (summary c) = true \/ summary c = JStr "")
        /\ (json_truthy (meal_plan c) = true \/ meal_plan c = JArr [])
        /\ (json_truthy (advice c) = true \/ advice c = JStr ""))
  /\ (forall c,
        parse_response json_loads raw_text = Some c ->
        json_truthy (summary c) = true ->
        json_truthy (meal_plan c) = true ->
        json_truthy (advice c) = true ->
        parse_response_normalized json_loads raw_text = Some c).
Proof.
  assert (Heq : parse_response_normalized json_loads raw_text
                = option_map
                    (fun c => {| summary := json_or (summary c) (JStr "");
                                 meal_plan := json_or (meal_plan c) (JArr []);
                                 advice := json_or (advice c) (JStr "") |})
                    (parse_response json_loads raw_text)).
  { unfold parse_response_normalized, parse_response.
    change (_parse_json_like json_loads raw_text)
      with (_extract_json_from_text json_loads raw_text).
    destruct (json_get _ "summary" _); [| reflexivity].
    destruct (json_get _ "meal_plan" _); [| reflexivity].
    destruct (json_get _ "advice" _); reflexivity. }
  assert (Hor : forall x d, json_truthy (json_or x d) = true
                            \/ json_or x d = d).
  { intros x d. unfold json_or. destruct (json_truthy x) eqn:E; tauto. }
  split; [exact Heq | split].
  - intros c H. rewrite Heq in H.
    destruct (parse_response json_loads raw_text); [| discriminate].
    injection H as <-. cbn [summary meal_plan advice].
    repeat split; apply Hor.
  - intros c H Hs Hm Ha. rewrite Heq, H. cbn [option_map].
    unfold json_or. rewrite Hs, Hm, Ha. destruct c; reflexivity.
Qed.

(** ** Trimming *)

Lemma rstrip_nonempty_last (s : string) :
  match rstrip s with
  | EmptyString => True
  | String _ _ =>
      exists r c, rstrip s = r ++ String c "" /\ isspace c = false
  end.
Proof.
  induction s as [| x s IH]; cbn [rstrip]; [exact I |].
  destruct (rstrip s) as [| y r].
  - destruct (isspace x) eqn:E; [exact I |].
    exists "", x. split; [reflexivity | exact E].
  - destruct IH as [r' [c [Hr Hc]]]. exists (String x r'), c.
    rewrite Hr. split; [reflexivity | exact Hc].
Qed.

Lemma rstrip_keeps_first (s : string) (c : ascii) (r : string) :
  rstrip s = String c r -> exists r', s = String c r'.
Proof.
  destruct s as [| x s]; cbn [rstrip]; [discriminate |].
  destruct (rstrip s).
  - destruct (isspace x); [discriminate |].
    intro H. injection H as -> _. eexists. reflexivity.
  - intro H. injection H as -> _. eexists. reflexivity.
Qed.

Lemma lstrip_first (s : string) (c : ascii) (r : string) :
  lstrip s = String c r -> isspace c = false.
Proof.
  induction s as [| x s IH]; cbn [lstrip]; [discriminate |].
  destruct (isspace x) eqn:E; [exact IH |].
  intro H. injection H as <- _. exact E.
Qed.

Lemma lstrip_fixed (c : ascii) (r : string) :
  isspace c = false -> lstrip (String c r) = String c r.
Proof. intro H. cbn [lstrip]. rewrite H. reflexivity. Qed.

Lemma rstrip_idempotent (s : string) : rstrip (rstrip s) = rstrip s.
Proof.
  induction s as [| x s IH]; cbn [rstrip]; [reflexivity |].
  destruct (rstrip s) as [| y r] eqn:R.
  - destruct (isspace x) eqn:E; [reflexivity |].
    cbn [rstrip]. rewrite E. reflexivity.
  - change (match rstrip (String y r) with
            | EmptyString =>
                if isspace x then EmptyString else String x EmptyString
            | String a b => String x (String a b)
            end = String x (String y r)).
    rewrite IH. reflexivity.
Qed.

Lemma strip_first (s : string) (c : ascii) (r : string) :
  strip s = String c r -> isspace c = false.
Proof.
  unfold strip. intro H.
  destruct (rstrip_keeps_first _ _ _ H) as [r' Hr].
  apply (lstrip_first _ _ _ Hr).
Qed.

Lemma strip_idempotent (s : string) : strip (strip s) = strip s.
Proof.
  unfold strip at 1. destruct (strip s) as [| c r] eqn:E; [reflexivity |].
  rewrite (lstrip_fixed c r (strip_first _ _ _ E)).
  rewrite <- E. unfold strip. apply rstrip_idempotent.
Qed.

Lemma rstrip_blank (s : string) :
  (forall n c, String.get n s = Some c -> isspace c = true) ->
  rstrip s = "".
Proof.
  induction s as [| x s IH]; intro H; cbn [rstrip]; [reflexivity |].
  rewrite IH by (intros n c Hn; apply (H (S n) c); exact Hn).
  rewrite (H 0%nat x eq_refl). reflexivity.
Qed.

Lemma lstrip_blank (s : string) :
  (forall n c, String.get n s = Some c -> isspace c = true) ->
  lstrip s = "".
Proof.
  induction s as [| x s IH]; intro H; cbn [lstrip]; [reflexivity |].
  rewrite (H 0%nat x eq_refl).
  apply IH. intros n c Hn. apply (H (S n) c). exact Hn.
Qed.

(** X19: when the parser falls back, the summary is trimmed: it neither
    starts nor ends with a whitespace character, trimming it again changes
    nothing, and a reply of whitespace only gives the empty summary. *)
Theorem fallback_summary_is_trimmed
    (json_loads : string -> option json) (text : string) :
  search_braces text = None ->
  exists s,
    parse_response json_loads text
    = Some {| summary := JStr s; meal_plan := JArr []; advice := JStr "" |}
    /\ s = strip text
    /\ strip s = s
    /\ (forall c r, s = String c r -> isspace c = false)
    /\ (forall r c, s = r ++ String c "" -> isspace c = false)
    /\ ((forall n c, String.get n text = Some c -> isspace c = true) ->
        s = "").
Proof.
  intro H. exists (strip text).
  split; [| split; [reflexivity | split; [| split; [| split]]]].
  - unfold parse_response, _extract_json_from_text. rewrite H. reflexivity.
  - apply strip_idempotent.
  - intros c r E. apply (strip_first text c r E).
  - intros r c E. unfold strip in E.
    pose proof (rstrip_nonempty_last (lstrip text)) as Hl.
    rewrite E in Hl. destruct (r ++ String c "") as [| y t] eqn:Er.
    + destruct r; discriminate.
    + destruct Hl as [r' [c' [Hr Hc]]].
      assert (Hlast : forall a b x y,
                 a ++ String x "" = b ++ String y "" -> x = y).
      { clear. induction a as [| p a IH]; intros [| q b] x y Heq.
        - injection Heq as ->. reflexivity.
        - injection Heq as _ Heq. destruct b; discriminate.
        - injection Heq as _ Heq. destruct a; discriminate.
        - injection Heq as _ Heq. apply (IH _ _ _ Heq). }
      rewrite Hr in Er. rewrite (Hlast _ _ _ _ Er). exact Hc.
  - intro Hblank. unfold strip. rewrite lstrip_blank by exact Hblank.
    reflexivity.
Qed.

(** * Further properties of the unit normalizer and of the matcher *)

Lemma lower_char_idempotent (c : ascii) :
  lower_char (lower_char c) = lower_char c.
Proof.
  destruct c as [[] [] [] [] [] [] [] []]; reflexivity.
Qed.

Lemma lower_idempotent (s : string) : lower (lower s) = lower s.
Proof.
  induction s as [| c s IH]; cbn [lower]; [reflexivity |].
  rewrite lower_char_idempotent, IH. reflexivity.
Qed.


Lemma contains_longer (a sub s : string) :
  contains (a ++ sub) s = true -> contains sub s = true.
Proof.
  rewrite !contains_substring. intros [x [y H]].
  exists (x ++ a), y. rewrite H, !append_assoc. reflexivity.
Qed.

(** X21: the second pattern of Fiber never decides: a name that holds
    "dietary fiber" holds "fiber", so the matcher is the one of the table
    with "fiber" as the only pattern of Fiber. *)
Theorem dietary_fiber_pattern_is_redundant (full_name : string) :
  matched_key full_name
  = first_match
      [ ("Protein", ["protein"]);
        ("Vitamin C", ["vitamin c"; "ascorbic acid"]);
        ("Iron", ["iron"]);
        ("Calcium", ["calcium"]);
        ("Fiber", ["fiber"]) ]
      (lower full_name).
Proof.
  unfold matched_key, NUTRIENT_KEY_MAP. cbn [first_match].
  assert (H : any_in ["fiber"; "dietary fiber"] (lower full_name)
              = any_in ["fiber"] (lower full_name)).
  { unfold any_in. cbn [existsb]. rewrite orb_false_r.
    destruct (contains "fiber" (lower full_name)) eqn:E; [reflexivity |].
    destruct (contains "dietary fiber" (lower full_name)) eqn:D;
      [| reflexivity].
    apply (contains_longer "dietary " "fiber") in D. congruence. }
  rewrite H. reflexivity.
Qed.

(** X22: the matcher does not see letter case, answers only with one of
    the five canonical names, and gives Protein to every name that holds
    "protein", whatever else the name holds. *)
Theorem matcher_case_range_priority (full_name : string) :
  matched_key (lower full_name) = matched_key full_name
  /\ (forall k, matched_key full_name = Some k -> In k canonical)
  /\ (forall a b,
        lower full_name = a ++ "protein" ++ b ->
        matched_key full_name = Some "Protein").
Proof.
  split; [| split].
  - unfold matched_key. rewrite lower_idempotent. reflexivity.
  - intros k H. apply (matched_key_canonical _ _ H).
  - intros a b H. unfold matched_key, NUTRIENT_KEY_MAP. cbn [first_match].
    assert (E : any_in ["protein"] (lower full_name) = true).
    { apply any_in_substring. exists "protein", a, b.
      split; [left; reflexivity | exact H]. }
    rewrite E. reflexivity.
Qed.

(** * The [analyze] route *)

Section Route.

Variable get_weather : string -> option (dict wvalue).
Variable get_food_nutrients : string -> Nutrients.

(** X23: the checks of the route come in a fixed order and do not look at
    the items or the profile: a city that is blank after trimming gives
    400 "City required" whatever the weather lookup would say, and a
    trimmed city for which the lookup has nothing gives 404 with the
    trimmed city at the end of the message. *)
Theorem analyze_input_errors (data : AnalyzeRequest) :
  let city := strip (req_city data) in
  (city = "" ->
   analyze get_weather get_food_nutrients data
   = Some (Failed 400 "City required"))
  /\ (city <> "" ->
      get_weather city = None \/ get_weather city = Some [] ->
      analyze get_weather get_food_nutrients data
      = Some (Failed 404 ("Weather data not found for city: " ++ city)))
  /\ (forall body,
        analyze get_weather get_food_nutrients data = Some (Analysed body) ->
        city <> "" /\ get_weather city = Some (weather_out body)
        /\ weather_out body <> []).
Proof.
  intro city. unfold analyze. fold city. split; [| split].
  - intros ->. reflexivity.
  - intros Hc Hw. apply String.eqb_neq in Hc. rewrite Hc.
    destruct Hw as [-> | ->]; reflexivity.
  - intros body. destruct (String.eqb city "") eqn:E; [discriminate |].
    apply String.eqb_neq in E.
    destruct (get_weather city) as [[| kv w] |]; try discriminate.
    destruct (recommend_foods _ _); [| discriminate].
    intro H. injection H as <-. cbn [weather_out].
    split; [exact E | split; [reflexivity | discriminate]].
Qed.

End Route.

(** * The food lookup *)

Section FoodLookup.

Variable to_float : json -> option Qc.

Lemma read_entries_raises (ns : list json) (n : json)
    (nutrients : dict (Qc * json)) :
  In n ns -> read_entry to_float n = Raises ->
  read_entries to_float ns nutrients = None.
Proof.
  revert nutrients. induction ns as [| m ns IH]; intros nutrients Hin Hr;
    [destruct Hin |].
  cbn [read_entries]. destruct Hin as [-> | Hin].
  - rewrite Hr. reflexivity.
  - destruct (read_entry to_float m); [reflexivity | |]; apply IH; assumption.
Qed.

(** X25: one entry that is not an object voids the lookup: whatever the
    other entries of the first food hold, also those read before it, the
    result is the empty dict. *)
Theorem one_bad_entry_voids_the_lookup
    (d food_data : list (string * json)) (others ns : list json)
    (n : json) :
  get_default d "foods" (JArr []) = JArr (JObj food_data :: others) ->
  get_default food_data "foodNutrients" (JArr []) = JArr ns ->
  In n ns -> (forall o, n <> JObj o) ->
  nutrients_of_response to_float (JObj d) = [].
Proof.
  intros Hf Hn Hin Hobj. unfold nutrients_of_response. rewrite Hf, Hn.
  rewrite (read_entries_raises ns n []); [reflexivity | exact Hin |].
  destruct n; try reflexivity. exfalso. apply (Hobj o). reflexivity.
Qed.

Lemma In_set {V} (d : dict V) (k k' : string) (v v' : V) :
  In (k', v') (set d k v) -> (k', v') = (k, v) \/ In (k', v') d.
Proof.
  induction d as [| [k0 v0] d IH]; cbn [set].
  - intros [H | []]. left. symmetry. exact H.
  - destruct (String.eqb k0 k) eqn:E.
    + apply String.eqb_eq in E. subst k0.
      intros [H | H]; [left; symmetry; exact H | right; right; exact H].
    + intros [H | H]; [right; left; exact H |].
      destruct (IH H) as [H' | H']; [left; exact H' | right; right; exact H'].
Qed.

Lemma read_entry_stored (n : json) (k : string) (x : Qc) (u : json) :
  read_entry to_float n = Stored k x u -> read_from to_float [n] k x u.
Proof.
  unfold read_entry. destruct n as [| | | | | o]; try discriminate.
  destruct (field o "value") eqn:V; try discriminate;
    (destruct (json_truthy _); [| discriminate]);
    (destruct (to_float _) eqn:F; [| discriminate]);
    destruct (json_or (field o "nutrientName") (field o "name"))
      as [| | | nm | |] eqn:N;
    try discriminate; intro H; injection H as <- <- <-;
    exists o, nm; rewrite V;
    (split; [left; reflexivity |]);
    (split; [exact N |]); (split; [reflexivity |]);
    (split; [discriminate |]); (split; [exact F | reflexivity]).
Qed.

Lemma read_entries_sound (ns : list json) (acc result : dict (Qc * json)) :
  read_entries to_float ns acc = Some result ->
  forall k x u,
    In (k, (x, u)) result -> In (k, (x, u)) acc \/ read_from to_float ns k x u.
Proof.
  revert acc. induction ns as [| n ns IH]; intros acc H k x u Hin;
    cbn [read_entries] in H.
  - injection H as <-. left. exact Hin.
  - assert (Hweaken : read_from to_float ns k x u ->
                      read_from to_float (n :: ns) k x u).
    { intros [o [s [Ho H']]]. exists o, s.
      split; [right; exact Ho | exact H']. }
    destruct (read_entry to_float n) as [| | k' x' u'] eqn:E;
      [discriminate | |].
    + destruct (IH _ H k x u Hin) as [Ha | Hr]; [left; exact Ha |].
      right. apply Hweaken, Hr.
    + destruct (IH _ H k x u Hin) as [Ha | Hr].
      * apply In_set in Ha. destruct Ha as [Ha | Ha]; [| left; exact Ha].
        injection Ha as -> -> ->. right.
        destruct (read_entry_stored _ _ _ _ E) as [o [s [Ho H']]].
        exists o, s. split; [| exact H'].
        destruct Ho as [-> | []]. left. reflexivity.
      * right. apply Hweaken, Hr.
Qed.

(** X26: nothing in the result is made up.  Every entry of the result
    comes from an object among the nutrient entries of the first food: its
    key is the trimmed name of that object ([nutrientName], or [name] when
    that is missing or false), the name is a text, the value is not null
    and converts to the number stored, and the unit is the object's unit
    or the empty text. *)
Theorem lookup_entries_come_from_the_response
    (data : json) (k : string) (x : Qc) (u : json) :
  In (k, (x, u)) (nutrients_of_response to_float data) ->
  exists d food_data others ns,
    data = JObj d
    /\ get_default d "foods" (JArr []) = JArr (JObj food_data :: others)
    /\ get_default food_data "foodNutrients" (JArr []) = JArr ns
    /\ read_from to_float ns k x u
    /\ strip k = k.
Proof.
  unfold nutrients_of_response.
  destruct data as [| | | | | d]; try (intros []).
  destruct (get_default d "foods" (JArr [])) as [| | | | l |] eqn:Hf;
    try (intros []).
  destruct l as [| [| | | | | food_data] others]; try (intros []).
  destruct (get_default food_data "foodNutrients" (JArr []))
    as [| | | | ns |] eqn:Hn; try (intros []).
  destruct (read_entries to_float ns []) as [result |] eqn:R;
    [| intros []].
  intro Hin.
  destruct (read_entries_sound ns [] result R k x u Hin) as [[] | Hr].
  exists d, food_data, others, ns.
  split; [reflexivity | split; [exact Hf | split; [exact Hn |]]].
  split; [exact Hr |].
  destruct Hr as [o [s [_ [_ [-> _]]]]]. apply strip_idempotent.
Qed.

Lemma read_entries_untouched (ns : list json) (acc result : dict (Qc * json))
    (k : string) :
  read_entries to_float ns acc = Some result ->
  (forall n x u, In n ns -> read_entry to_float n <> Stored k x u) ->
  get result k = get acc k.
Proof.
  revert acc. induction ns as [| n ns IH]; intros acc H Hno;
    cbn [read_entries] in H.
  - injection H as <-. reflexivity.
  - assert (Hrest : forall m x u,
               In m ns -> read_entry to_float m <> Stored k x u).
    { intros m x u Hin. apply Hno. right. exact Hin. }
    destruct (read_entry to_float n) as [| | k' x' u'] eqn:E;
      [discriminate | apply (IH _ H Hrest) |].
    rewrite (IH _ H Hrest), get_set.
    destruct (String.eqb k' k) eqn:Ek; [| reflexivity].
    apply String.eqb_eq in Ek. subst k'. exfalso.
    apply (Hno n x' u' (or_introl eq_refl)). exact E.
Qed.

(** X27: for a name that occurs more than once the last entry wins: when
    the loop runs through, an entry that is stored and is followed by no
    entry stored under the same trimmed name is the one found under that
    name. *)
Theorem last_entry_of_a_name_wins
    (d food_data : list (string * json)) (others before after : list json)
    (n : json) (k : string) (x : Qc) (u : json) :
  get_default d "foods" (JArr []) = JArr (JObj food_data :: others) ->
  get_default food_data "foodNutrients" (JArr [])
  = JArr (before ++ n :: after) ->
  (forall m, In m (before ++ n :: after) -> exists o, m = JObj o) ->
  read_entry to_float n = Stored k x u ->
  (forall m x' u', In m after -> read_entry to_float m <> Stored k x' u') ->
  get (nutrients_of_response to_float (JObj d)) k = Some (x, u).
Proof.
  intros Hf Hn Hobj Hst Hlast. unfold nutrients_of_response.
  rewrite Hf, Hn.
  assert (Hruns : forall ns acc,
             (forall m, In m ns -> exists o, m = JObj o) ->
             exists result, read_entries to_float ns acc = Some result).
  { induction ns as [| m ns IH]; intros acc H; cbn [read_entries].
    - eexists. reflexivity.
    - destruct (H m (or_introl eq_refl)) as [o ->].
      assert (Hns : forall m, In m ns -> exists o, m = JObj o)
        by (intros m' Hm; apply H; right; exact Hm).
      destruct (read_entry to_float (JObj o)) eqn:E.
      + unfold read_entry in E.
        destruct (field o "value"); try discriminate;
          destruct (json_truthy _); try discriminate;
          destruct (to_float _); try discriminate;
          destruct (json_or (field o "nutrientName") (field o "name"));
          discriminate.
      + apply IH, Hns.
      + apply IH, Hns. }
  destruct (Hruns _ [] Hobj) as [result R]. rewrite R.
  assert (Hsplit : forall l acc res,
             read_entries to_float (l ++ n :: after) acc = Some res ->
             exists mid,
               read_entries to_float after (set mid k (x, u)) = Some res).
  { induction l as [| m l IH]; intros acc res H.
    - cbn [app read_entries] in H. rewrite Hst in H. exists acc. exact H.
    - cbn [app read_entries] in H.
      destruct (read_entry to_float m); [discriminate | |];
        apply (IH _ _ H). }
  destruct (Hsplit before [] result R) as [mid Hmid].
  rewrite (read_entries_untouched after _ result k Hmid Hlast), get_set,
    String.eqb_refl.
  reflexivity.
Qed.

End FoodLookup.

(** * The float primitives at known values *)

(** [repr] at floats whose shortest decimal is short, long, in exponent
    notation, denormal or the largest. *)
Example repr_examples :
  map PyFloat.repr
    [0.1; 0.30000000000000004; 1e16; 1e-5; 123456789012345680; 5e-324;
     1.7976931348623157e308; 100; -0; 9007199254740993; 0.0001; 1234.5;
     nan; infinity; neg_infinity]%float
  = ["0.1"; "0.30000000000000004"; "1e+16"; "1e-05";
     "1.2345678901234568e+17"; "5e-324"; "1.7976931348623157e+308";
     "100.0"; "-0.0"; "9007199254740992.0"; "0.0001"; "1234.5";
     "nan"; "inf"; "-inf"].
Proof. vm_compute. reflexivity. Qed.

(** [round(x, 2)] rounds the binary value of [x], ties to even: the floats
    2.675, 49.995, 7.135, 0.285 and 1.005 are below the decimals of those
    names, 0.005 is above, 0.125 and 0.375 are ties. *)
Example round2_examples :
  map PyFloat.fmt_round2
    [2.675; 0.125; 0.375; 49.995; 7.135; 0.005; -0.004; 1e22; 1234.5678;
     0.285; 1.005; 0.0025; nan; infinity]%float
  = ["2.67"; "0.12"; "0.38"; "49.99"; "7.13"; "0.01"; "-0.0"; "1e+22";
     "1234.57"; "0.28"; "1.0"; "0.0"; "nan"; "inf"].
Proof. vm_compute. reflexivity. Qed.

(** * Order of the floats *)

Module FloatFacts.

Ltac sf_cases :=
  change PosDef.Pos.compare_cont with Pos.compare_cont in *;
  change (Pos.compare_cont Eq) with Pos.compare in *;
  repeat match goal with
  | s : bool |- _ => destruct s
  | |- context [Z.compare ?a ?b] => destruct (Z.compare_spec a b)
  | H : context [Z.compare ?a ?b] |- _ => destruct (Z.compare_spec a b)
  | |- context [Pos.compare ?a ?b] => destruct (Pos.compare_spec a b)
  | H : context [Pos.compare ?a ?b] |- _ => destruct (Pos.compare_spec a b)
  end;
  cbn in *; subst; try discriminate; try reflexivity; try lia.

Ltac sf_destruct x y z :=
  destruct x as [? | ? | | ? ? ?], y as [? | ? | | ? ? ?],
    z as [? | ? | | ? ? ?];
  cbn [SFcompare]; intros; try discriminate; try reflexivity.

Lemma SFcompare_Lt_trans (x y z : spec_float) :
  SFcompare x y = Some Lt -> SFcompare y z = Some Lt ->
  SFcompare x z = Some Lt.
Proof. sf_destruct x y z; sf_cases. Qed.

Lemma SFcompare_Eq_l (x y z : spec_float) :
  SFcompare x y = Some Eq -> SFcompare x z = SFcompare y z.
Proof. sf_destruct x y z; sf_cases. Qed.

Lemma SFcompare_Eq_r (x y z : spec_float) :
  SFcompare y z = Some Eq -> SFcompare x y = SFcompare x z.
Proof. sf_destruct x y z; sf_cases. Qed.

Lemma SFcompare_Lt_Gt (x y : spec_float) :
  SFcompare x y = Some Lt -> SFcompare y x = Some Gt.
Proof.
  destruct x as [? | ? | | ? ? ?], y as [? | ? | | ? ? ?];
    cbn [SFcompare]; intros; try discriminate; try reflexivity; sf_cases.
Qed.

Local Open Scope float_scope.

Lemma ltb_compare (x y : float) :
  (x <? y) = true <-> SFcompare (Prim2SF x) (Prim2SF y) = Some Lt.
Proof.
  rewrite FloatAxioms.ltb_spec. unfold SFltb.
  destruct (SFcompare (Prim2SF x) (Prim2SF y)) as [[]|]; split; congruence.
Qed.

Lemma leb_compare (x y : float) :
  (x <=? y) = true <->
  SFcompare (Prim2SF x) (Prim2SF y) = Some Lt
  \/ SFcompare (Prim2SF x) (Prim2SF y) = Some Eq.
Proof.
  rewrite FloatAxioms.leb_spec. unfold SFleb.
  destruct (SFcompare (Prim2SF x) (Prim2SF y)) as [[]|]; split;
    try congruence; auto; intros [?|?]; congruence.
Qed.

Lemma eqb_compare (x y : float) :
  (x =? y) = true <-> SFcompare (Prim2SF x) (Prim2SF y) = Some Eq.
Proof.
  rewrite FloatAxioms.eqb_spec. unfold SFeqb.
  destruct (SFcompare (Prim2SF x) (Prim2SF y)) as [[]|]; split; congruence.
Qed.

Lemma ltb_trans (x y z : float) :
  (x <? y) = true -> (y <? z) = true -> (x <? z) = true.
Proof. rewrite !ltb_compare. apply SFcompare_Lt_trans. Qed.

Lemma ltb_leb_trans (x y z : float) :
  (x <? y) = true -> (y <=? z) = true -> (x <? z) = true.
Proof.
  rewrite leb_compare, !ltb_compare. intros Hxy [H | H].
  - eapply SFcompare_Lt_trans; eassumption.
  - rewrite <- (SFcompare_Eq_r _ _ _ H). exact Hxy.
Qed.

Lemma ltb_irrefl (x : float) : (x <? x) = false.
Proof.
  destruct (x <? x) eqn:E; [ | reflexivity ].
  apply ltb_compare in E. pose proof (SFcompare_Lt_Gt _ _ E). congruence.
Qed.

Lemma ltb_asym (x y : float) : (x <? y) = true -> (y <? x) = false.
Proof.
  intros H. destruct (y <? x) eqn:E; [ | reflexivity ].
  pose proof (ltb_trans _ _ _ H E) as F. rewrite ltb_irrefl in F.
  discriminate.
Qed.

Lemma ltb_not_eqb (x y : float) : (x <? y) = true -> (x =? y) = false.
Proof.
  intros H. destruct (x =? y) eqn:E; [ | reflexivity ].
  apply ltb_compare in H. apply eqb_compare in E. congruence.
Qed.

Lemma ltb_not_eqb_r (x y : float) : (x <? y) = true -> (y =? x) = false.
Proof.
  intros H. destruct (y =? x) eqn:E; [ | reflexivity ].
  apply ltb_compare in H. apply eqb_compare in E.
  apply SFcompare_Lt_Gt in H. congruence.
Qed.

Lemma eqb_not_ltb (x y : float) : (x =? y) = true -> (x <? y) = false.
Proof.
  intros E. destruct (x <? y) eqn:H; [ | reflexivity ].
  rewrite (ltb_not_eqb _ _ H) in E. discriminate.
Qed.

End FloatFacts.

(** * Deficiency Scorer, in binary64 *)

Section FloatScorer.

Local Open Scope float_scope.

Variable total_nutrients_mg : dict float.

Lemma get_check_grams_b64 (short_key : string) (baseline_g : float)
    (d : dict string) (k : string) :
  get (Float64.check_grams total_nutrients_mg short_key baseline_g d) k
  = if String.eqb short_key k
       && (get_default total_nutrients_mg short_key 0
           <? (baseline_g * 1000) * 0.6)
    then Some (PyFloat.fmt_round2
                 ((baseline_g * 1000
                   - get_default total_nutrients_mg short_key 0)
                  / 1000) ++ " g")%string
    else get d k.
Proof.
  unfold Float64.check_grams.
  destruct (_ <? _); [rewrite get_set |];
    destruct (String.eqb short_key k); reflexivity.
Qed.

Lemma get_check_milligrams_b64 (short_key : string) (need : float)
    (d : dict string) (k : string) :
  get (Float64.check_milligrams total_nutrients_mg d (short_key, need)) k
  = if String.eqb short_key k
       && (get_default total_nutrients_mg short_key 0 <? need * 0.6)
    then Some (PyFloat.fmt_round2
                 (need - get_default total_nutrients_mg short_key 0)
               ++ " mg")%string
    else get d k.
Proof.
  unfold Float64.check_milligrams.
  destruct (_ <? _); [rewrite get_set |];
    destruct (String.eqb short_key k); reflexivity.
Qed.

(** What the scorer holds under the key of a nutrient. *)
Lemma get_score (b : Float64.Baseline) (n : nutrient) :
  get (Float64.score total_nutrients_mg b) (key n)
  = if Float64.total_mg total_nutrients_mg n <? Float64.threshold b n
    then Some (PyFloat.fmt_round2 (Float64.shortfall b total_nutrients_mg n)
               ++ " " ++ unit_suffix n)%string
    else None.
Proof.
  unfold Float64.score. cbn [fold_left].
  unfold Float64.total_mg, Float64.threshold, Float64.shortfall,
    Float64.baseline_mg, unit_suffix.
  destruct n; cbn [key in_grams Float64.baseline_of];
    repeat (rewrite ?get_check_milligrams_b64, ?get_check_grams_b64;
            cbn [String.eqb Ascii.eqb Bool.eqb andb]);
    try reflexivity.
  all: destruct (_ <? _); reflexivity.
Qed.

(** The keys of the result, in the order of the five tests. *)
Lemma keys_score (b : Float64.Baseline) :
  keys (Float64.score total_nutrients_mg b)
  = map key
      (filter
         (fun n =>
            Float64.total_mg total_nutrients_mg n <? Float64.threshold b n)
         [Protein; Fiber; VitaminC; Iron; Calcium]).
Proof.
  unfold Float64.score, Float64.check_grams, Float64.check_milligrams.
  cbn [fold_left filter].
  unfold Float64.total_mg, Float64.threshold, Float64.baseline_mg.
  cbn [key in_grams Float64.baseline_of].
  destruct (_ <? Float64.Protein_g b * 1000 * 0.6);
    destruct (_ <? Float64.Fiber_g b * 1000 * 0.6);
    destruct (_ <? Float64.Vitamin_C_mg b * 0.6);
    destruct (_ <? Float64.Iron_mg b * 0.6);
    destruct (_ <? Float64.Calcium_mg b * 0.6); reflexivity.
Qed.

End FloatScorer.

(** The baselines after the adjustment are one of six records. *)
Lemma adjust_cases (bmi : float) (gender : string) :
  let b := Float64.adjust bmi (Float64.initial_baseline gender) in
  exists c iron,
    (c = None \/ c = Some 1.10%float \/ c = Some 0.90%float)
    /\ (iron = 18%float \/ iron = 8%float)
    /\ b = (match c with
            | None => fun x => x
            | Some c => Float64.scale c
            end)
             {| Float64.Protein_g := 50;
                Float64.Vitamin_C_mg := 90;
                Float64.Iron_mg := iron;
                Float64.Calcium_mg := 1000;
                Float64.Fiber_g := 30 |}.
Proof.
  unfold Float64.adjust, Float64.initial_baseline.
  destruct (PyFloat.truthy bmi && _);
    [exists (Some 1.10%float)
    | destruct (PyFloat.truthy bmi && _);
      [exists (Some 0.90%float) | exists None]];
    destruct (String.eqb (lower gender) "female");
    [exists 18%float | exists 8%float | exists 18%float | exists 8%float
    | exists 18%float | exists 8%float]; tauto.
Qed.

Ltac baseline_cases bmi gender :=
  let c := fresh "c" in
  let iron := fresh "iron" in
  let Hc := fresh "Hc" in
  let Hi := fresh "Hi" in
  let Hb := fresh "Hb" in
  destruct (adjust_cases bmi gender) as (c & iron & Hc & Hi & Hb);
  cbv zeta in Hb; rewrite Hb; clear Hb;
  destruct Hc as [-> | [-> | ->]]; destruct Hi as [-> | ->].

(** A total of 59.99% of the baseline is below the threshold. *)
Lemma below_threshold_at_5999 (bmi : float) (gender : string)
    (n : nutrient) :
  let b := Float64.adjust bmi (Float64.initial_baseline gender) in
  (Float64.baseline_mg b n * 0.5999 <? Float64.threshold b n)%float = true.
Proof.
  cbv zeta. baseline_cases bmi gender; destruct n; vm_compute; reflexivity.
Qed.

(** A total of 0 is below every threshold. *)
Lemma zero_below_threshold (bmi : float) (gender : string) (n : nutrient) :
  let b := Float64.adjust bmi (Float64.initial_baseline gender) in
  (0 <? Float64.threshold b n)%float = true.
Proof.
  cbv zeta. baseline_cases bmi gender; destruct n; vm_compute; reflexivity.
Qed.

Lemma calculate_deficiency_returns
    (libm_pow : float -> float -> float * errno) (totals : dict float)
    (gender : string) (height_cm weight_kg bmi : float) :
  Float64.bmi_of libm_pow height_cm weight_kg = inr bmi ->
  Float64.calculate_deficiency libm_pow totals gender height_cm weight_kg
  = inr (Float64.score totals
           (Float64.adjust bmi (Float64.initial_baseline gender))).
Proof.
  intro H. unfold Float64.calculate_deficiency. rewrite H. reflexivity.
Qed.

(** X31: in binary64 too the result lists the deficient nutrients in the
    fixed order Protein, Fiber, Vitamin C, Iron, Calcium, which is the
    order in which the recommender meets them: its keys are the keys of
    those of the five, in that order, whose total is below the
    threshold. *)
Theorem deficiencies_in_fixed_order_b64
    (libm_pow : float -> float -> float * errno) (totals : dict float)
    (gender : string) (height_cm weight_kg bmi : float) :
  Float64.bmi_of libm_pow height_cm weight_kg = inr bmi ->
  exists defic,
    Float64.calculate_deficiency libm_pow totals gender height_cm weight_kg
    = inr defic
    /\ keys defic
       = map key
           (filter
              (fun n =>
                 (Float64.total_mg totals n
                  <? Float64.threshold
                       (Float64.adjust bmi (Float64.initial_baseline gender))
                       n)%float)
              [Protein; Fiber; VitaminC; Iron; Calcium]).
Proof.
  intro Hbmi. eexists. split.
  - apply calculate_deficiency_returns. exact Hbmi.
  - apply keys_score.
Qed.

Lemma deficiencies_in_fixed_order_b64_witness :
  exists defic,
    Float64.calculate_deficiency Float64.rounded_square
      [("Calcium", 100%float); ("Fiber", 20000%float);
       ("Protein", 10%float)] "female" 160 55
    = inr defic
    /\ keys defic
       = map key
           (filter
              (fun n =>
                 (Float64.total_mg
                    [("Calcium", 100%float); ("Fiber", 20000%float);
                     ("Protein", 10%float)] n
                  <? Float64.threshold
                       (Float64.adjust 21.484374999999996
                          (Float64.initial_baseline "female"))
                       n)%float)
              [Protein; Fiber; VitaminC; Iron; Calcium]).
Proof.
  exact (deficiencies_in_fixed_order_b64 Float64.rounded_square
           [("Calcium", 100%float); ("Fiber", 20000%float);
            ("Protein", 10%float)] "female" 160 55 21.484374999999996
           eq_refl).
Defined.

(** C1: for every canonical nutrient, the scorer flags it exactly when its
    accumulated total (an absent total counting as 0) is strictly below 60%
    of its adjusted baseline, both in milligrams and the 60% as the code
    computes it, the float product of the baseline in milligrams and 0.6; a
    total equal to that product is not flagged, and a total of 59.99% of
    the baseline is flagged. *)
Theorem C1_flagged_iff_below_60_percent
    (libm_pow : float -> float -> float * errno) (totals : dict float)
    (gender : string) (height_cm weight_kg bmi : float) :
  Float64.bmi_of libm_pow height_cm weight_kg = inr bmi ->
  exists defic,
    Float64.calculate_deficiency libm_pow totals gender height_cm weight_kg
    = inr defic
    /\ forall n : nutrient,
         let b := Float64.adjust bmi (Float64.initial_baseline gender) in
         let total := Float64.total_mg totals n in
         let flagged := mem (key n) defic in
         (flagged = true <-> (total <? Float64.threshold b n)%float = true)
         /\ ((total =? Float64.threshold b n)%float = true ->
             flagged = false)
         /\ (total = (Float64.baseline_mg b n * 0.5999)%float ->
             flagged = true).
Proof.
  intro Hbmi. eexists. split.
  - apply calculate_deficiency_returns. exact Hbmi.
  - intros n b total flagged.
    assert (Hflag : flagged = (total <? Float64.threshold b n)%float).
    { unfold flagged, mem. rewrite get_score. fold b total.
      destruct (total <? Float64.threshold b n)%float; reflexivity. }
    rewrite Hflag. split; [tauto | split].
    + apply FloatFacts.eqb_not_ltb.
    + intros ->. apply below_threshold_at_5999.
Qed.

Lemma C1_witness :
  exists defic,
    Float64.calculate_deficiency Float64.rounded_square
      [("Vitamin C", 59.4%float)] "male" 175 50
    = inr defic
    /\ forall n : nutrient,
         let b :=
           Float64.adjust 16.326530612244898
             (Float64.initial_baseline "male") in
         let total := Float64.total_mg [("Vitamin C", 59.4%float)] n in
         let flagged := mem (key n) defic in
         (flagged = true <-> (total <? Float64.threshold b n)%float = true)
         /\ ((total =? Float64.threshold b n)%float = true ->
             flagged = false)
         /\ (total = (Float64.baseline_mg b n * 0.5999)%float ->
             flagged = true).
Proof.
  exact (C1_flagged_iff_below_60_percent Float64.rounded_square
           [("Vitamin C", 59.4%float)] "male" 175 50 16.326530612244898
           eq_refl).
Defined.

(** The threshold is a float of its own: for Vitamin C at a BMI below 18.5
    the baseline is 99.00000000000001 mg and the threshold
    59.400000000000006 mg, so that a total of 59.4 mg is flagged; for Iron
    at 8 mg the threshold is the float 4.8, and a total of 4.8 mg is
    not. *)
Example threshold_examples :
  Float64.calculate_deficiency Float64.rounded_square
    [("Protein", 1e9%float); ("Fiber", 1e9%float); ("Calcium", 1e9%float);
     ("Iron", 1e9%float); ("Vitamin C", 59.4%float)] "male" 175 50
  = inr [("Vitamin C", "39.6 mg")]
  /\ PyFloat.repr
       (Float64.threshold
          (Float64.adjust 16.326530612244898
             (Float64.initial_baseline "male")) VitaminC)
     = "59.400000000000006"
  /\ Float64.calculate_deficiency Float64.rounded_square
       [("Protein", 1e9%float); ("Fiber", 1e9%float);
        ("Calcium", 1e9%float); ("Vitamin C", 1e9%float);
        ("Iron", 4.8%float)] "male" 175 70
     = inr [].
Proof. repeat split; vm_compute; reflexivity. Qed.

(** C2: for every nutrient flagged deficient, the reported string is the
    adjusted baseline minus the accumulated total as the code computes it
    (for Protein and Fiber the difference in milligrams divided by 1000,
    for the others the difference), rounded to two decimals as [round]
    does and printed as a float is, followed by a space and the suffix g
    for Protein and Fiber, mg for Vitamin C, Iron and Calcium. *)
Theorem C2_reported_is_baseline_minus_total
    (libm_pow : float -> float -> float * errno) (totals : dict float)
    (gender : string) (height_cm weight_kg bmi : float) :
  Float64.bmi_of libm_pow height_cm weight_kg = inr bmi ->
  exists defic,
    Float64.calculate_deficiency libm_pow totals gender height_cm weight_kg
    = inr defic
    /\ forall n : nutrient,
         mem (key n) defic = true ->
         let b := Float64.adjust bmi (Float64.initial_baseline gender) in
         let have := Float64.total_mg totals n in
         get defic (key n)
         = Some (PyFloat.fmt_round2
                   (match n with
                    | Protein | Fiber =>
                        (Float64.baseline_of b n * 1000 - have) / 1000
                    | _ => Float64.baseline_of b n - have
                    end)%float
                 ++ " "
                 ++ match n with Protein | Fiber => "g" | _ => "mg" end).
Proof.
  intro Hbmi. eexists. split.
  - apply calculate_deficiency_returns. exact Hbmi.
  - intros n Hmem b have. unfold mem in Hmem.
    rewrite get_score in *. fold b have in Hmem |- *.
    destruct (have <? Float64.threshold b n)%float; [| discriminate].
    destruct n; reflexivity.
Qed.

Lemma C2_witness :
  exists defic,
    Float64.calculate_deficiency Float64.rounded_square
      [("Protein", 5%float); ("Iron", 0.865%float)] "male" 175 70
    = inr defic
    /\ forall n : nutrient,
         mem (key n) defic = true ->
         let b :=
           Float64.adjust 22.857142857142858
             (Float64.initial_baseline "male") in
         let have :=
           Float64.total_mg [("Protein", 5%float); ("Iron", 0.865%float)] n in
         get defic (key n)
         = Some (PyFloat.fmt_round2
                   (match n with
                    | Protein | Fiber =>
                        (Float64.baseline_of b n * 1000 - have) / 1000
                    | _ => Float64.baseline_of b n - have
                    end)%float
                 ++ " "
                 ++ match n with Protein | Fiber => "g" | _ => "mg" end).
Proof.
  exact (C2_reported_is_baseline_minus_total Float64.rounded_square
           [("Protein", 5%float); ("Iron", 0.865%float)] "male" 175 70
           22.857142857142858 eq_refl).
Defined.

(** Reports where the rounding of the float operations decides the second
    decimal: 49.995 g of Protein short is the float 49.995, which is below
    the decimal 49.995 and rounds down; 7.135 mg of Iron short is the float
    7.135, which is below the decimal too. *)
Example rounding_examples :
  Float64.calculate_deficiency Float64.rounded_square
    [("Protein", 5%float); ("Iron", 0.865%float)] "male" 175 70
  = inr [("Protein", "49.99 g"); ("Fiber", "30.0 g");
         ("Vitamin C", "90.0 mg"); ("Iron", "7.13 mg");
         ("Calcium", "1000.0 mg")]
  /\ Float64.calculate_deficiency Float64.rounded_square
       [("Protein", 6360%float)] "male" 175 50
     = inr [("Protein", "48.64 g"); ("Fiber", "33.0 g");
            ("Vitamin C", "99.0 mg"); ("Iron", "8.8 mg");
            ("Calcium", "1100.0 mg")].
Proof. split; vm_compute; reflexivity. Qed.

(** C3, as stated, fails: with no intake at all, Protein is flagged and the
    report is the full baseline of 50 g, where 60% of the baseline less the
    total is 30 g. *)
Lemma C3_counterexample :
  Float64.calculate_deficiency Float64.rounded_square [] "male" 175 70
  = inr [("Protein", "50.0 g"); ("Fiber", "30.0 g");
         ("Vitamin C", "90.0 mg"); ("Iron", "8.0 mg");
         ("Calcium", "1000.0 mg")]
  /\ PyFloat.fmt_round2
       (Float64.shortfall_below_threshold
          (Float64.initial_baseline "male") [] Protein) ++ " g"
     = "30.0 g"
  /\ "50.0 g" <> "30.0 g".
Proof.
  split; [vm_compute; reflexivity |].
  split; [vm_compute; reflexivity | discriminate].
Qed.

(** C3, amended: a nutrient is flagged when its accumulated total is below
    60% of the adjusted baseline, and for every flagged nutrient the
    reported deficiency is the amount by which the accumulated intake falls
    short of the full adjusted baseline, rounded to two decimals and
    printed with its unit; 60% of the baseline is the threshold of the
    flag only: with nothing eaten of a nutrient the report is the whole
    baseline, and differs from the report that the shortfall from 60% of
    the baseline would give. *)
Theorem C3_reported_shortfall_is_from_full_baseline
    (libm_pow : float -> float -> float * errno) (totals : dict float)
    (gender : string) (height_cm weight_kg bmi : float) :
  Float64.bmi_of libm_pow height_cm weight_kg = inr bmi ->
  exists defic,
    Float64.calculate_deficiency libm_pow totals gender height_cm weight_kg
    = inr defic
    /\ forall n : nutrient,
         let b := Float64.adjust bmi (Float64.initial_baseline gender) in
         let reported :=
           (PyFloat.fmt_round2 (Float64.shortfall b totals n)
            ++ " " ++ unit_suffix n)%string in
         (get defic (key n) = Some reported
          \/ get defic (key n) = None)
         /\ (get defic (key n) = Some reported
             <-> (Float64.total_mg totals n <? Float64.threshold b n)%float
                 = true)
         /\ (Float64.total_mg totals n = 0%float ->
             get defic (key n) = Some reported
             /\ reported
                = (PyFloat.fmt_round2 (Float64.baseline_of b n)
                   ++ " " ++ unit_suffix n)%string
             /\ reported
                <> (PyFloat.fmt_round2
                      (Float64.shortfall_below_threshold b totals n)
                    ++ " " ++ unit_suffix n)%string).
Proof.
  intro Hbmi. eexists. split.
  - apply calculate_deficiency_returns. exact Hbmi.
  - intros n b reported. rewrite get_score. fold b reported.
    split; [| split].
    + destruct (_ <? _)%float; auto.
    + destruct (_ <? _)%float; split; congruence.
    + intro Hz. rewrite Hz.
      pose proof (zero_below_threshold bmi gender n) as Hlt.
      cbv zeta in Hlt. fold b in Hlt. rewrite Hlt.
      split; [reflexivity |]. split.
      * unfold reported, Float64.shortfall. rewrite Hz. unfold b.
        baseline_cases bmi gender; destruct n; vm_compute; reflexivity.
      * unfold reported, Float64.shortfall,
          Float64.shortfall_below_threshold.
        rewrite Hz. unfold b.
        baseline_cases bmi gender; destruct n; vm_compute; discriminate.
Qed.

Lemma C3_witness :
  exists defic,
    Float64.calculate_deficiency Float64.rounded_square
      [("Iron", 0.89%float)] "male" 175 50
    = inr defic
    /\ forall n : nutrient,
         let b :=
           Float64.adjust 16.326530612244898
             (Float64.initial_baseline "male") in
         let reported :=
           (PyFloat.fmt_round2
              (Float64.shortfall b [("Iron", 0.89%float)] n)
            ++ " " ++ unit_suffix n)%string in
         (get defic (key n) = Some reported
          \/ get defic (key n) = None)
         /\ (get defic (key n) = Some reported
             <-> (Float64.total_mg [("Iron", 0.89%float)] n
                  <? Float64.threshold b n)%float
                 = true)
         /\ (Float64.total_mg [("Iron", 0.89%float)] n = 0%float ->
             get defic (key n) = Some reported
             /\ reported
                = (PyFloat.fmt_round2 (Float64.baseline_of b n)
                   ++ " " ++ unit_suffix n)%string
             /\ reported
                <> (PyFloat.fmt_round2
                      (Float64.shortfall_below_threshold b
                         [("Iron", 0.89%float)] n)
                    ++ " " ++ unit_suffix n)%string).
Proof.
  exact (C3_reported_shortfall_is_from_full_baseline Float64.rounded_square
           [("Iron", 0.89%float)] "male" 175 50 16.326530612244898
           eq_refl).
Defined.

(** ** Baselines and the BMI adjustment, in binary64 *)

Lemma above_25 (bmi : float) :
  (25 <? bmi)%float = true ->
  PyFloat.truthy bmi = true /\ (bmi <? 18.5)%float = false.
Proof.
  intro H. split.
  - unfold PyFloat.truthy. apply negb_true_iff.
    apply FloatFacts.ltb_not_eqb_r.
    apply (FloatFacts.ltb_trans 0 25 bmi); [reflexivity | exact H].
  - apply FloatFacts.ltb_asym.
    apply (FloatFacts.ltb_trans 18.5 25 bmi); [reflexivity | exact H].
Qed.

(** C4, as stated, fails: at height 175 and weight -50 the BMI is negative,
    so it is neither in (0, 18.5) nor above 25, and the claim promises the
    baselines unchanged; the code scales them by 1.10. *)
Lemma C4_counterexample :
  Float64.bmi_of Float64.rounded_square 175 (-50)
  = inr (-16.326530612244898)%float
  /\ (0 <? -16.326530612244898)%float = false
  /\ (25 <? -16.326530612244898)%float = false
  /\ Float64.adjust (-16.326530612244898) (Float64.initial_baseline "male")
     = Float64.scale 1.10 (Float64.initial_baseline "male")
  /\ Float64.calculate_deficiency Float64.rounded_square [] "male" 175 (-50)
     = inr [("Protein", "55.0 g"); ("Fiber", "33.0 g");
            ("Vitamin C", "99.0 mg"); ("Iron", "8.8 mg");
            ("Calcium", "1100.0 mg")]
  /\ Float64.score [] (Float64.initial_baseline "male")
     = [("Protein", "50.0 g"); ("Fiber", "30.0 g");
        ("Vitamin C", "90.0 mg"); ("Iron", "8.0 mg");
        ("Calcium", "1000.0 mg")].
Proof. repeat split; vm_compute; reflexivity. Qed.

(** C4, amended: BMI is the float weightKg / (heightCm/100) ** 2, and 0
    when heightCm > 0 does not hold; the baselines before adjustment are
    Protein 50 g, Vitamin C 90 mg, Iron 18 mg for female (in any letter
    case) and 8 mg otherwise, Calcium 1000 mg, Fiber 30 g; if BMI is not 0
    and BMI < 18.5, which a negative BMI is, every baseline is multiplied
    by 1.10, if BMI > 25 every baseline is multiplied by 0.90, and
    otherwise (BMI is 0, or neither below 18.5 nor above 25) the baselines
    are unchanged; the scorer works on the baselines so adjusted.  For a
    height above 0 whose square raises, the computation raises the same
    exception, and when the square is 0 it raises ZeroDivisionError. *)
Theorem C4_bmi_and_baselines
    (libm_pow : float -> float -> float * errno) (gender : string)
    (height_cm weight_kg : float) :
  let before := Float64.initial_baseline gender in
  let square := Float64.float_pow_2 libm_pow (height_cm / 100) in
  let bmi := Float64.bmi_of libm_pow height_cm weight_kg in
  ((0 <? height_cm)%float = false -> bmi = inr 0%float)
  /\ ((0 <? height_cm)%float = true ->
      match square with
      | inr sq =>
          if (sq =? 0)%float then bmi = inl ZeroDivisionError
          else bmi = inr (weight_kg / sq)%float
      | inl e => bmi = inl e
      end)
  /\ (Float64.Protein_g before = 50%float
      /\ Float64.Vitamin_C_mg before = 90%float
      /\ Float64.Calcium_mg before = 1000%float
      /\ Float64.Fiber_g before = 30%float
      /\ (lower gender = "female" -> Float64.Iron_mg before = 18%float)
      /\ (lower gender <> "female" -> Float64.Iron_mg before = 8%float))
  /\ forall value : float,
       bmi = inr value ->
       let after := Float64.adjust value before in
       (forall totals,
          Float64.calculate_deficiency libm_pow totals gender height_cm
            weight_kg
          = inr (Float64.score totals after))
       /\ ((value =? 0)%float = false -> (value <? 18.5)%float = true ->
           forall n,
             Float64.baseline_of after n
             = (Float64.baseline_of before n * 1.10)%float)
       /\ ((25 <? value)%float = true ->
           forall n,
             Float64.baseline_of after n
             = (Float64.baseline_of before n * 0.90)%float)
       /\ ((value =? 0)%float = true
           \/ ((value <? 18.5)%float = false
               /\ (25 <? value)%float = false) ->
           after = before).
Proof.
  intros before square bmi.
  split; [| split; [| split]].
  - intro H. unfold bmi, Float64.bmi_of. rewrite H. reflexivity.
  - intro H. unfold bmi, Float64.bmi_of. rewrite H. fold square.
    destruct square as [e | sq]; [reflexivity |].
    unfold Float64.float_div. destruct (sq =? 0)%float; reflexivity.
  - unfold before, Float64.initial_baseline. cbn.
    repeat split.
    + intros ->. reflexivity.
    + intro H. apply String.eqb_neq in H. rewrite H. reflexivity.
  - intros value Hbmi after. split; [| split; [| split]].
    + intro totals. apply calculate_deficiency_returns. exact Hbmi.
    + intros Hnz Hlt n. unfold after, Float64.adjust, PyFloat.truthy.
      rewrite Hnz, Hlt. destruct n; reflexivity.
    + intros Hgt n. unfold after, Float64.adjust.
      destruct (above_25 value Hgt) as [Ht Hlt].
      rewrite Ht, Hlt, Hgt. destruct n; reflexivity.
    + intros [Hz | [Hlo Hhi]]; unfold after, Float64.adjust,
        PyFloat.truthy.
      * rewrite Hz. reflexivity.
      * rewrite Hlo, Hhi, !andb_false_r. reflexivity.
Qed.

(** The BMI examples: 175 cm at 50 kg, 90 kg and 70 kg; 140 cm at 49 kg,
    where the quotient of the floats is 25.000000000000004 and the
    baselines are scaled by 0.90; a weight that is not a number, which
    leaves the baselines alone; and heights whose square is 0 or
    overflows. *)
Example bmi_adjustment_examples_b64 :
  let adjusted h w :=
    match Float64.bmi_of Float64.rounded_square h w with
    | inr bmi => inr (Float64.adjust bmi (Float64.initial_baseline "male"))
    | inl e => inl e
    end in
  adjusted 175%float 50%float
  = inr (Float64.scale 1.10 (Float64.initial_baseline "male"))
  /\ adjusted 175%float 90%float
     = inr (Float64.scale 0.90 (Float64.initial_baseline "male"))
  /\ adjusted 175%float 70%float = inr (Float64.initial_baseline "male")
  /\ Float64.bmi_of Float64.rounded_square 140 49
     = inr 25.000000000000004%float
  /\ adjusted 140%float 49%float
     = inr (Float64.scale 0.90 (Float64.initial_baseline "male"))
  /\ adjusted 175%float nan = inr (Float64.initial_baseline "male")
  /\ adjusted nan 70%float = inr (Float64.initial_baseline "male")
  /\ adjusted 1e-200%float 70%float = inl ZeroDivisionError
  /\ adjusted 1e200%float 70%float = inl OverflowError.
Proof. repeat split; vm_compute; reflexivity. Qed.

(** * Nutrient Aggregator, in binary64 *)

Lemma keys_add_nutrient_b64 (qty_g : float) (totals_mg : dict float)
    (e : string * (float * string)) (k : string) :
  In k (keys (Float64.add_nutrient qty_g totals_mg e)) ->
  In k (keys totals_mg) \/ In k canonical.
Proof.
  destruct e as [full_name [val unit]]. unfold Float64.add_nutrient.
  destruct (matched_key full_name) as [k' |] eqn:Hm; [| auto].
  rewrite keys_set. destruct (mem k' totals_mg); [auto |].
  rewrite in_app_iff. intros [H | [<- | []]]; [auto |].
  right. apply (matched_key_canonical _ _ Hm).
Qed.

Lemma keys_add_nutrients_b64 (qty_g : float) (nut : Float64.Nutrients)
    (totals_mg : dict float) :
  (forall k, In k (keys totals_mg) -> In k canonical) ->
  forall k,
    In k (keys (fold_left (Float64.add_nutrient qty_g) nut totals_mg)) ->
    In k canonical.
Proof.
  revert totals_mg. induction nut as [| e nut IH]; intros totals_mg H;
    cbn [fold_left]; [exact H |].
  apply IH. intros k Hk.
  destruct (keys_add_nutrient_b64 _ _ _ _ Hk); auto.
Qed.

Lemma keys_aggregate_from_b64
    (get_food_nutrients : string -> Float64.Nutrients)
    (items : list Float64.FoodItem) (totals_mg : dict float) :
  (forall k, In k (keys totals_mg) -> In k canonical) ->
  forall k,
    In k (keys (Float64.aggregate_from get_food_nutrients totals_mg items)) ->
    In k canonical.
Proof.
  revert totals_mg. induction items as [| it items IH]; intros totals_mg H;
    cbn [Float64.aggregate_from fold_left]; [exact H |].
  apply IH. unfold Float64.add_item.
  destruct (String.eqb _ _ || _); [exact H |].
  apply keys_add_nutrients_b64, H.
Qed.

(** C6: the keys of the totals are among the five canonical names at every
    point of the aggregation, after any number of whole items and after
    any number of the nutrient entries of the next one; the values do not
    always grow: a quantity that is not a number passes the test
    [qty_g <= 0], and folding in 150 g of banana and then a NaN of banana
    takes the total of Protein from 1650.0000000000002 mg to NaN, which is
    not at least the earlier total, and is displayed as nan g. *)
Theorem C6_nan_quantity_breaks_monotonicity :
  (forall (get_food_nutrients : string -> Float64.Nutrients)
          (done : list Float64.FoodItem) (it : Float64.FoodItem)
          (seen : Float64.Nutrients) (k : string),
      In k (keys (fold_left (Float64.add_nutrient (Float64.qty it)) seen
                    (Float64.aggregate get_food_nutrients done))) ->
      In k canonical)
  /\ (nan <=? 0)%float = false
  /\ Float64.aggregate Float64.banana_lookup [Float64.mkItem "banana" 150]
     = [("Protein", 1650.0000000000002%float);
        ("Fiber", 3900.0000000000005%float)]
  /\ Float64.aggregate Float64.banana_lookup
       [Float64.mkItem "banana" 150; Float64.mkItem "banana" nan]
     = [("Protein", nan); ("Fiber", nan)]
  /\ (1650.0000000000002 <=? nan)%float = false
  /\ (PyFloat.fmt_round2 (nan / 1000) ++ " g")%string = "nan g".
Proof.
  split.
  - intros get_food_nutrients done it seen k.
    apply keys_add_nutrients_b64.
    apply keys_aggregate_from_b64. intros k' [].
  - repeat split; vm_compute; reflexivity.
Qed.

(** * Further properties in binary64 *)

(** X11: a request whose five totals reach 66% of the baselines before
    adjustment, the 66% taken as the float product of the baseline in
    milligrams and 0.66, has no deficiency at any BMI: the thresholds of
    the three adjustments are floats that are at most that product. *)
Theorem no_deficiency_at_66_percent
    (totals : dict float) (gender : string) :
  (forall n,
     (Float64.baseline_mg (Float64.initial_baseline gender) n * 0.66
      <=? Float64.total_mg totals n)%float = true) ->
  (forall bmi,
     Float64.score totals
       (Float64.adjust bmi (Float64.initial_baseline gender)) = [])
  /\ (forall libm_pow height_cm weight_kg bmi,
        Float64.bmi_of libm_pow height_cm weight_kg = inr bmi ->
        Float64.calculate_deficiency libm_pow totals gender height_cm
          weight_kg = inr []).
Proof.
  intro H.
  assert (Hscore : forall bmi,
             Float64.score totals
               (Float64.adjust bmi (Float64.initial_baseline gender)) = []).
  { intro bmi.
    assert (Hnot : forall n,
               (Float64.total_mg totals n
                <? Float64.threshold
                     (Float64.adjust bmi (Float64.initial_baseline gender))
                     n)%float = false).
    { intro n. specialize (H n).
      destruct (_ <? _)%float eqn:E; [| reflexivity].
      exfalso.
      assert (Hle : (Float64.threshold
                       (Float64.adjust bmi (Float64.initial_baseline gender))
                       n
                     <=? Float64.baseline_mg (Float64.initial_baseline gender)
                           n * 0.66)%float = true).
      { clear. unfold Float64.adjust, Float64.initial_baseline.
        destruct (PyFloat.truthy bmi && _);
          [| destruct (PyFloat.truthy bmi && _)];
          destruct (String.eqb (lower gender) "female"); destruct n;
          vm_compute; reflexivity. }
      pose proof (FloatFacts.ltb_leb_trans _ _ _ E Hle) as H1.
      pose proof (FloatFacts.ltb_leb_trans _ _ _ H1 H) as H2.
      rewrite FloatFacts.ltb_irrefl in H2. discriminate. }
    pose proof (Hnot Protein) as HP. pose proof (Hnot Fiber) as HF.
    pose proof (Hnot VitaminC) as HV. pose proof (Hnot Iron) as HI.
    pose proof (Hnot Calcium) as HC.
    unfold Float64.total_mg, Float64.threshold, Float64.baseline_mg
      in HP, HF, HV, HI, HC.
    cbn [key in_grams Float64.baseline_of] in HP, HF, HV, HI, HC.
    unfold Float64.score, Float64.check_grams, Float64.check_milligrams.
    cbn [fold_left]. rewrite HP, HF. cbn [fold_left]. rewrite HV, HI, HC.
    reflexivity. }
  split; [exact Hscore |].
  intros libm_pow height_cm weight_kg bmi Hbmi.
  rewrite (calculate_deficiency_returns _ _ _ _ _ _ Hbmi), Hscore.
  reflexivity.
Qed.

Lemma no_deficiency_at_66_percent_witness :
  (forall bmi,
     Float64.score
       [("Protein", 33000%float); ("Fiber", 19800%float);
        ("Vitamin C", 59.400000000000006%float); ("Iron", 5.28%float);
        ("Calcium", 660%float)]
       (Float64.adjust bmi (Float64.initial_baseline "male")) = [])
  /\ (forall libm_pow height_cm weight_kg bmi,
        Float64.bmi_of libm_pow height_cm weight_kg = inr bmi ->
        Float64.calculate_deficiency libm_pow
          [("Protein", 33000%float); ("Fiber", 19800%float);
           ("Vitamin C", 59.400000000000006%float); ("Iron", 5.28%float);
           ("Calcium", 660%float)] "male" height_cm weight_kg = inr []).
Proof.
  apply (no_deficiency_at_66_percent
           [("Protein", 33000%float); ("Fiber", 19800%float);
            ("Vitamin C", 59.400000000000006%float); ("Iron", 5.28%float);
            ("Calcium", 660%float)] "male").
  intro n. destruct n; vm_compute; reflexivity.
Defined.

(** ** Totals that are not a number *)

Lemma is_nan_Prim2SF (x : float) :
  is_nan x = true <-> Prim2SF x = S754_nan.
Proof.
  unfold Prim2SF. destruct (is_nan x); [tauto |].
  split; [discriminate |].
  destruct (is_zero x); [discriminate |].
  destruct (is_infinity x); [discriminate |].
  repeat match goal with
         | |- context [let (_, _) := ?t in _] => destruct t
         end.
  destruct (shr_m _); discriminate.
Qed.

Lemma nan_add_l (x y : float) : is_nan x = true -> is_nan (x + y) = true.
Proof.
  rewrite !is_nan_Prim2SF, add_spec. intros ->. reflexivity.
Qed.

Lemma nan_add_r (x y : float) : is_nan y = true -> is_nan (x + y) = true.
Proof.
  rewrite !is_nan_Prim2SF, add_spec. intros ->.
  destruct (Prim2SF x) as [[] | [] | | [] ? ?]; reflexivity.
Qed.

Lemma nan_mul_r (x y : float) : is_nan y = true -> is_nan (x * y) = true.
Proof.
  rewrite !is_nan_Prim2SF, mul_spec. intros ->.
  destruct (Prim2SF x) as [[] | [] | | [] ? ?]; reflexivity.
Qed.

Lemma nan_mul_l (x y : float) : is_nan x = true -> is_nan (x * y) = true.
Proof.
  rewrite !is_nan_Prim2SF, mul_spec. intros ->. reflexivity.
Qed.

Lemma nan_div_l (x y : float) : is_nan x = true -> is_nan (x / y) = true.
Proof.
  rewrite !is_nan_Prim2SF, div_spec. intros ->. reflexivity.
Qed.

Lemma nan_not_below (x y : float) : is_nan x = true -> (x <? y)%float = false.
Proof.
  rewrite is_nan_Prim2SF, FloatAxioms.ltb_spec. intros ->. reflexivity.
Qed.

Lemma nan_not_at_most (x y : float) :
  is_nan x = true -> (x <=? y)%float = false.
Proof.
  rewrite is_nan_Prim2SF, FloatAxioms.leb_spec. intros ->. reflexivity.
Qed.

Lemma nan_convert_to_mg (amount : float) (unit : string) :
  is_nan amount = true -> is_nan (Float64.convert_to_mg amount unit) = true.
Proof.
  intro H. unfold Float64.convert_to_mg.
  destruct (in_tuple _ _); [apply nan_mul_l, H |].
  destruct (in_tuple _ _); exact H.
Qed.

(** A total that is not a number stays so. *)
Lemma nan_add_nutrient (qty_g : float) (totals_mg : dict float)
    (e : string * (float * string)) (k : string) :
  is_nan (get_default totals_mg k 0%float) = true ->
  is_nan (get_default (Float64.add_nutrient qty_g totals_mg e) k 0%float)
  = true.
Proof.
  intro H. destruct e as [full_name [val unit]]. unfold Float64.add_nutrient.
  destruct (matched_key full_name) as [k' |]; [| exact H].
  rewrite get_default_set.
  destruct (String.eqb k' k) eqn:E; [| exact H].
  apply String.eqb_eq in E. subst k'. apply nan_add_l, H.
Qed.

Lemma nan_add_nutrients (qty_g : float) (nut : Float64.Nutrients)
    (totals_mg : dict float) (k : string) :
  is_nan (get_default totals_mg k 0%float) = true ->
  is_nan (get_default (fold_left (Float64.add_nutrient qty_g) nut totals_mg)
            k 0%float)
  = true.
Proof.
  revert totals_mg. induction nut as [| e nut IH]; intros totals_mg H;
    cbn [fold_left]; [exact H |].
  apply IH, nan_add_nutrient, H.
Qed.

Lemma nan_aggregate_from (get_food_nutrients : string -> Float64.Nutrients)
    (items : list Float64.FoodItem) (totals_mg : dict float) (k : string) :
  is_nan (get_default totals_mg k 0%float) = true ->
  is_nan (get_default
            (Float64.aggregate_from get_food_nutrients totals_mg items)
            k 0%float)
  = true.
Proof.
  revert totals_mg. induction items as [| it items IH]; intros totals_mg H;
    cbn [Float64.aggregate_from fold_left]; [exact H |].
  apply IH. unfold Float64.add_item.
  destruct (String.eqb _ _ || _); [exact H |].
  apply nan_add_nutrients, H.
Qed.

(** A quantity that is not a number makes the total of every key that the
    food has an entry for not a number. *)
Lemma nan_quantity_add_nutrients (qty_g : float) (nut : Float64.Nutrients)
    (totals_mg : dict float) (k full_name : string) (val : float)
    (unit : string) :
  is_nan qty_g = true ->
  In (full_name, (val, unit)) nut ->
  matched_key full_name = Some k ->
  is_nan (get_default (fold_left (Float64.add_nutrient qty_g) nut totals_mg)
            k 0%float)
  = true.
Proof.
  intros Hq Hin Hm. revert totals_mg.
  induction nut as [| e nut IH]; intro totals_mg; [destruct Hin |].
  cbn [fold_left]. destruct Hin as [-> | Hin]; [| apply IH, Hin].
  apply nan_add_nutrients. unfold Float64.add_nutrient. rewrite Hm.
  rewrite get_default_set, String.eqb_refl.
  apply nan_add_r, nan_convert_to_mg, nan_mul_r, nan_div_l, Hq.
Qed.

(** X28: a total that is not a number is never reported deficient, at any
    baselines: every comparison with NaN is false. *)
Theorem nan_total_is_never_deficient
    (totals : dict float) (b : Float64.Baseline) (n : nutrient) :
  is_nan (Float64.total_mg totals n) = true ->
  mem (key n) (Float64.score totals b) = false.
Proof.
  intro H. unfold mem. rewrite get_score, (nan_not_below _ _ H).
  reflexivity.
Qed.

Lemma nan_total_is_never_deficient_witness :
  mem (key Protein)
    (Float64.score [("Protein", nan)] (Float64.initial_baseline "male"))
  = false.
Proof.
  apply (nan_total_is_never_deficient [("Protein", nan)]
           (Float64.initial_baseline "male") Protein).
  reflexivity.
Defined.

(** X29: one item whose quantity is not a number, of a food that has an
    entry for a nutrient, hides that nutrient for the whole request: the
    item passes the test of the loop head, the total of the nutrient is
    NaN from there on whatever the other items are, and the scorer does
    not report the nutrient at any height and weight. *)
Theorem nan_quantity_hides_the_nutrient
    (get_food_nutrients : string -> Float64.Nutrients)
    (before after : list Float64.FoodItem) (it : Float64.FoodItem)
    (n : nutrient) (full_name : string) (val : float) (unit : string) :
  strip (Float64.name it) <> "" ->
  is_nan (Float64.qty it) = true ->
  In (full_name, (val, unit)) (get_food_nutrients (strip (Float64.name it))) ->
  matched_key full_name = Some (key n) ->
  let totals :=
    Float64.aggregate get_food_nutrients (before ++ it :: after) in
  is_nan (Float64.total_mg totals n) = true
  /\ (forall b, mem (key n) (Float64.score totals b) = false)
  /\ (forall libm_pow gender height_cm weight_kg bmi,
        Float64.bmi_of libm_pow height_cm weight_kg = inr bmi ->
        exists defic,
          Float64.calculate_deficiency libm_pow totals gender height_cm
            weight_kg = inr defic
          /\ mem (key n) defic = false).
Proof.
  intros Hname Hq Hin Hm totals.
  assert (Hnan : is_nan (Float64.total_mg totals n) = true).
  { unfold totals, Float64.total_mg, Float64.aggregate,
      Float64.aggregate_from.
    rewrite fold_left_app. cbn [fold_left].
    apply (nan_aggregate_from get_food_nutrients after).
    unfold Float64.add_item.
    apply String.eqb_neq in Hname.
    rewrite Hname, (nan_not_at_most _ _ Hq). cbn [orb].
    apply (nan_quantity_add_nutrients _ _ _ _ _ _ _ Hq Hin Hm). }
  assert (Hscore : forall b, mem (key n) (Float64.score totals b) = false).
  { intro b. unfold mem. rewrite get_score, (nan_not_below _ _ Hnan).
    reflexivity. }
  split; [exact Hnan | split; [exact Hscore |]].
  intros libm_pow gender height_cm weight_kg bmi Hbmi.
  eexists. split; [apply calculate_deficiency_returns, Hbmi | apply Hscore].
Qed.

Lemma nan_quantity_hides_the_nutrient_witness :
  let totals :=
    Float64.aggregate Float64.banana_lookup
      ([Float64.mkItem "banana" 150]
       ++ Float64.mkItem " banana " nan :: [Float64.mkItem "banana" 100]) in
  is_nan (Float64.total_mg totals Fiber) = true
  /\ (forall b, mem (key Fiber) (Float64.score totals b) = false)
  /\ (forall libm_pow gender height_cm weight_kg bmi,
        Float64.bmi_of libm_pow height_cm weight_kg = inr bmi ->
        exists defic,
          Float64.calculate_deficiency libm_pow totals gender height_cm
            weight_kg = inr defic
          /\ mem (key Fiber) defic = false).
Proof.
  apply (nan_quantity_hides_the_nutrient Float64.banana_lookup
           [Float64.mkItem "banana" 150] [Float64.mkItem "banana" 100]
           (Float64.mkItem " banana " nan) Fiber
           "Fiber, total dietary" 2.6%float "G").
  - vm_compute. discriminate.
  - reflexivity.
  - vm_compute. right. left. reflexivity.
  - reflexivity.
Defined.

(** ** The displayed totals *)

Lemma get_fold_set {V W} (f : string -> V -> W) (d : dict V) (acc : dict W)
    (k : string) :
  NoDup (keys d) ->
  get (fold_left (fun h kv => set h (fst kv) (f (fst kv) (snd kv))) d acc) k
  = match get d k with
    | Some v => Some (f k v)
    | None => get acc k
    end.
Proof.
  revert acc. induction d as [| [k0 v0] t IH]; intros acc Hnd;
    cbn [fold_left get fst snd]; [reflexivity |].
  cbn [keys map fst] in Hnd. fold (keys t) in Hnd.
  apply NoDup_cons_iff in Hnd. destruct Hnd as [Hk0 Hnd].
  rewrite (IH _ Hnd), get_set.
  destruct (String.eqb k0 k) eqn:E; [| reflexivity].
  apply String.eqb_eq in E. subst k0.
  assert (Hnone : get t k = None) by (apply get_None_not_In; exact Hk0).
  rewrite Hnone. reflexivity.
Qed.

Lemma NoDup_add_nutrients_b64 (qty_g : float) (nut : Float64.Nutrients)
    (totals_mg : dict float) :
  NoDup (keys totals_mg) ->
  NoDup (keys (fold_left (Float64.add_nutrient qty_g) nut totals_mg)).
Proof.
  revert totals_mg.
  induction nut as [| [full_name [val unit]] nut IH]; intros totals_mg H;
    cbn [fold_left]; [exact H |].
  apply IH. unfold Float64.add_nutrient.
  destruct (matched_key full_name); [apply NoDup_keys_set |]; exact H.
Qed.

Lemma NoDup_aggregate_b64 (get_food_nutrients : string -> Float64.Nutrients)
    (items : list Float64.FoodItem) :
  NoDup (keys (Float64.aggregate get_food_nutrients items)).
Proof.
  unfold Float64.aggregate, Float64.aggregate_from.
  assert (H : NoDup (keys (@nil (string * float)))) by constructor.
  revert H. generalize (@nil (string * float)).
  induction items as [| it items IH]; intros totals_mg H; cbn [fold_left];
    [exact H |].
  apply IH. unfold Float64.add_item.
  destruct (String.eqb _ _ || _); [exact H |].
  apply NoDup_add_nutrients_b64, H.
Qed.

(** X24: the totals that the response displays.  A key is displayed
    exactly when it has a total, and then with the rendering of that total:
    for Protein and Fiber the total divided by 1000, rounded to two
    decimals and followed by g, for the others the total rounded and
    followed by mg; the displayed keys are canonical names; and every
    canonical nutrient without a displayed total is reported deficient.
    The statements are about keys and values, not about the order of the
    keys, which the serialisation of the response sorts. *)
Theorem displayed_totals_are_consistent
    (get_food_nutrients : string -> Float64.Nutrients)
    (items : list Float64.FoodItem) (gender : string) (bmi : float) :
  let totals_mg := Float64.aggregate get_food_nutrients items in
  let human_totals := Float64.human_totals totals_mg in
  let defic :=
    Float64.score totals_mg
      (Float64.adjust bmi (Float64.initial_baseline gender)) in
  (forall k,
     get human_totals k
     = match get totals_mg k with
       | Some v =>
           Some (if in_tuple k ["Protein"; "Fiber"]
                 then PyFloat.fmt_round2 (v / 1000) ++ " g"
                 else PyFloat.fmt_round2 v ++ " mg")
       | None => None
       end)
  /\ (forall k, In k (keys human_totals) -> In k canonical)
  /\ (forall n,
        mem (key n) human_totals = false -> mem (key n) defic = true).
Proof.
  intros totals_mg human_totals defic.
  assert (Hget : forall k,
             get human_totals k
             = match get totals_mg k with
               | Some v => Some (Float64.human_total k v)
               | None => None
               end).
  { intro k. unfold human_totals, Float64.human_totals.
    rewrite get_fold_set by apply NoDup_aggregate_b64.
    reflexivity. }
  split; [exact Hget | split].
  - intros k Hin.
    apply (keys_aggregate_from_b64 get_food_nutrients items []);
      [intros k' [] |].
    apply mem_In_keys. apply mem_In_keys in Hin. unfold mem in *.
    rewrite Hget in Hin. fold totals_mg.
    change (Float64.aggregate_from get_food_nutrients [] items)
      with totals_mg.
    destruct (get totals_mg k); [reflexivity | discriminate].
  - intros n Hmem. unfold mem in Hmem. rewrite Hget in Hmem.
    assert (Hzero : Float64.total_mg totals_mg n = 0%float).
    { unfold Float64.total_mg, get_default.
      destruct (get totals_mg (key n)); [discriminate | reflexivity]. }
    unfold mem, defic. rewrite get_score, Hzero.
    pose proof (zero_below_threshold bmi gender n) as Hlt.
    cbv zeta in Hlt. rewrite Hlt. reflexivity.
Qed.

(** Displayed totals where the rounding of the division decides: 5 mg of
    Protein is the float 0.005 g, which is above the decimal 0.005 and is
    displayed as 0.01 g; a total that is not a number is displayed as
    such. *)
Example human_totals_examples :
  Float64.human_totals
    [("Protein", 5%float); ("Iron", 0.865%float); ("Fiber", nan);
     ("Calcium", 1650.0000000000002%float)]
  = [("Protein", "0.01 g"); ("Iron", "0.86 mg"); ("Fiber", "nan g");
     ("Calcium", "1650.0 mg")].
Proof. vm_compute. reflexivity. Qed.

(** ** Rounding in the totals *)

(** The float sums depend on the order of the items, and the float
    products do not commute with scaling: 10 g, 30 g and 150 g of banana
    total 2090.0 mg of Protein in that order and 2090.0000000000005 mg
    with the first item moved to the end; 10 g give 110.00000000000001 mg,
    three times which is 330.00000000000006 mg, and 30 g give 330.0 mg. *)
Example rounding_in_the_totals :
  let total quantities :=
    get (Float64.aggregate Float64.banana_lookup
           (map (Float64.mkItem "banana") quantities)) "Protein" in
  total [10; 30; 150]%float = Some 2090%float
  /\ total [30; 150; 10]%float = Some 2090.0000000000005%float
  /\ total [10]%float = Some 110.00000000000001%float
  /\ (3 * 110.00000000000001)%float = 330.00000000000006%float
  /\ total [30]%float = Some 330%float.
Proof. repeat split; vm_compute; reflexivity. Qed.

(** * The properties above at concrete inputs *)



Lemma deficiencies_read_five_keys_witness :
  calculate_deficiency [("Sodium", Q2Qc 5); ("Iron", Q2Qc 3)] "male"
    (Q2Qc 175) (Q2Qc 70)
  = calculate_deficiency [("Iron", Q2Qc 3)] "male" (Q2Qc 175) (Q2Qc 70).
Proof.
  apply (deficiencies_read_five_keys
           [("Sodium", Q2Qc 5); ("Iron", Q2Qc 3)] [("Iron", Q2Qc 3)]).
  intros []; reflexivity.
Defined.

Lemma more_intake_fewer_deficiencies_witness :
  mem (key Iron)
    (calculate_deficiency [("Iron", Q2Qc 1)] "male" (Q2Qc 175) (Q2Qc 70))
  = true.
Proof.
  apply (more_intake_fewer_deficiencies
           [("Iron", Q2Qc 1)] [("Iron", Q2Qc 3)] "male" (Q2Qc 175)
           (Q2Qc 70) Iron).
  - intros []; vm_compute; discriminate.
  - vm_compute. reflexivity.
Defined.

Lemma cap_drops_weather_foods_first_witness :
  exists rec,
    recommend_foods
      [("Protein", "20.0 g"); ("Iron", "5.0 mg"); ("Fiber", "12.0 g")]
      [("temp", WNumber (Q2Qc 12))]
    = Some rec
    /\ rec
       = [ Pair "Chicken" "27 g"; Pair "Eggs" "13 g"; Pair "Paneer" "18 g";
           Pair "Spinach" "2.7 mg"; Pair "Liver" "6.5 mg";
           Pair "Beans" "3.7 mg"; Pair "Oats" "10 g"; Pair "Apple" "4.5 g";
           Pair "Carrots" "3 g"; Triple "Soup" "-" "-" ].
Proof.
  destruct (cap_drops_weather_foods_first
              [("Protein", "20.0 g"); ("Iron", "5.0 mg"); ("Fiber", "12.0 g")]
              [("temp", WNumber (Q2Qc 12))] false eq_refl)
    as [rec [Hrec [_ [H9 _]]]].
  exists rec. split; [exact Hrec | exact (H9 eq_refl)].
Defined.

Lemma weather_foods_by_deficiency_count_witness :
  exists rec,
    recommend_foods
      (calculate_deficiency
         [ ("Protein", Q2Qc 40000); ("Fiber", Q2Qc 25000);
           ("Calcium", Q2Qc 900) ]
         "male" (Q2Qc 175) (Q2Qc 70))
      [("temp", WNumber (Q2Qc 35))]
    = Some rec
    /\ rec
       = [ Pair "Orange" "53 mg"; Pair "Guava" "200 mg"; Pair "Kiwi" "90 mg";
           Pair "Spinach" "2.7 mg"; Pair "Liver" "6.5 mg";
           Pair "Beans" "3.7 mg"; Triple "Cucumber" "-" "-";
           Triple "Yogurt" "-" "-" ].
Proof.
  destruct (weather_foods_by_deficiency_count
              [ ("Protein", Q2Qc 40000); ("Fiber", Q2Qc 25000);
                ("Calcium", Q2Qc 900) ]
              "male" (Q2Qc 175) (Q2Qc 70)
              [("temp", WNumber (Q2Qc 35))] true eq_refl)
    as [rec [Hrec [_ [H2 _]]]].
  exists rec. split; [exact Hrec |].
  rewrite H2; [vm_compute; reflexivity |].
  vm_compute. lia.
Defined.

Lemma parser_recovers_wrapped_object_witness :
  parse_response reply_loads reply_text
  = Some {| summary := JStr "ok";
            meal_plan := JArr [];
            advice := JStr "drink water" |}.
Proof.
  exact (proj2 (parser_recovers_wrapped_object reply_loads
                  "Here you go: "
                  (dq ++ "summary" ++ dq ++ ":" ++ dq ++ "ok" ++ dq ++ ","
                   ++ dq ++ "meal_plan" ++ dq ++ ":[],"
                   ++ dq ++ "advice" ++ dq ++ ":" ++ dq ++ "drink water"
                   ++ dq)
                  " thanks"
                  [ ("summary", JStr "ok"); ("meal_plan", JArr []);
                    ("advice", JStr "drink water") ]
                  eq_refl eq_refl eq_refl)).
Defined.

Lemma parser_two_objects_fall_back_witness :
  parse_response reply_loads "Either {a} or {b}, your choice"
  = Some {| summary := JStr "Either {a} or {b}, your choice";
            meal_plan := JArr [];
            advice := JStr "" |}.
Proof.
  exact (proj2 (parser_two_objects_fall_back reply_loads
                  "Either " "a" " or " "b" ", your choice"
                  eq_refl eq_refl)
           eq_refl).
Defined.

Lemma fallback_summary_is_trimmed_witness :
  exists s,
    parse_response reply_loads "  no JSON today  "
    = Some {| summary := JStr s; meal_plan := JArr []; advice := JStr "" |}
    /\ s = "no JSON today".
Proof.
  destruct (fallback_summary_is_trimmed reply_loads "  no JSON today  "
              eq_refl) as [s [Hs [Heq _]]].
  exists s. split; [exact Hs | exact Heq].
Defined.

Lemma one_bad_entry_voids_the_lookup_witness :
  nutrients_of_response number_to_float
    (JObj (response_with (sample_entries ++ [JStr "n/a"])))
  = [].
Proof.
  apply (one_bad_entry_voids_the_lookup number_to_float
           (response_with (sample_entries ++ [JStr "n/a"]))
           [ ("description", JStr "Bananas, raw");
             ("foodNutrients", JArr (sample_entries ++ [JStr "n/a"])) ]
           [] (sample_entries ++ [JStr "n/a"]) (JStr "n/a")).
  - reflexivity.
  - reflexivity.
  - right. right. right. left. reflexivity.
  - discriminate.
Defined.

Lemma lookup_entries_come_from_the_response_witness :
  strip "Fiber, total dietary" = "Fiber, total dietary".
Proof.
  destruct (lookup_entries_come_from_the_response number_to_float
              (JObj (response_with sample_entries))
              "Fiber, total dietary" (Q2Qc 2.6) (JStr "G"))
    as [d [food_data [others [ns [_ [_ [_ [_ H]]]]]]]].
  - right. left. reflexivity.
  - exact H.
Defined.

Lemma last_entry_of_a_name_wins_witness :
  get (nutrients_of_response number_to_float
         (JObj (response_with sample_entries))) "Protein"
  = Some (Q2Qc 1.1, JStr "G").
Proof.
  apply (last_entry_of_a_name_wins number_to_float
           (response_with sample_entries)
           [ ("description", JStr "Bananas, raw");
             ("foodNutrients", JArr sample_entries) ]
           []
           [ sample_entry " Protein " (Q2Qc 1.09) "G";
             sample_entry "Fiber, total dietary" (Q2Qc 2.6) "G" ]
           []
           (sample_entry "Protein" (Q2Qc 1.1) "G")).
  - reflexivity.
  - reflexivity.
  - intros m [<- | [<- | [<- | []]]]; eexists; reflexivity.
  - reflexivity.
  - intros m x' u' [].
Defined.
